(** * balldrop: the simulation core, embedded and verified

    A shallow embedding of the simulation core of the game: the platform
    factory and lane generator ([createPlatform]), the moving-platform
    kinematics ([updateMovingPlatforms]), the ball physics and its jump
    state ([updateBallPosition], [applyPlatformEffects], [jump]), the
    jetpack ([updateJetpack]), the jump-input handler ([onKeyDown]) and the
    collision system ([handlePlatformCollisions], [checkFallOutOfBounds]);
    and around it the numeric utilities, the level generators
    ([createStartingPlatforms], [generateNewLevel], [addPlatformsAsNeeded],
    [addPlatformsForNextLevel]), the ship of the grab ability
    ([updateClaw], [executeGrab], [endGrab]), the power-ups
    ([spawnPowerUps], [checkPowerUpCollisions]), the level system
    ([checkLevelCompletion], [updateDifficulty]) and the jump button of the
    touch screen.

    Conventions of the embedding.
    - A JavaScript number is a real number ([R]): rounding is ignored, and
      [Math.sin], [Math.cos], [Math.abs] and [Math.PI] are [sin], [cos],
      [Rabs] and [PI].  Comparisons are the boolean tests [<?] and [<=?]
      below.
    - The module-level variables of a source file become the fields of a
      record, threaded explicitly through the functions that read or write
      them.
    - Every call of [Math.random()] is a named field of a record of draws
      handed to the function that makes the call; a draw lies in [[0, 1)].
    - Scene-graph work (meshes, materials, colours, rotation of the visual
      body of a platform, movement indicators, logging) is left out: it
      never feeds back into the simulation state. *)

From Stdlib Require Import Reals Lra List ZArith Bool Lia.
Import ListNotations.

Open Scope R_scope.

(* ================================================================= *)
(** ** Numbers *)

Definition Rleb (a b : R) : bool := if Rle_dec a b then true else false.
Definition Rltb (a b : R) : bool := if Rlt_dec a b then true else false.
Definition Reqb (a b : R) : bool := if Req_dec_T a b then true else false.

Infix "<=?" := Rleb (at level 70, no associativity) : R_scope.
Infix "<?" := Rltb (at level 70, no associativity) : R_scope.
Infix "=?" := Reqb (at level 70, no associativity) : R_scope.

(** A comparison whose right operand may be [undefined]: in JavaScript
    [a < undefined] converts [undefined] to [NaN] and is [false]. *)
Definition Rltb_undefined (a : R) (b : option R) : bool :=
  match b with
  | Some b' => a <? b'
  | None => false
  end.

(** Truthiness of a property that may be missing from an object. *)
Definition truthy (b : option bool) : bool :=
  match b with
  | Some b' => b'
  | None => false
  end.

(** [clamp(value, min, max)] of utils/helpers.js:
    [Math.max(min, Math.min(max, value))]. *)
Definition clamp (value lo hi : R) : R := Rmax lo (Rmin hi value).

Record Vec3 : Type := mkVec3 { x : R; y : R; z : R }.

(** [isBetween(value, min, max)] of utils/helpers.js:
    [value >= min && value <= max]. *)
Definition isBetween (value lo hi : R) : bool :=
  (lo <=? value) && (value <=? hi).

(** [distance(point1, point2)]. *)
Definition distance (point1 point2 : Vec3) : R :=
  let dx := x point2 - x point1 in
  let dy := y point2 - y point1 in
  let dz := z point2 - z point1 in
  sqrt (dx * dx + dy * dy + dz * dz).

(* ================================================================= *)
(** ** config.js *)

Module Config.

Record GameSettings : Type := {
  initialSpeed : R;
  gravity : R;
  jumpForce : R;
  maxJumpForce : R;
  platformsPerLevel : Z;
  platformSpawnZ : R;
  jetpackBoostForce : R;
  distanceForNextLevel : R;
  (** [minSpeed] is read by [applyPlatformEffects]; an object that has no
      such key yields [undefined], which is [None] here. *)
  minSpeed : option R
}.

(** The object literal of config.js.  It has no [minSpeed] key. *)
Definition GAME_SETTINGS : GameSettings := {|
  initialSpeed := 0.15;
  gravity := 0.02;
  jumpForce := 0.3;
  maxJumpForce := 0.4;
  platformsPerLevel := 20;
  platformSpawnZ := -1000;
  jetpackBoostForce := 0.015;
  distanceForNextLevel := 500;
  minSpeed := None
|}.

(** [PLATFORM_TYPES]: the nine lanes, in their order from left to right. *)
Inductive Lane : Type :=
| FarFarLeft | FarLeft | Left | CenterLeft | Center
| CenterRight | Right | FarRight | FarFarRight.

Definition PLATFORM_TYPES : list Lane :=
  [FarFarLeft; FarLeft; Left; CenterLeft; Center;
   CenterRight; Right; FarRight; FarFarRight].

(** Index of a lane in [PLATFORM_TYPES]. *)
Definition laneIndex (l : Lane) : Z :=
  match l with
  | FarFarLeft => 0 | FarLeft => 1 | Left => 2 | CenterLeft => 3
  | Center => 4
  | CenterRight => 5 | Right => 6 | FarRight => 7 | FarFarRight => 8
  end%Z.

Inductive MovementType : Type :=
| Horizontal | Vertical | Diagonal | Orbital | Figure8 | Pendulum.

Record PlatformMovement : Type := {
  baseSpeed : R;
  horizontalRange : R;
  verticalRange : R;
  diagonalRange : R;
  orbitalRadius : R;
  figure8Scale : R * R;
  pendulumLength : R;
  types : list MovementType
}.

Definition PLATFORM_MOVEMENT : PlatformMovement := {|
  baseSpeed := 0.02;
  horizontalRange := 10;
  verticalRange := 5;
  diagonalRange := 7;
  orbitalRadius := 8;
  figure8Scale := (10, 5);
  pendulumLength := 12;
  types := [Horizontal; Vertical; Diagonal; Orbital; Figure8; Pendulum]
|}.

(** [GAME_SETTINGS.grabDoubleTapWindow], in milliseconds. *)
Definition grabDoubleTapWindow : R := 300.

End Config.

(* ================================================================= *)
(** ** entities/platform.js: platforms and their factory *)

Module Platform.
Import Config.

Inductive BounceEffect : Type := Forward | Backward.

Inductive Axis : Type := AxisX | AxisY.

(** The movement-specific properties that [createPlatform] stores in
    [userData], one constructor per [movementType].  [movementRange] is a
    number for horizontal and vertical platforms and an object [{x, y}]
    for diagonal ones. *)
Inductive MovementParams : Type :=
| MHorizontal (movementRange : R)
| MVertical (movementRange : R)
| MDiagonal (movementRangeX movementRangeY diagonalDirection : R)
| MOrbital (orbitalRadius : R)
| MFigure8 (figure8ScaleX figure8ScaleY : R)
| MPendulum (pendulumLength : R) (pendulumAxis : Axis).

Definition movementTypeOf (p : MovementParams) : MovementType :=
  match p with
  | MHorizontal _ => Horizontal
  | MVertical _ => Vertical
  | MDiagonal _ _ _ => Diagonal
  | MOrbital _ => Orbital
  | MFigure8 _ _ => Figure8
  | MPendulum _ _ => Pendulum
  end.

(** The properties a moving platform carries.  [params] is [None] when
    [movementType] matches no case of the switch. *)
Record Movement : Type := {
  originalPosition : Vec3;
  movementProgress : R;
  movementSpeed : R;
  lastPosition : Vec3;
  params : option MovementParams
}.

(** [userData].  [isMovingPlatform] is [movement <> None]; a property an
    object literal does not set is falsy ([false], [None]); [radius] is
    only read on round platforms. *)
Record UserData : Type := {
  width : R;
  depth : R;
  radius : R;
  isRoundPlatform : bool;
  isTrampoline : bool;
  isSlowDownTrampoline : bool;
  bounceEffect : option BounceEffect;
  type : Lane;
  isRedFlagPlatform : bool;
  movement : option Movement
}.

Record Platform : Type := {
  position : Vec3;
  userData : UserData
}.

Definition isMovingPlatform (p : Platform) : bool :=
  match movement (userData p) with Some _ => true | None => false end.

(** The module-level variables of platform.js. *)
Record State : Type := {
  platforms : list Platform;
  lastPlatformPosition : Vec3;
  lastPlatformType : Lane;
  redFlagPlatform : option Platform
}.

Definition initialState : State := {|
  platforms := [];
  lastPlatformPosition := mkVec3 0 0 0;
  lastPlatformType := Center;
  redFlagPlatform := None
|}.

(** The values of the [Math.random()] calls of one [createPlatform], by
    the place of the call. *)
Record Draws : Type := {
  rand : R;               (* lane transition *)
  laneJitter : R;         (* X inside the lane band *)
  xVariation : R;         (* nextX += Math.random() * 2 - 1 *)
  heightVariation : R;
  descent : R;            (* 2 + Math.random() * 4 *)
  gap : R;                (* 6 + Math.random() * 5.25 *)
  longRoll : R;           (* isLongPlatform *)
  widthDraw : R;
  depthDraw : R;
  platformTypeRoll : R;
  halfMoveRoll : R;       (* level % 10 === 2 && Math.random() < 0.5 *)
  moveRoll : R;           (* Math.random() < 0.1 *)
  movementTypeDraw : R;
  progressDraw : R;       (* movementProgress *)
  paramDraw : R           (* diagonalDirection or pendulumAxis *)
}.

Definition unit_draw (r : R) : Prop := 0 <= r < 1.

(** Every draw is a value [Math.random()] can return. *)
Definition valid_draws (d : Draws) : Prop :=
  unit_draw (rand d) /\ unit_draw (laneJitter d) /\
  unit_draw (xVariation d) /\ unit_draw (heightVariation d) /\
  unit_draw (descent d) /\ unit_draw (gap d) /\ unit_draw (longRoll d) /\
  unit_draw (widthDraw d) /\ unit_draw (depthDraw d) /\
  unit_draw (platformTypeRoll d) /\ unit_draw (halfMoveRoll d) /\
  unit_draw (moveRoll d) /\ unit_draw (movementTypeDraw d) /\
  unit_draw (progressDraw d) /\ unit_draw (paramDraw d).

(** The lane transition of [createPlatform]: the chain of
    [if (lastPlatformType === ...)] on the draw [rand]. *)
Definition nextLane (last : Lane) (rand : R) : Lane :=
  match last with
  | FarFarLeft => FarLeft
  | FarLeft =>
      if rand <? 0.3 then FarFarLeft
      else if rand <? 0.7 then Left
      else CenterLeft
  | Left =>
      if rand <? 0.3 then FarLeft
      else if rand <? 0.7 then CenterLeft
      else Center
  | CenterLeft =>
      if rand <? 0.3 then Left
      else if rand <? 0.7 then Center
      else CenterRight
  | Center =>
      if rand <? 0.15 then FarLeft
      else if rand <? 0.3 then Left
      else if rand <? 0.45 then CenterLeft
      else if rand <? 0.6 then CenterRight
      else if rand <? 0.75 then Right
      else if rand <? 0.9 then FarRight
      else if rand <? 0.95 then FarFarLeft
      else FarFarRight
  | CenterRight =>
      if rand <? 0.3 then Center
      else if rand <? 0.7 then Right
      else FarRight
  | Right =>
      if rand <? 0.3 then CenterRight
      else if rand <? 0.7 then FarRight
      else FarFarRight
  | FarRight =>
      if rand <? 0.7 then Right
      else FarFarRight
  | FarFarRight => FarRight
  end.

(** [switch (platformType)]: X inside the band of the lane. *)
Definition laneX (l : Lane) (jitter : R) : R :=
  match l with
  | FarFarLeft => -35 - jitter * 5
  | FarLeft => -25 - jitter * 5
  | Left => -15 - jitter * 5
  | CenterLeft => -7 - jitter * 3
  | Center => jitter * 10 - 5
  | CenterRight => 7 + jitter * 3
  | Right => 15 + jitter * 5
  | FarRight => 25 + jitter * 5
  | FarFarRight => 35 + jitter * 5
  end.

(** The starting platform of the first branch of [createPlatform]. *)
Definition startPlatform : Platform := {|
  position := mkVec3 0 0 0;
  userData := {|
    width := 30; depth := 50; radius := 0;
    isRoundPlatform := false;
    isTrampoline := false;
    isSlowDownTrampoline := false;
    bounceEffect := None;
    type := Center;
    isRedFlagPlatform := false;
    movement := None
  |}
|}.

(** The movement-specific properties set by [switch (movementType)]. *)
Definition movementParams (t : MovementType) (paramDraw : R)
  : MovementParams :=
  match t with
  | Horizontal => MHorizontal (horizontalRange PLATFORM_MOVEMENT)
  | Vertical => MVertical (verticalRange PLATFORM_MOVEMENT)
  | Diagonal =>
      MDiagonal (diagonalRange PLATFORM_MOVEMENT)
                (diagonalRange PLATFORM_MOVEMENT)
                (if paramDraw <? 0.5 then 1 else -1)
  | Orbital => MOrbital (orbitalRadius PLATFORM_MOVEMENT)
  | Figure8 =>
      MFigure8 (fst (figure8Scale PLATFORM_MOVEMENT))
               (snd (figure8Scale PLATFORM_MOVEMENT))
  | Pendulum =>
      MPendulum (pendulumLength PLATFORM_MOVEMENT)
                (if paramDraw <? 0.5 then AxisX else AxisY)
  end.

(** [level % 10 === n], with the truncating remainder of JavaScript. *)
Definition levelEndsIn (level n : Z) : bool := Z.eqb (Z.rem level 10) n.

(** [Math.floor] of a real number. *)
Definition floor (r : R) : Z := Int_part r.

(** The variables that the choice of the kind of platform sets. *)
Record Kind : Type := {
  kindIsTrampoline : bool;
  kindIsSlowDownTrampoline : bool;
  kindBounceEffect : option BounceEffect;
  kindIsRoundPlatform : bool;
  kindPlatformRadius : R
}.

(** [if (isRedFlag) { ... } else { const platformTypeRoll = Math.random();
    ... }]: a goal platform is a round speed-boost trampoline of radius 12;
    otherwise the roll chooses between a speed-boost trampoline, a slow-down
    trampoline and a regular platform. *)
Definition platformKind (isRedFlag : bool) (platformTypeRoll : R) : Kind :=
  if isRedFlag then
    {| kindIsTrampoline := true;
       kindIsSlowDownTrampoline := false;
       kindBounceEffect := Some Forward;
       kindIsRoundPlatform := true;
       kindPlatformRadius := 12 |}
  else if platformTypeRoll <? 0.167 then
    {| kindIsTrampoline := true;
       kindIsSlowDownTrampoline := false;
       kindBounceEffect := Some Forward;
       kindIsRoundPlatform := false;
       kindPlatformRadius := 0 |}
  else if platformTypeRoll <? 0.208 then
    {| kindIsTrampoline := false;
       kindIsSlowDownTrampoline := true;
       kindBounceEffect := Some Backward;
       kindIsRoundPlatform := false;
       kindPlatformRadius := 0 |}
  else
    {| kindIsTrampoline := false;
       kindIsSlowDownTrampoline := false;
       kindBounceEffect := None;
       kindIsRoundPlatform := false;
       kindPlatformRadius := 0 |}.

(** [createPlatform(isRedFlag, scene, level)]. *)
Definition createPlatform (isRedFlag : bool) (level : Z) (d : Draws)
    (st : State) : State * Platform :=
  match platforms st with
  | [] =>
      (* First platform is always at the origin and larger *)
      ({| platforms := platforms st ++ [startPlatform];
          lastPlatformPosition := mkVec3 0 0 0;
          lastPlatformType := Center;
          redFlagPlatform := redFlagPlatform st |},
       startPlatform)
  | _ :: _ =>
      let platformType := nextLane (lastPlatformType st) (rand d) in
      let nextX := laneX platformType (laneJitter d)
                   + (xVariation d * 2 - 1) in
      (* Always go lower or stay at same level, never go higher *)
      let nextY :=
        if heightVariation d <? 0.8
        then y (lastPlatformPosition st) - (2 + descent d * 4)
        else y (lastPlatformPosition st) in
      let nextZ := z (lastPlatformPosition st) - (6 + gap d * 5.25) in
      let isLongPlatform := longRoll d <? 0.2 in
      let platformWidth :=
        if isLongPlatform then 6 + widthDraw d * 6
        else 4 + widthDraw d * 8 in
      let platformDepth :=
        if isLongPlatform then 15 + depthDraw d * 15
        else 4 + depthDraw d * 8 in
      let kind := platformKind isRedFlag (platformTypeRoll d) in
      let isRound := kindIsRoundPlatform kind in
      let platformRadius := kindPlatformRadius kind in
      (* Only regular platforms can be moving platforms *)
      let isMoving :=
        negb isRedFlag
        && (match kindBounceEffect kind with
            | None => true
            | Some _ => false
            end)
        && (levelEndsIn level 5 || levelEndsIn level 4
            || (levelEndsIn level 2 && (halfMoveRoll d <? 0.5))
            || (moveRoll d <? 0.1)) in
      let movementType' : option MovementType :=
        if isMoving then
          if levelEndsIn level 4
          then Some (if movementTypeDraw d <? 0.5
                     then Horizontal else Vertical)
          else nth_error (types PLATFORM_MOVEMENT)
                 (Z.to_nat
                    (floor (movementTypeDraw d
                            * INR (length (types PLATFORM_MOVEMENT)))))
        else None in
      let pos := mkVec3 nextX nextY nextZ in
      let platform := {|
        position := pos;
        userData := {|
          width := if isRound then platformRadius * 2 else platformWidth;
          depth := if isRound then platformRadius * 2 else platformDepth;
          radius := if isRound then platformRadius else 0;
          isRoundPlatform := isRound;
          isTrampoline := kindIsTrampoline kind;
          isSlowDownTrampoline := kindIsSlowDownTrampoline kind;
          bounceEffect := kindBounceEffect kind;
          type := platformType;
          isRedFlagPlatform := isRedFlag;
          movement :=
            if isMoving then
              Some {| originalPosition := pos;
                      movementProgress := progressDraw d * PI * 2;
                      movementSpeed := baseSpeed PLATFORM_MOVEMENT;
                      lastPosition := pos;
                      params :=
                        option_map
                          (fun t => movementParams t (paramDraw d))
                          movementType' |}
            else None
        |}
      |} in
      ({| platforms := platforms st ++ [platform];
          lastPlatformPosition := pos;
          lastPlatformType := platformType;
          redFlagPlatform :=
            if isRedFlag then Some platform else redFlagPlatform st |},
       platform)
  end.

(** The arguments of one call of [createPlatform] and the draws made during
    the call. *)
Record Call : Type := {
  callIsRedFlag : bool;
  callLevel : Z;
  callDraws : Draws
}.

(** Successive calls of [createPlatform]; the platforms created are returned
    in the order of their creation.  The [for] loops of
    [createStartingPlatforms], [generateNewLevel] and
    [addPlatformsForNextLevel] are such runs of calls, all with
    [isRedFlag = false] and the same level. *)
Fixpoint createPlatforms (calls : list Call) (st : State)
  : State * list Platform :=
  match calls with
  | [] => (st, [])
  | c :: calls' =>
      let '(st1, p) :=
        createPlatform (callIsRedFlag c) (callLevel c) (callDraws c) st in
      let '(st2, ps) := createPlatforms calls' st1 in
      (st2, p :: ps)
  end.

(** The green trampoline that [createStartingPlatforms] puts at the
    origin. *)
Definition startingTrampoline : Platform := {|
  position := mkVec3 0 0 0;
  userData := {|
    width := 10; depth := 10; radius := 0;
    isRoundPlatform := false;
    isTrampoline := true;
    isSlowDownTrampoline := false;
    bounceEffect := Some Forward;
    type := Center;
    isRedFlagPlatform := false;
    movement := None
  |}
|}.

(** [createStartingPlatforms(scene)]: the trampoline, then
    [platformsPerLevel] calls [createPlatform(false, scene, 1)]; [draws i]
    are the draws of the call number [i]. *)
Definition createStartingPlatforms (draws : nat -> Draws) (st : State)
  : State :=
  fst (createPlatforms
         (map (fun i =>
                 {| callIsRedFlag := false;
                    callLevel := 1;
                    callDraws := draws i |})
              (seq 0 (Z.to_nat (platformsPerLevel GAME_SETTINGS))))
         {| platforms := [startingTrampoline];
            lastPlatformPosition := mkVec3 0 0 0;
            lastPlatformType := Center;
            redFlagPlatform := None |}).

(** [setLastPlatformState(position, type)]. *)
Definition setLastPlatformState (pos : Vec3) (ty : Lane) (st : State)
  : State :=
  {| platforms := platforms st;
     lastPlatformPosition := pos;
     lastPlatformType := ty;
     redFlagPlatform := redFlagPlatform st |}.

(** [removeAllPlatformsExceptRedFlag(scene)]. *)
Definition removeAllPlatformsExceptRedFlag (st : State) : State :=
  {| platforms :=
       filter (fun p => isRedFlagPlatform (userData p)) (platforms st);
     lastPlatformPosition := lastPlatformPosition st;
     lastPlatformType := lastPlatformType st;
     redFlagPlatform := redFlagPlatform st |}.

(** [resetPlatforms(scene)]. *)
Definition resetPlatforms (st : State) : State := initialState.

(** The object returned by [checkPlatformCollision]. *)
Module Info.

(** [platformY] and [ballRadius] are set only by the [return] inside the
    loop.  Neither [return] sets an [isTrampoline] property, which
    [handlePlatformCollisions] reads: the read yields [undefined], [None]
    here. *)
Record t : Type := {
  onPlatform : bool;
  bounceEffect : option BounceEffect;
  isRedFlagPlatform : bool;
  platformY : option R;
  ballRadius : option R;
  isTrampoline : option bool
}.

End Info.

(** [const ballRadius = 1.0]. *)
Definition ballRadius : R := 1.0.

(** The test that sets [collisionDetected], the same code in
    [checkPlatformCollision] and in [getCurrentPlatform]. *)
Definition collisionDetected (p : Platform) (ballPosition ballVelocity : Vec3)
  : bool :=
  if isRoundPlatform (userData p) then
    let dx := x ballPosition - x (position p) in
    let dz := z ballPosition - z (position p) in
    let distanceSquared := dx * dx + dz * dz in
    let platformRadius := radius (userData p) in
    (distanceSquared <=? platformRadius * 0.9 * (platformRadius * 0.9))
    && (Rabs (y ballPosition - ballRadius - (y (position p) + 0.5)) <=? 0.5)
    && (y ballVelocity <=? 0)
  else
    let minX := x (position p) - width (userData p) / 2 in
    let maxX := x (position p) + width (userData p) / 2 in
    let minZ := z (position p) - depth (userData p) / 2 in
    let maxZ := z (position p) + depth (userData p) / 2 in
    let boundsY := y (position p) + 0.5 in
    (minX <=? x ballPosition + ballRadius * 0.8)
    && (x ballPosition - ballRadius * 0.8 <=? maxX)
    && (minZ <=? z ballPosition + ballRadius * 0.8)
    && (z ballPosition - ballRadius * 0.8 <=? maxZ)
    && (Rabs (y ballPosition - ballRadius - boundsY) <=? 0.5)
    && (y ballVelocity <=? 0).

(** [checkPlatformCollision(ballPosition, ballVelocity)]: the information of
    the first platform, in the order of [platforms], that the ball touches. *)
Fixpoint checkPlatformCollision (platforms : list Platform)
    (ballPosition ballVelocity : Vec3) : Info.t :=
  match platforms with
  | [] =>
      {| Info.onPlatform := false;
         Info.bounceEffect := None;
         Info.isRedFlagPlatform := false;
         Info.platformY := None;
         Info.ballRadius := None;
         Info.isTrampoline := None |}
  | p :: rest =>
      if collisionDetected p ballPosition ballVelocity then
        {| Info.onPlatform := true;
           Info.bounceEffect := bounceEffect (userData p);
           Info.isRedFlagPlatform := isRedFlagPlatform (userData p);
           Info.platformY := Some (y (position p) + 0.5);
           Info.ballRadius := Some ballRadius;
           Info.isTrampoline := None |}
      else checkPlatformCollision rest ballPosition ballVelocity
  end.

(** [getCurrentPlatform(ballPosition, ballVelocity)]. *)
Fixpoint getCurrentPlatform (platforms : list Platform)
    (ballPosition ballVelocity : Vec3) : option Platform :=
  match platforms with
  | [] => None
  | p :: rest =>
      if collisionDetected p ballPosition ballVelocity then Some p
      else getCurrentPlatform rest ballPosition ballVelocity
  end.

Definition setMovement (p : Platform) (pos : Vec3) (m : Movement)
  : Platform :=
  {| position := pos;
     userData := {|
       width := width (userData p);
       depth := depth (userData p);
       radius := radius (userData p);
       isRoundPlatform := isRoundPlatform (userData p);
       isTrampoline := isTrampoline (userData p);
       isSlowDownTrampoline := isSlowDownTrampoline (userData p);
       bounceEffect := bounceEffect (userData p);
       type := type (userData p);
       isRedFlagPlatform := isRedFlagPlatform (userData p);
       movement := Some m
     |} |}.

(** [switch (platform.userData.movementType)]: the position of a moving
    platform at phase [progress], from its anchor [o] and its current
    position [pos]. *)
Definition trajectory (kind : option MovementParams) (o pos : Vec3)
    (progress : R) : Vec3 :=
  match kind with
  | Some (MHorizontal movementRange) =>
      mkVec3 (x o + sin progress * movementRange) (y pos) (z pos)
  | Some (MVertical movementRange) =>
      mkVec3 (x pos) (y o + sin progress * movementRange) (z pos)
  | Some (MDiagonal rangeX rangeY direction) =>
      mkVec3 (x o + sin progress * rangeX * direction)
             (y o + sin progress * rangeY)
             (z pos)
  | Some (MOrbital orbitalRadius) =>
      mkVec3 (x o + cos progress * orbitalRadius)
             (y pos)
             (z o + sin progress * orbitalRadius)
  | Some (MFigure8 scaleX scaleY) =>
      mkVec3 (x o + sin progress * scaleX)
             (y o + sin (progress * 2) * scaleY / 2)
             (z pos)
  | Some (MPendulum pendulumLength AxisX) =>
      mkVec3 (x o + sin progress * pendulumLength) (y pos) (z pos)
  | Some (MPendulum pendulumLength AxisY) =>
      mkVec3 (x pos) (y o + sin progress * pendulumLength) (z pos)
  | None => pos
  end.

(** The body of the loop of [updateMovingPlatforms]. *)
Definition updateMovingPlatform (deltaTime : R) (p : Platform) : Platform :=
  match movement (userData p) with
  | None => p
  | Some m =>
      (* Store last position for collision handling *)
      let last := mkVec3 (x (position p)) (y (position p)) (z (position p)) in
      (* Update movement progress *)
      let progress := movementProgress m + movementSpeed m * deltaTime * 60 in
      setMovement p
        (trajectory (params m) (originalPosition m) (position p) progress)
        {| originalPosition := originalPosition m;
           movementProgress := progress;
           movementSpeed := movementSpeed m;
           lastPosition := last;
           params := params m |}
  end.

(** [updateMovingPlatforms(deltaTime)]. *)
Definition updateMovingPlatforms (deltaTime : R) (st : State) : State :=
  {| platforms := map (updateMovingPlatform deltaTime) (platforms st);
     lastPlatformPosition := lastPlatformPosition st;
     lastPlatformType := lastPlatformType st;
     redFlagPlatform := redFlagPlatform st |}.

(** The object [{speed, redFlagPlatformReached}] that [generateNewLevel]
    returns. *)
Record LevelState : Type := {
  levelSpeed : R;
  levelRedFlagPlatformReached : bool
}.

(** [platformCount] of [generateNewLevel]:
    [Math.max(10, Math.floor(platformsPerLevel * (1 - level * 0.02)))]. *)
Definition platformCount (level : Z) : Z :=
  Z.max 10
    (floor (IZR (platformsPerLevel GAME_SETTINGS) * (1 - IZR level * 0.02))).

(** [generateNewLevel(level, speed, scene)]: the platform list is emptied,
    the tracking variables are set to the place meant for the goal platform,
    [createPlatform(true, scene, level)] is called, and then
    [createPlatform(false, scene, level)] [platformCount] times.  [draws 0]
    are the draws of the first call, [draws (S i)] those of the call number
    [i] of the loop. *)
Definition generateNewLevel (level : Z) (speed : R) (draws : nat -> Draws)
    (st : State) : State * LevelState :=
  let redFlagX := 0 in
  let redFlagY := 0 in
  let redFlagZ := -5 in
  let st0 := {| platforms := [];
                lastPlatformPosition := mkVec3 redFlagX redFlagY redFlagZ;
                lastPlatformType := Center;
                redFlagPlatform := None |} in
  let st1 := fst (createPlatform true level (draws 0%nat) st0) in
  let st2 :=
    fst (createPlatforms
           (map (fun i =>
                   {| callIsRedFlag := false;
                      callLevel := level;
                      callDraws := draws (S i) |})
                (seq 0 (Z.to_nat (platformCount level))))
           st1) in
  (st2, {| levelSpeed := speed; levelRedFlagPlatformReached := false |}).

(** [cleanupPlatforms(ballPosition, removeDistance, scene)]: the filter
    drops a platform when
    [platform.position.z > ballPosition.z + removeDistance]. *)
Definition cleanupPlatforms (ballPosition : Vec3) (removeDistance : R)
    (st : State) : State :=
  {| platforms :=
       filter (fun p => negb (z ballPosition + removeDistance <? z (position p)))
              (platforms st);
     lastPlatformPosition := lastPlatformPosition st;
     lastPlatformType := lastPlatformType st;
     redFlagPlatform := redFlagPlatform st |}.


(** [getLastPlatformState()]. *)
Definition getLastPlatformState (st : State) : Vec3 * Lane :=
  (lastPlatformPosition st, lastPlatformType st).

End Platform.

(* ================================================================= *)
(** ** systems/controls.js: the input state *)

Module Keys.

(** [keys]: the flat set of boolean intents. *)
Record t : Type := {
  left : bool;
  right : bool;
  up : bool;
  down : bool;
  space : bool
}.

(** [keys.space = b]. *)
Definition setSpace (b : bool) (k : t) : t :=
  {| left := left k; right := right k; up := up k; down := down k;
     space := b |}.

(** [keys.up = b]. *)
Definition setUp (b : bool) (k : t) : t :=
  {| left := left k; right := right k; up := b; down := down k;
     space := space k |}.

(** The value of [keys] at start-up and after [resetKeys()]. *)
Definition released : t :=
  {| left := false; right := false; up := false; down := false;
     space := false |}.

End Keys.

(* ================================================================= *)
(** ** entities/ball.js: the ball and its jump state *)

Module Ball.
Import Config.

(** [airEntryMethod]: how the ball got into the air; [NoEntry] is the empty
    string. *)
Inductive AirEntry : Type := NoEntry | Jumped | Bounced | Rolled | Fell.

(** The ball object ([position], [rotation]) and the module-level variables
    of ball.js. *)
Record State : Type := {
  position : Vec3;
  rotation : Vec3;
  ballVelocity : Vec3;
  isJumping : bool;
  hasDoubleJumped : bool;
  jumpChargeTime : R;
  airEntryMethod : AirEntry;
  wasOnPlatform : bool;
  extraJumps : Z
}.

(** [createBall()] followed by the initial values of the variables; also the
    state after [resetBallState()]. *)
Definition initialState : State := {|
  position := mkVec3 0 10 0;
  rotation := mkVec3 0 0 0;
  ballVelocity := mkVec3 0 0 0;
  isJumping := false;
  hasDoubleJumped := false;
  jumpChargeTime := 0;
  airEntryMethod := NoEntry;
  wasOnPlatform := false;
  extraJumps := 0
|}.

Definition resetBallState (b : State) : State := initialState.

Definition setPosition (b : State) (p : Vec3) : State :=
  {| position := p;
     rotation := rotation b;
     ballVelocity := ballVelocity b;
     isJumping := isJumping b;
     hasDoubleJumped := hasDoubleJumped b;
     jumpChargeTime := jumpChargeTime b;
     airEntryMethod := airEntryMethod b;
     wasOnPlatform := wasOnPlatform b;
     extraJumps := extraJumps b |}.

(** [setBallVelocity(velocity)]. *)
Definition setBallVelocity (v : Vec3) (b : State) : State :=
  {| position := position b;
     rotation := rotation b;
     ballVelocity := v;
     isJumping := isJumping b;
     hasDoubleJumped := hasDoubleJumped b;
     jumpChargeTime := jumpChargeTime b;
     airEntryMethod := airEntryMethod b;
     wasOnPlatform := wasOnPlatform b;
     extraJumps := extraJumps b |}.

(** [setJumpingState(state)]. *)
Definition setJumpingState (s : bool) (b : State) : State :=
  {| position := position b;
     rotation := rotation b;
     ballVelocity := ballVelocity b;
     isJumping := s;
     hasDoubleJumped := hasDoubleJumped b;
     jumpChargeTime := jumpChargeTime b;
     airEntryMethod := airEntryMethod b;
     wasOnPlatform := wasOnPlatform b;
     extraJumps := extraJumps b |}.

(** [setDoubleJumpedState(state)]. *)
Definition setDoubleJumpedState (s : bool) (b : State) : State :=
  {| position := position b;
     rotation := rotation b;
     ballVelocity := ballVelocity b;
     isJumping := isJumping b;
     hasDoubleJumped := s;
     jumpChargeTime := jumpChargeTime b;
     airEntryMethod := airEntryMethod b;
     wasOnPlatform := wasOnPlatform b;
     extraJumps := extraJumps b |}.

(** [addExtraJumps(amount)]. *)
Definition addExtraJumps (amount : Z) (b : State) : State :=
  {| position := position b;
     rotation := rotation b;
     ballVelocity := ballVelocity b;
     isJumping := isJumping b;
     hasDoubleJumped := hasDoubleJumped b;
     jumpChargeTime := jumpChargeTime b;
     airEntryMethod := airEntryMethod b;
     wasOnPlatform := wasOnPlatform b;
     extraJumps := (extraJumps b + amount)%Z |}.

(** [applyJumpForce(additionalForce)]. *)
Definition applyJumpForce (additionalForce : R) (b : State) : State :=
  setBallVelocity
    (mkVec3 (x (ballVelocity b))
            (y (ballVelocity b) + additionalForce)
            (z (ballVelocity b)))
    b.

(** [updateBallPosition(keys, deltaTime, speed, isJetpackActive,
    jetpackFuel, isOnPlatform)].  [isOnPlatform] is the callback, called
    once on the state the function starts from; [platforms] is the list
    that [getCurrentPlatform] of platform.js searches. *)
Definition updateBallPosition (platforms : list Platform.Platform)
    (keys : Keys.t) (deltaTime speed : R) (isJetpackActive : bool)
    (jetpackFuel : Z) (isOnPlatform : State -> bool) (b : State) : State :=
  let acceleration := 0.01 in
  let maxVelocity := 0.3 in
  let friction := 0.98 in
  let onPlatformNow := isOnPlatform b in
  (* Check if the ball has rolled/fallen off a platform *)
  let rolledOrFell :=
    wasOnPlatform b && negb onPlatformNow && negb (isJumping b) in
  let airEntryMethod1 :=
    if rolledOrFell then
      if 0.01 <? Rabs (x (ballVelocity b)) then Rolled else Fell
    else airEntryMethod b in
  let hasDoubleJumped1 :=
    if rolledOrFell then false else hasDoubleJumped b in
  (* If the ball is on a moving platform, apply its movement to the ball *)
  let position1 :=
    if onPlatformNow then
      match Platform.getCurrentPlatform platforms (position b)
              (ballVelocity b) with
      | Some currentPlatform =>
          match Platform.movement (Platform.userData currentPlatform) with
          | Some m =>
              let deltaX := x (Platform.position currentPlatform)
                            - x (Platform.lastPosition m) in
              let deltaY := y (Platform.position currentPlatform)
                            - y (Platform.lastPosition m) in
              let deltaZ := z (Platform.position currentPlatform)
                            - z (Platform.lastPosition m) in
              mkVec3 (x (position b) + deltaX)
                     (y (position b) + deltaY)
                     (z (position b) + deltaZ)
          | None => position b
          end
      | None => position b
      end
    else position b in
  (* Acceleration from the keys, friction, and the velocity limit *)
  let vx1 := if Keys.left keys then x (ballVelocity b) - acceleration
             else x (ballVelocity b) in
  let vx2 := if Keys.right keys then vx1 + acceleration else vx1 in
  let vx3 := vx2 * friction in
  let vx4 := clamp vx3 (- maxVelocity) maxVelocity in
  (* Jump charge while the spacebar is held on a platform *)
  let jumpChargeTime1 :=
    if Keys.space keys && negb (isJumping b) && onPlatformNow then
      let t := jumpChargeTime b + deltaTime in
      if 0.5 <? t then 0.5 else t
    else jumpChargeTime b in
  (* Gravity, unless the jetpack is active and has fuel *)
  let vy1 :=
    if negb isJetpackActive || (jetpackFuel <=? 0)%Z
    then y (ballVelocity b) - gravity GAME_SETTINGS * deltaTime * 60
    else y (ballVelocity b) in
  let terminalVelocity := -0.5 in
  let vy2 := if vy1 <? terminalVelocity then terminalVelocity else vy1 in
  (* Update ball position *)
  let position2 :=
    mkVec3 (x position1 + vx4 * deltaTime * 60)
           (y position1 + vy2 * deltaTime * 60)
           (z position1 - speed * deltaTime * 60) in
  let rotationFactor := 1 / (2 * PI) in
  {| position := position2;
     rotation :=
       mkVec3 (x (rotation b) - speed * rotationFactor * deltaTime * 360)
              (y (rotation b))
              (z (rotation b) - vx4 * rotationFactor * deltaTime * 360);
     ballVelocity := mkVec3 vx4 vy2 (z (ballVelocity b));
     isJumping := isJumping b;
     hasDoubleJumped := hasDoubleJumped1;
     jumpChargeTime := jumpChargeTime1;
     airEntryMethod := airEntryMethod1;
     wasOnPlatform := onPlatformNow;
     extraJumps := extraJumps b |}.

(** [applyPlatformEffects(platformInfo, speed)], with the settings object it
    reads; the result is the new ball state and the returned speed. *)
Definition applyPlatformEffects (settings : GameSettings)
    (platformInfo : Platform.Info.t) (speed : R) (b : State) : State * R :=
  if Platform.Info.onPlatform platformInfo && (y (ballVelocity b) <? 0) then
    match Platform.Info.bounceEffect platformInfo with
    | Some Platform.Forward =>
        ({| position := position b;
            rotation := rotation b;
            ballVelocity :=
              mkVec3 (x (ballVelocity b))
                     (maxJumpForce settings * 1.5)
                     (z (ballVelocity b) - 0.1);
            isJumping := false;
            hasDoubleJumped := false;
            jumpChargeTime := jumpChargeTime b;
            airEntryMethod := Bounced;
            wasOnPlatform := wasOnPlatform b;
            extraJumps := extraJumps b |},
         speed + 0.025)
    | Some Platform.Backward =>
        let speed1 := speed - 0.05 in
        let speed2 :=
          if Rltb_undefined speed1 (minSpeed settings)
          then match minSpeed settings with
               | Some floor => floor
               | None => speed1
               end
          else speed1 in
        ({| position := position b;
            rotation := rotation b;
            ballVelocity :=
              mkVec3 (x (ballVelocity b))
                     (maxJumpForce settings * 1.5)
                     (z (ballVelocity b) + 0.2);
            isJumping := false;
            hasDoubleJumped := false;
            jumpChargeTime := jumpChargeTime b;
            airEntryMethod := Bounced;
            wasOnPlatform := wasOnPlatform b;
            extraJumps := extraJumps b |},
         speed2)
    | None =>
        ({| position := position b;
            rotation := rotation b;
            ballVelocity :=
              mkVec3 (x (ballVelocity b)) 0 (z (ballVelocity b));
            isJumping := false;
            hasDoubleJumped := false;
            jumpChargeTime := jumpChargeTime b;
            airEntryMethod := NoEntry;
            wasOnPlatform := wasOnPlatform b;
            extraJumps := extraJumps b |},
         speed)
    end
  else (b, speed).

(** [jump(isDoubleJump, isExtraJump)]; the second component is the returned
    number of extra jumps. *)
Definition jump (isDoubleJump isExtraJump : bool) (b : State) : State * Z :=
  let b' :=
    if isExtraJump then
      {| position := position b;
         rotation := rotation b;
         ballVelocity :=
           mkVec3 (x (ballVelocity b)) (jumpForce GAME_SETTINGS * 1.0)
                  (z (ballVelocity b));
         isJumping := isJumping b;
         hasDoubleJumped := hasDoubleJumped b;
         jumpChargeTime := jumpChargeTime b;
         airEntryMethod := airEntryMethod b;
         wasOnPlatform := wasOnPlatform b;
         extraJumps := (extraJumps b - 1)%Z |}
    else if isDoubleJump then
      {| position := position b;
         rotation := rotation b;
         ballVelocity :=
           mkVec3 (x (ballVelocity b)) (jumpForce GAME_SETTINGS * 1.0)
                  (z (ballVelocity b));
         isJumping := isJumping b;
         hasDoubleJumped := true;
         jumpChargeTime := jumpChargeTime b;
         airEntryMethod := airEntryMethod b;
         wasOnPlatform := wasOnPlatform b;
         extraJumps := extraJumps b |}
    else
      {| position := position b;
         rotation := rotation b;
         ballVelocity :=
           mkVec3 (x (ballVelocity b)) (jumpForce GAME_SETTINGS)
                  (z (ballVelocity b));
         isJumping := true;
         hasDoubleJumped := false;
         jumpChargeTime := 0;
         airEntryMethod :=
           if wasOnPlatform b then Jumped else airEntryMethod b;
         wasOnPlatform := wasOnPlatform b;
         extraJumps := extraJumps b |} in
  (b', extraJumps b').

End Ball.

(* ================================================================= *)
(** ** entities/jetpack.js *)

Module Jetpack.
Import Config.

(** [updateJetpack(isJetpackActive, jetpackFuel, ballVelocity,
    updateJetpackFuel)].  [jetpack] tells whether the jetpack object exists.
    The velocity object handed over by the game loop is the one of ball.js
    and is updated in place; [updateJetpackFuel] stores its argument in the
    fuel variable of the game loop, so the second component of the result is
    that variable after the call.  The flicker of the flames is left out. *)
Definition updateJetpack (jetpack isJetpackActive : bool) (jetpackFuel : Z)
    (b : Ball.State) : Ball.State * Z :=
  if negb jetpack then (b, jetpackFuel)
  else if isJetpackActive && (0 <? jetpackFuel)%Z then
    (* Apply upward force *)
    let b1 :=
      Ball.setBallVelocity
        (mkVec3 (x (Ball.ballVelocity b))
                (y (Ball.ballVelocity b) + jetpackBoostForce GAME_SETTINGS)
                (z (Ball.ballVelocity b)))
        b in
    (* Check if this will be the last fuel point *)
    let willDepleteFuel := (jetpackFuel =? 1)%Z in
    let b2 :=
      if willDepleteFuel
      then Ball.setDoubleJumpedState false (Ball.setJumpingState true b1)
      else b1 in
    (b2, (jetpackFuel - 1)%Z)
  else (b, jetpackFuel).

(** [n] calls of [updateJetpack] in a row, each with the fuel that the call
    before it left. *)
Fixpoint updateJetpackTimes (n : nat) (jetpack isJetpackActive : bool)
    (jetpackFuel : Z) (b : Ball.State) : Ball.State * Z :=
  match n with
  | O => (b, jetpackFuel)
  | S n' =>
      let '(b1, fuel1) := updateJetpack jetpack isJetpackActive jetpackFuel b in
      updateJetpackTimes n' jetpack isJetpackActive fuel1 b1
  end.

End Jetpack.

(* ================================================================= *)
(** ** systems/collision.js *)

Module Collision.
Import Config.

(** [isOnPlatform()]. *)
Definition isOnPlatform (platforms : list Platform.Platform)
    (b : Ball.State) : bool :=
  Platform.Info.onPlatform
    (Platform.checkPlatformCollision platforms (Ball.position b)
       (Ball.ballVelocity b)).

(** What [handlePlatformCollisions] leaves behind: the ball, the returned
    object [{onPlatform, speed}], and whether the callback
    [onRedFlagPlatformReached] was called. *)
Record Result : Type := {
  ball : Ball.State;
  onPlatform : bool;
  speed : R;
  redFlagPlatformReachedCalled : bool
}.

(** [handlePlatformCollisions(speed, onRedFlagPlatformReached)]. *)
Definition handlePlatformCollisions (settings : GameSettings)
    (platforms : list Platform.Platform) (speed : R) (b : Ball.State)
  : Result :=
  (* Check if the ball is on a platform *)
  let platformInfo :=
    Platform.checkPlatformCollision platforms (Ball.position b)
      (Ball.ballVelocity b) in
  (* Apply platform effects to the ball *)
  let '(b1, newSpeed) :=
    Ball.applyPlatformEffects settings platformInfo speed b in
  if Platform.Info.onPlatform platformInfo then
    (* snap the ball to the platform surface *)
    let b2 :=
      match Platform.Info.platformY platformInfo,
            Platform.Info.ballRadius platformInfo with
      | Some platformY, Some ballRadius =>
          Ball.setPosition b1
            (mkVec3 (x (Ball.position b1)) (platformY + ballRadius)
                    (z (Ball.position b1)))
      | _, _ => b1 (* both are set whenever [onPlatform] is *)
      end in
    {| ball := b2;
       onPlatform := true;
       speed := newSpeed;
       redFlagPlatformReachedCalled :=
         Platform.Info.isRedFlagPlatform platformInfo
         && truthy (Platform.Info.isTrampoline platformInfo) |}
  else
    {| ball := b1;
       onPlatform := false;
       speed := newSpeed;
       redFlagPlatformReachedCalled := false |}.

(** [platform.position.z <= ball.position.z ||
     platform.position.y <= ball.position.y]. *)
Definition aheadOrBelow (b : Ball.State) (p : Platform.Platform) : bool :=
  (z (Platform.position p) <=? z (Ball.position b))
  || (y (Platform.position p) <=? y (Ball.position b)).

(** The loop that finds the highest platform; [None] is the initial value
    [-Infinity] of [highestPlatformY]. *)
Definition highestPlatformY (ps : list Platform.Platform) : option R :=
  fold_left
    (fun highest p =>
       match highest with
       | None => Some (y (Platform.position p))
       | Some h =>
           if h <? y (Platform.position p)
           then Some (y (Platform.position p))
           else Some h
       end)
    ps None.

(** [checkFallOutOfBounds(platforms, fallThreshold = 30)]; an argument
    [None] is an argument left out. *)
Definition checkFallOutOfBounds (platforms : list Platform.Platform)
    (fallThreshold : option R) (b : Ball.State) : bool :=
  let fallThreshold' :=
    match fallThreshold with Some t => t | None => 30 end in
  match platforms with
  | [] => false
  | _ :: _ =>
      let validPlatforms := filter (aheadOrBelow b) platforms in
      let validPlatforms' :=
        match validPlatforms with
        | [] => platforms
        | _ :: _ => validPlatforms
        end in
      match highestPlatformY validPlatforms' with
      | None => false
      | Some highest => y (Ball.position b) <? highest - fallThreshold'
      end
  end.

End Collision.

(* ================================================================= *)
(** ** main.js: the variables of the game *)

Module Game.

(** The variables of main.js together with the state of the modules it
    drives: ball.js, platform.js, controls.js, abilities.js ([isGrabbing]),
    claw.js ([spaceship], the position of the ship when it exists, and
    [ballHeld]) and jetpack.js ([jetpack], whether the jetpack exists). *)
Record t : Type := {
  ball : Ball.State;
  world : Platform.State;
  keys : Keys.t;
  isGrabbing : bool;
  spaceship : option Vec3;
  ballHeld : bool;
  jetpack : bool;
  speed : R;
  gameOver : bool;
  gameStarted : bool;
  ballReleased : bool;
  isPaused : bool;
  jetpackFuel : Z;
  isJetpackActive : bool;
  redFlagPlatformReached : bool
}.

Definition setBall (b : Ball.State) (g : t) : t :=
  {| ball := b; world := world g; keys := keys g;
     isGrabbing := isGrabbing g; spaceship := spaceship g;
     ballHeld := ballHeld g; jetpack := jetpack g; speed := speed g;
     gameOver := gameOver g; gameStarted := gameStarted g;
     ballReleased := ballReleased g; isPaused := isPaused g;
     jetpackFuel := jetpackFuel g; isJetpackActive := isJetpackActive g;
     redFlagPlatformReached := redFlagPlatformReached g |}.

Definition setWorld (w : Platform.State) (g : t) : t :=
  {| ball := ball g; world := w; keys := keys g;
     isGrabbing := isGrabbing g; spaceship := spaceship g;
     ballHeld := ballHeld g; jetpack := jetpack g; speed := speed g;
     gameOver := gameOver g; gameStarted := gameStarted g;
     ballReleased := ballReleased g; isPaused := isPaused g;
     jetpackFuel := jetpackFuel g; isJetpackActive := isJetpackActive g;
     redFlagPlatformReached := redFlagPlatformReached g |}.

Definition setKeys (k : Keys.t) (g : t) : t :=
  {| ball := ball g; world := world g; keys := k;
     isGrabbing := isGrabbing g; spaceship := spaceship g;
     ballHeld := ballHeld g; jetpack := jetpack g; speed := speed g;
     gameOver := gameOver g; gameStarted := gameStarted g;
     ballReleased := ballReleased g; isPaused := isPaused g;
     jetpackFuel := jetpackFuel g; isJetpackActive := isJetpackActive g;
     redFlagPlatformReached := redFlagPlatformReached g |}.

Definition setSpeed (s : R) (g : t) : t :=
  {| ball := ball g; world := world g; keys := keys g;
     isGrabbing := isGrabbing g; spaceship := spaceship g;
     ballHeld := ballHeld g; jetpack := jetpack g; speed := s;
     gameOver := gameOver g; gameStarted := gameStarted g;
     ballReleased := ballReleased g; isPaused := isPaused g;
     jetpackFuel := jetpackFuel g; isJetpackActive := isJetpackActive g;
     redFlagPlatformReached := redFlagPlatformReached g |}.

Definition setGameOver (v : bool) (g : t) : t :=
  {| ball := ball g; world := world g; keys := keys g;
     isGrabbing := isGrabbing g; spaceship := spaceship g;
     ballHeld := ballHeld g; jetpack := jetpack g; speed := speed g;
     gameOver := v; gameStarted := gameStarted g;
     ballReleased := ballReleased g; isPaused := isPaused g;
     jetpackFuel := jetpackFuel g; isJetpackActive := isJetpackActive g;
     redFlagPlatformReached := redFlagPlatformReached g |}.

(** [setGameStarted(started)]. *)
Definition setGameStarted (v : bool) (g : t) : t :=
  {| ball := ball g; world := world g; keys := keys g;
     isGrabbing := isGrabbing g; spaceship := spaceship g;
     ballHeld := ballHeld g; jetpack := jetpack g; speed := speed g;
     gameOver := gameOver g; gameStarted := v;
     ballReleased := ballReleased g; isPaused := isPaused g;
     jetpackFuel := jetpackFuel g; isJetpackActive := isJetpackActive g;
     redFlagPlatformReached := redFlagPlatformReached g |}.

(** The callback [(released) => { ballReleased = released; }]. *)
Definition setBallReleased (v : bool) (g : t) : t :=
  {| ball := ball g; world := world g; keys := keys g;
     isGrabbing := isGrabbing g; spaceship := spaceship g;
     ballHeld := ballHeld g; jetpack := jetpack g; speed := speed g;
     gameOver := gameOver g; gameStarted := gameStarted g;
     ballReleased := v; isPaused := isPaused g;
     jetpackFuel := jetpackFuel g; isJetpackActive := isJetpackActive g;
     redFlagPlatformReached := redFlagPlatformReached g |}.

(** [pauseGame(paused)], without the clock. *)
Definition pauseGame (v : bool) (g : t) : t :=
  {| ball := ball g; world := world g; keys := keys g;
     isGrabbing := isGrabbing g; spaceship := spaceship g;
     ballHeld := ballHeld g; jetpack := jetpack g; speed := speed g;
     gameOver := gameOver g; gameStarted := gameStarted g;
     ballReleased := ballReleased g; isPaused := v;
     jetpackFuel := jetpackFuel g; isJetpackActive := isJetpackActive g;
     redFlagPlatformReached := redFlagPlatformReached g |}.

(** The callback [(newFuel) => { jetpackFuel = newFuel; ... }]. *)
Definition setJetpackFuel (f : Z) (g : t) : t :=
  {| ball := ball g; world := world g; keys := keys g;
     isGrabbing := isGrabbing g; spaceship := spaceship g;
     ballHeld := ballHeld g; jetpack := jetpack g; speed := speed g;
     gameOver := gameOver g; gameStarted := gameStarted g;
     ballReleased := ballReleased g; isPaused := isPaused g;
     jetpackFuel := f; isJetpackActive := isJetpackActive g;
     redFlagPlatformReached := redFlagPlatformReached g |}.

(** [setJetpackActive(active)]. *)
Definition setJetpackActive (active : bool) (g : t) : t :=
  {| ball := ball g; world := world g; keys := keys g;
     isGrabbing := isGrabbing g; spaceship := spaceship g;
     ballHeld := ballHeld g; jetpack := jetpack g; speed := speed g;
     gameOver := gameOver g; gameStarted := gameStarted g;
     ballReleased := ballReleased g; isPaused := isPaused g;
     jetpackFuel := jetpackFuel g;
     isJetpackActive :=
       if (jetpackFuel g <=? 0)%Z then false else active;
     redFlagPlatformReached := redFlagPlatformReached g |}.

Definition setRedFlagPlatformReached (v : bool) (g : t) : t :=
  {| ball := ball g; world := world g; keys := keys g;
     isGrabbing := isGrabbing g; spaceship := spaceship g;
     ballHeld := ballHeld g; jetpack := jetpack g; speed := speed g;
     gameOver := gameOver g; gameStarted := gameStarted g;
     ballReleased := ballReleased g; isPaused := isPaused g;
     jetpackFuel := jetpackFuel g; isJetpackActive := isJetpackActive g;
     redFlagPlatformReached := v |}.

(** [releaseBall()] of claw.js. *)
Definition releaseBall (g : t) : t :=
  {| ball := ball g; world := world g; keys := keys g;
     isGrabbing := isGrabbing g; spaceship := spaceship g;
     ballHeld := false; jetpack := jetpack g; speed := speed g;
     gameOver := gameOver g; gameStarted := gameStarted g;
     ballReleased := ballReleased g; isPaused := isPaused g;
     jetpackFuel := jetpackFuel g; isJetpackActive := isJetpackActive g;
     redFlagPlatformReached := redFlagPlatformReached g |}.

(** [endGrab()] of abilities.js. *)
Definition endGrab (g : t) : t :=
  let b := ball g in
  let b1 :=
    match spaceship g with
    | Some ship =>
        let oldY := y (Ball.position b) in
        let newY :=
          if 5.0 <? Rabs (y ship - oldY) then Rmax oldY 7 else y ship in
        Ball.setBallVelocity (mkVec3 0 0 0)
          (Ball.setPosition b
             (mkVec3 (x (Ball.position b)) newY (z (Ball.position b))))
    | None => Ball.setBallVelocity (mkVec3 0 0 0) b
    end in
  {| ball := b1; world := world g; keys := keys g;
     isGrabbing := false; spaceship := spaceship g;
     ballHeld := ballHeld g; jetpack := jetpack g; speed := speed g;
     gameOver := gameOver g; gameStarted := gameStarted g;
     ballReleased := ballReleased g; isPaused := isPaused g;
     jetpackFuel := jetpackFuel g; isJetpackActive := isJetpackActive g;
     redFlagPlatformReached := redFlagPlatformReached g |}.

(** [isOnPlatform()] on the current ball and platforms. *)
Definition isOnPlatform (g : t) : bool :=
  Collision.isOnPlatform (Platform.platforms (world g)) (ball g).

End Game.

(* ================================================================= *)
(** ** systems/controls.js: the space key *)

Module Controls.
Import Config.

(** Which call of [jump] a jump input makes. *)
Inductive JumpKind : Type :=
| FirstJump    (* jump(false) *)
| DoubleJump   (* jump(true) *)
| ExtraJump.   (* jump(false, true) *)

(** [keys.space = true; const remainingJumps = jump(...)]; the call
    [updateExtraJumps(remainingJumps)] only refreshes the display. *)
Definition doJump (k : JumpKind) (g : Game.t) : Game.t :=
  let g1 := Game.setKeys (Keys.setSpace true (Game.keys g)) g in
  let '(b, _) :=
    match k with
    | FirstJump => Ball.jump false false (Game.ball g1)
    | DoubleJump => Ball.jump true false (Game.ball g1)
    | ExtraJump => Ball.jump false true (Game.ball g1)
    end in
  Game.setBall b g1.

Definition isFell (a : Ball.AirEntry) : bool :=
  match a with Ball.Fell => true | _ => false end.

(** [airEntryMethod === "jumped" || airEntryMethod === "bounced" ||
     airEntryMethod === "rolled"]. *)
Definition leftPlatformByItself (a : Ball.AirEntry) : bool :=
  match a with
  | Ball.Jumped | Ball.Bounced | Ball.Rolled => true
  | _ => false
  end.

(** The jump logic at the end of [case " "] of [onKeyDown]: the state it
    leaves and the call of [jump] it made, if any. *)
Definition jumpInput (g : Game.t) : Game.t * option JumpKind :=
  let b := Game.ball g in
  (* Regular jump if on platform *)
  if negb (Keys.space (Game.keys g)) && negb (Ball.isJumping b)
     && Game.isOnPlatform g
  then (doJump FirstJump g, Some FirstJump)
  (* Handle jumps in the air *)
  else if negb (Keys.space (Game.keys g)) && negb (Game.isOnPlatform g)
  then
    let airEntryMethod := Ball.airEntryMethod b in
    if negb (Ball.isJumping b) && isFell airEntryMethod
    then (doJump FirstJump g, Some FirstJump)
    else if negb (Ball.hasDoubleJumped b) then
      if leftPlatformByItself airEntryMethod
      then (doJump DoubleJump g, Some DoubleJump)
      else if isFell airEntryMethod && Ball.isJumping b
      then (doJump DoubleJump g, Some DoubleJump)
      else (g, None)
    else if Ball.hasDoubleJumped b && (0 <? Ball.extraJumps b)%Z
    then (doJump ExtraJump g, Some ExtraJump)
    else (g, None)
  else (g, None).

(** [onKeyDown] for the key [" "], with the arguments the listener of
    main.js passes: the current [gameOver], [ballReleased] and
    [jetpackFuel] and the setters of main.js. *)
Definition onKeyDownSpace (g : Game.t) : Game.t :=
  if Game.gameOver g then g
  else
    let g1 := Game.setGameStarted true g in
    if Game.isGrabbing g1 then
      (* release the ball from grab mode *)
      Game.endGrab (Game.pauseGame false g1)
    else if negb (Game.ballReleased g1) then
      (* the ball is still in the claw: release it *)
      Game.setBallReleased true
        (Game.setKeys (Keys.setSpace true (Game.keys g1))
           (Game.releaseBall g1))
    else if (0 <? Game.jetpackFuel g1)%Z then
      (* Activate jetpack if we have fuel *)
      Game.setJetpackActive true g1
    else fst (jumpInput g1).

(** [onKeyUp] for the key [" "]. *)
Definition onKeyUpSpace (g : Game.t) : Game.t :=
  let g1 := Game.setJetpackActive false g in
  let b := Game.ball g1 in
  let g2 :=
    if Keys.space (Game.keys g1) && Ball.isJumping b then
      let additionalForce :=
        Rmin (maxJumpForce GAME_SETTINGS - jumpForce GAME_SETTINGS)
             (Ball.jumpChargeTime b * 0.8) in
      Game.setBall (Ball.applyJumpForce additionalForce b) g1
    else g1 in
  Game.setKeys (Keys.setSpace false (Game.keys g2)) g2.

End Controls.

(* ================================================================= *)
(** ** main.js: the operations on the game *)

Module Main.
Import Config.

(** The operations that write the state of the game, one per call made by
    [update()] or by a listener.  [PlaceBall] stands for the writes of the
    ball's position by the claw and by the level progression, [Claw] for
    the writes of the claw and of the grab ability to their own variables
    and to the pause flag, [ChangeWorld] for every change of the platform
    set (creation, cleanup, a new level), [Restart] for [restartGame()]. *)
Inductive Op : Type :=
| KeyDownSpace
| KeyUpSpace
| Arrows (k : Keys.t)
| UpdateBallPosition (deltaTime : R)
| UpdateJetpack
| HandlePlatformCollisions
| UpdateMovingPlatforms (deltaTime : R)
| FallCheck
| CollectExtraJump
| CollectFuel
| PlaceBall (p : Vec3)
| Claw (grabbing : bool) (ship : option Vec3) (held paused : bool)
| ChangeWorld (w : Platform.State)
| Restart (draws : nat -> Platform.Draws).

(** [updateBallPosition(getCombinedKeys(), deltaTime, speed,
    isJetpackActive, jetpackFuel, isOnPlatform)]. *)
Definition stepBall (deltaTime : R) (g : Game.t) : Game.t :=
  let platforms := Platform.platforms (Game.world g) in
  Game.setBall
    (Ball.updateBallPosition platforms (Game.keys g) deltaTime (Game.speed g)
       (Game.isJetpackActive g) (Game.jetpackFuel g)
       (Collision.isOnPlatform platforms) (Game.ball g))
    g.

(** [updateJetpack(isJetpackActive, jetpackFuel, ballState.velocity,
    (newFuel) => { jetpackFuel = newFuel; ... })]. *)
Definition stepJetpack (g : Game.t) : Game.t :=
  let '(b, fuel) :=
    Jetpack.updateJetpack (Game.jetpack g) (Game.isJetpackActive g)
      (Game.jetpackFuel g) (Game.ball g) in
  Game.setJetpackFuel fuel (Game.setBall b g).

(** [handlePlatformCollisions(speed, () => {
      removeAllPlatformsExceptRedFlag(scene);
      redFlagPlatformReached = true; })] and
    [speed = collisionResult.speed]. *)
Definition stepCollisions (g : Game.t) : Game.t :=
  let r :=
    Collision.handlePlatformCollisions GAME_SETTINGS
      (Platform.platforms (Game.world g)) (Game.speed g) (Game.ball g) in
  let g1 := Game.setBall (Collision.ball r) g in
  let g2 :=
    if Collision.redFlagPlatformReachedCalled r then
      Game.setRedFlagPlatformReached true
        (Game.setWorld
           (Platform.removeAllPlatformsExceptRedFlag (Game.world g1)) g1)
    else g1 in
  Game.setSpeed (Collision.speed r) g2.

(** [updateMovingPlatforms(deltaTime)]. *)
Definition stepPlatforms (deltaTime : R) (g : Game.t) : Game.t :=
  Game.setWorld (Platform.updateMovingPlatforms deltaTime (Game.world g)) g.

(** [if (checkFallOutOfBounds(getPlatforms())) { endGame(); ... }]. *)
Definition stepFallCheck (g : Game.t) : Game.t :=
  if Collision.checkFallOutOfBounds (Platform.platforms (Game.world g)) None
       (Game.ball g)
  then Game.setGameOver true g
  else g.

(** [restartGame()], for the variables of the model; [draws] are the draws
    of its call of [createStartingPlatforms]. *)
Definition restartGame (draws : nat -> Platform.Draws) (g : Game.t)
  : Game.t :=
  {| Game.ball := Ball.initialState;
     Game.world :=
       Platform.createStartingPlatforms draws Platform.initialState;
     Game.keys := Keys.released;
     Game.isGrabbing := false;
     (* resetClaw(scene) creates the ship again *)
     Game.spaceship := Some (mkVec3 0 15 0);
     Game.ballHeld := true;
     Game.jetpack := Game.jetpack g;
     Game.speed := initialSpeed GAME_SETTINGS;
     Game.gameOver := false;
     Game.gameStarted := false;
     Game.ballReleased := false;
     Game.isPaused := Game.isPaused g;
     Game.jetpackFuel := 0;
     Game.isJetpackActive := false;
     Game.redFlagPlatformReached := false |}.

Definition run (op : Op) (g : Game.t) : Game.t :=
  match op with
  | KeyDownSpace => Controls.onKeyDownSpace g
  | KeyUpSpace => Controls.onKeyUpSpace g
  | Arrows k =>
      Game.setKeys
        {| Keys.left := Keys.left k; Keys.right := Keys.right k;
           Keys.up := Keys.up k; Keys.down := Keys.down k;
           Keys.space := Keys.space (Game.keys g) |} g
  | UpdateBallPosition deltaTime => stepBall deltaTime g
  | UpdateJetpack => stepJetpack g
  | HandlePlatformCollisions => stepCollisions g
  | UpdateMovingPlatforms deltaTime => stepPlatforms deltaTime g
  | FallCheck => stepFallCheck g
  | CollectExtraJump => Game.setBall (Ball.addExtraJumps 1 (Game.ball g)) g
  | CollectFuel => Game.setJetpackFuel 100 g
  | PlaceBall p => Game.setBall (Ball.setPosition (Game.ball g) p) g
  | Claw grabbing ship held paused =>
      {| Game.ball := Game.ball g;
         Game.world := Game.world g;
         Game.keys := Game.keys g;
         Game.isGrabbing := grabbing;
         Game.spaceship := ship;
         Game.ballHeld := held;
         Game.jetpack := Game.jetpack g;
         Game.speed := Game.speed g;
         Game.gameOver := Game.gameOver g;
         Game.gameStarted := Game.gameStarted g;
         Game.ballReleased := Game.ballReleased g;
         Game.isPaused := paused;
         Game.jetpackFuel := Game.jetpackFuel g;
         Game.isJetpackActive := Game.isJetpackActive g;
         Game.redFlagPlatformReached := Game.redFlagPlatformReached g |}
  | ChangeWorld w => Game.setWorld w g
  | Restart draws => restartGame draws g
  end.

Fixpoint runs (ops : list Op) (g : Game.t) : Game.t :=
  match ops with
  | [] => g
  | op :: ops' => runs ops' (run op g)
  end.

(** The simulation statements of [update()], in their order, for a running
    game whose ball is released and not grabbed. *)
Definition frame (deltaTime : R) : list Op :=
  [UpdateBallPosition deltaTime; UpdateJetpack; HandlePlatformCollisions;
   UpdateMovingPlatforms deltaTime; FallCheck].


(** [n] frames in a row. *)
Definition frames (n : nat) (deltaTime : R) : list Op :=
  concat (repeat (frame deltaTime) n).

(** The flags and counters of the ball are as [resetBallState()] leaves
    them; its position and velocity are free. *)
Definition freshBall (b : Ball.State) : Prop :=
  Ball.isJumping b = false /\ Ball.hasDoubleJumped b = false /\
  Ball.airEntryMethod b = Ball.NoEntry /\ Ball.wasOnPlatform b = false /\
  Ball.extraJumps b = 0%Z.

(** The states of the game: any state with a fresh ball, and every state an
    operation leads to. *)
Inductive reachable : Game.t -> Prop :=
| reachable_fresh g : freshBall (Game.ball g) -> reachable g
| reachable_run op g : reachable g -> reachable (run op g).

(** The ball lands: [handlePlatformCollisions] finds it on a platform with a
    downward velocity, so that [applyPlatformEffects] resets its flags. *)
Definition lands (g : Game.t) : bool :=
  Game.isOnPlatform g && (y (Ball.ballVelocity (Game.ball g)) <? 0).

(** [updateJetpack] burns the last unit of fuel. *)
Definition depletesFuel (g : Game.t) : bool :=
  Game.jetpack g && Game.isJetpackActive g && (Game.jetpackFuel g =? 1)%Z.

(** [updateBallPosition] records that the ball rolled or fell off a
    platform. *)
Definition leavesPlatform (g : Game.t) : bool :=
  Ball.wasOnPlatform (Game.ball g) && negb (Game.isOnPlatform g)
  && negb (Ball.isJumping (Game.ball g)).

(** An operation that leaves the flight of the ball undisturbed: the space
    key is pressed while the ball is off every platform, the collision step
    does not land the ball, the jetpack does not burn its last unit of fuel,
    the ball step does not record a roll or a fall off a platform, and the
    game is not restarted. *)
Definition quiet (op : Op) (g : Game.t) : bool :=
  match op with
  | KeyDownSpace => negb (Game.isOnPlatform g)
  | HandlePlatformCollisions => negb (lands g)
  | UpdateJetpack => negb (depletesFuel g)
  | UpdateBallPosition _ => negb (leavesPlatform g)
  | Restart _ => false
  | _ => true
  end.

(** Every operation of the run is quiet in the state it is applied to. *)
Fixpoint quietRun (ops : list Op) (g : Game.t) : Prop :=
  match ops with
  | [] => True
  | op :: ops' => quiet op g = true /\ quietRun ops' (run op g)
  end.

(** No operation of the run lands the ball or restarts the game: the run
    stays within one flight. *)
Fixpoint flightRun (ops : list Op) (g : Game.t) : Prop :=
  match ops with
  | [] => True
  | op :: ops' =>
      match op with
      | KeyDownSpace => Game.isOnPlatform g = false
      | HandlePlatformCollisions => lands g = false
      | Restart _ => False
      | _ => True
      end /\ flightRun ops' (run op g)
  end.

(** The call of [jump] that a press of the space key makes in [g], if it
    makes one. *)
Definition jumpMade (g : Game.t) : option Controls.JumpKind :=
  if Game.gameOver g then None
  else if Game.isGrabbing g then None
  else if negb (Game.ballReleased g) then None
  else if (0 <? Game.jetpackFuel g)%Z then None
  else snd (Controls.jumpInput (Game.setGameStarted true g)).

(** [platforms.sort((a, b) => a.position.z - b.position.z)]: the sort of
    JavaScript is stable, so it is the insertion sort by ascending Z that
    keeps the order of platforms with equal Z. *)
Fixpoint insertByZ (p : Platform.Platform) (l : list Platform.Platform)
  : list Platform.Platform :=
  match l with
  | [] => [p]
  | q :: l' =>
      if z (Platform.position p) <=? z (Platform.position q)
      then p :: l
      else q :: insertByZ p l'
  end.

Definition sortByZ (l : list Platform.Platform) : list Platform.Platform :=
  fold_right insertByZ [] l.

(** The calls of a loop [for (let i = 0; i < n; i++)
    createPlatform(false, scene, level)], the draws of the iteration [i]
    being [draws (first + i)]. *)
Definition loopCalls (level : Z) (draws : nat -> Platform.Draws)
    (first n : nat) : list Platform.Call :=
  map (fun i =>
         {| Platform.callIsRedFlag := false;
            Platform.callLevel := level;
            Platform.callDraws := draws i |})
      (seq first n).

(** [addPlatformsForNextLevel(scene, level)].  The array that
    [getPlatforms()] returns is the array of platform.js itself, so the
    sort reorders the platforms of the game.  The state saved in
    [originalState] is never put back.  [startDraws] are the draws of
    [createStartingPlatforms], [draws] those of the two loops. *)
Definition addPlatformsForNextLevel (level : Z)
    (startDraws draws : nat -> Platform.Draws) (st : Platform.State)
  : Platform.State :=
  match Platform.platforms st with
  | [] =>
      (* If no platforms exist, create starting platforms *)
      Platform.createStartingPlatforms startDraws st
  | _ :: _ =>
      let sorted := sortByZ (Platform.platforms st) in
      match sorted with
      | [] => st (* not reached: the sort keeps every platform *)
      | furthestPlatform :: _ =>
          let st1 :=
            Platform.setLastPlatformState
              (mkVec3 (x (Platform.position furthestPlatform))
                      (y (Platform.position furthestPlatform))
                      (z (Platform.position furthestPlatform) - 20))
              (Platform.type (Platform.userData furthestPlatform))
              {| Platform.platforms := sorted;
                 Platform.lastPlatformPosition :=
                   Platform.lastPlatformPosition st;
                 Platform.lastPlatformType := Platform.lastPlatformType st;
                 Platform.redFlagPlatform := Platform.redFlagPlatform st |} in
          let platformCount :=
            Z.to_nat (platformsPerLevel GAME_SETTINGS + level / 2 * 5) in
          let st2 :=
            fst (Platform.createPlatforms
                   (loopCalls level draws 0 platformCount) st1) in
          let extraPlatforms := 10%nat in
          fst (Platform.createPlatforms
                 (loopCalls level draws platformCount extraPlatforms) st2)
      end
  end.

End Main.

(* ================================================================= *)
(** ** entities/claw.js: the spaceship that holds the ball *)

Module Claw.

(** The module-level variables of claw.js; [spaceship] is the position of
    the ship, [None] while the ship does not exist. *)
Record State : Type := {
  spaceship : option Vec3;
  ballHeld : bool;
  originalGrabHeight : R
}.

Definition initialState : State := {|
  spaceship := None;
  ballHeld := true;
  originalGrabHeight := 0
|}.

(** [createClaw(scene)]. *)
Definition createClaw (st : State) : State :=
  {| spaceship := Some (mkVec3 0 15 0);
     ballHeld := true;
     originalGrabHeight := originalGrabHeight st |}.

(** [resetClaw(scene)]: the ship is disposed of and created again. *)
Definition resetClaw (st : State) : State :=
  createClaw {| spaceship := None;
                ballHeld := ballHeld st;
                originalGrabHeight := originalGrabHeight st |}.

(** [updateClaw(keys, ballPosition, ballReleased, isGrabbing)]. *)
Definition updateClaw (keys : Keys.t) (ballReleased isGrabbing : bool)
    (st : State) : State :=
  match spaceship st with
  | None => st
  | Some ship =>
      (* Store the current position before any movement *)
      let previousY := y ship in
      if negb ballReleased || isGrabbing then
        let moveSpeed := 0.15 in
        (* upward movement with its limits *)
        let y1 :=
          if Keys.up keys then
            let raised := y ship + moveSpeed in
            if isGrabbing then
              let maxGrabHeight := originalGrabHeight st + 20 in
              if maxGrabHeight <? raised then maxGrabHeight else raised
            else if 20 <? raised then 20 else raised
          else y ship in
        (* downward movement *)
        let y2 :=
          if Keys.down keys then
            let safeDownSpeed := moveSpeed * 0.6 in
            let newY := y1 - safeDownSpeed in
            if isGrabbing then
              if originalGrabHeight st <=? newY then newY
              else originalGrabHeight st
            else
              let minHeight := 6 in
              if minHeight <=? newY then newY else minHeight
          else y1 in
        (* a large vertical movement is limited *)
        let distanceY := Rabs (y2 - previousY) in
        let y3 :=
          if 1.0 <? distanceY then
            if previousY <? y2 then previousY + 1.0 else previousY - 1.0
          else y2 in
        {| spaceship := Some (mkVec3 (x ship) y3 (z ship));
           ballHeld := ballHeld st;
           originalGrabHeight := originalGrabHeight st |}
      else st
  end.

(** [releaseBall()]. *)
Definition releaseBall (st : State) : State :=
  if ballHeld st then
    {| spaceship := spaceship st;
       ballHeld := false;
       originalGrabHeight := originalGrabHeight st |}
  else st.

(** [setClawPosition(x, y, z)]. *)
Definition setClawPosition (px py pz : R) (st : State) : State :=
  match spaceship st with
  | None => st
  | Some _ =>
      {| spaceship := Some (mkVec3 px (py + 1.0) pz);
         ballHeld := true;
         originalGrabHeight := py + 1.0 |}
  end.

(** The height of the ship, when it exists. *)
Definition height (st : State) : option R :=
  option_map y (spaceship st).

(** One call of [updateClaw] per frame, with the keys held in each frame. *)
Definition updates (inputs : list Keys.t) (ballReleased isGrabbing : bool)
    (st : State) : State :=
  fold_left (fun s keys => updateClaw keys ballReleased isGrabbing s)
            inputs st.

End Claw.

(* ================================================================= *)
(** ** entities/abilities.js: the grab ability *)

Module Abilities.

(** The module-level variables of abilities.js, without the particles. *)
Record State : Type := {
  grabCount : Z;
  isGrabbing : bool
}.

(** [initAbilities()]; also the state after [resetAbilities(scene)]. *)
Definition initAbilities : State := {| grabCount := 0; isGrabbing := false |}.

Definition resetAbilities (st : State) : State := initAbilities.

(** [addGrab()]. *)
Definition addGrab (st : State) : State :=
  {| grabCount := (grabCount st + 1)%Z; isGrabbing := isGrabbing st |}.

(** [canUseGrab()]. *)
Definition canUseGrab (st : State) : bool :=
  (0 <? grabCount st)%Z && negb (isGrabbing st).

(** The calls that [executeGrab] makes to the functions it is handed:
    [pauseGame(true)] and [setClaw(x, y, z)] with the position of the
    ball. *)
Record Calls : Type := {
  pauseGameCalled : bool;
  setClawCalled : option Vec3
}.

Definition noCalls : Calls :=
  {| pauseGameCalled := false; setClawCalled := None |}.

(** [executeGrab(scene, pauseGame, getBallPosition, setClaw)].  [ball] is
    the position of the ball that [getBall()] returns, [None] when there is
    no ball; [pauseGame] and [setClaw] tell whether the caller handed over
    these functions. *)
Definition executeGrab (ball : option Vec3) (pauseGame setClaw : bool)
    (st : State) : State * Calls :=
  if negb (canUseGrab st) then (st, noCalls)
  else
    (* Set grab state *)
    let grabCount1 := (grabCount st - 1)%Z in
    match ball with
    | None =>
        ({| grabCount := grabCount1; isGrabbing := false |}, noCalls)
    | Some ballPosition =>
        ({| grabCount := grabCount1; isGrabbing := true |},
         {| pauseGameCalled := pauseGame;
            setClawCalled := if setClaw then Some ballPosition else None |})
    end.

(** The part of [endGrab()] that writes the variables of this module; the
    part that writes the ball is [Game.endGrab]. *)
Definition endGrab (st : State) : State :=
  {| grabCount := grabCount st; isGrabbing := false |}.

(** The calls that write the variables of this module. *)
Inductive Op : Type :=
| AddGrab
| ExecuteGrab (ball : option Vec3) (pauseGame setClaw : bool)
| EndGrab
| ResetAbilities.

Definition run (op : Op) (st : State) : State :=
  match op with
  | AddGrab => addGrab st
  | ExecuteGrab ball pauseGame setClaw =>
      fst (executeGrab ball pauseGame setClaw st)
  | EndGrab => endGrab st
  | ResetAbilities => resetAbilities st
  end.

Definition runs (ops : list Op) (st : State) : State :=
  fold_left (fun s op => run op s) ops st.

End Abilities.

(* ================================================================= *)
(** ** entities/powerup.js *)

Module PowerUp.

(** The [type] of a power-up. *)
Inductive Kind : Type := Jetpack | ExtraJump | SOS.

Record UserData : Type := {
  type : Kind;
  rotationSpeed : R;
  floatSpeed : R;
  floatAmplitude : R;
  originalY : R;
  floatOffset : R;
  pulseSpeed : R;
  pulseTime : R
}.

Record t : Type := {
  position : Vec3;
  userData : UserData
}.

Definition isSOS (k : Kind) : bool :=
  match k with SOS => true | _ => false end.

(** [createPowerUp(type, x, y, z, scene)]; [offsetDraw] is the draw of
    [floatOffset].  The result is the new value of [powerUps] and the
    power-up created. *)
Definition createPowerUp (type : Kind) (px py pz : R) (offsetDraw : R)
    (powerUps : list t) : list t * t :=
  let powerUp := {|
    position := mkVec3 px py pz;
    userData := {|
      type := type;
      rotationSpeed := 0.02;
      floatSpeed := 0.01;
      floatAmplitude := if isSOS type then 0.8 else 0.5;
      originalY := py;
      floatOffset := offsetDraw * PI * 2;
      pulseSpeed := if isSOS type then 0.1 else 0;
      pulseTime := 0
    |}
  |} in
  (powerUps ++ [powerUp], powerUp).

(** The values of the [Math.random()] calls of one [spawnPowerUps], by the
    place of the call. *)
Record Draws : Type := {
  platformDraw : R;   (* the platform chosen *)
  xDraw : R;          (* Math.random() * 4 - 2 *)
  yDraw : R;          (* 1.5 + Math.random() * 1.5 *)
  typeDraw : R;       (* const rand = Math.random() *)
  offsetDraw : R      (* floatOffset, in createPowerUp *)
}.

Definition valid_draws (d : Draws) : Prop :=
  0 <= platformDraw d < 1 /\ 0 <= xDraw d < 1 /\ 0 <= yDraw d < 1 /\
  0 <= typeDraw d < 1 /\ 0 <= offsetDraw d < 1.

(** [Math.min(15, 8 + Math.floor(level / 2))]. *)
Definition maxPowerUps (level : Z) : Z := Z.min 15 (8 + level / 2).

(** The type drawn when no type is forced. *)
Definition drawnType (rand : R) : Kind :=
  if rand <? 0.3 then ExtraJump
  else if rand <? 0.6 then Jetpack
  else SOS.

(** [spawnPowerUps(platforms, scene, level, forcedType)]; the result is the
    new value of [powerUps]. *)
Definition spawnPowerUps (platforms : list Platform.Platform) (level : Z)
    (forcedType : option Kind) (d : Draws) (powerUps : list t) : list t :=
  if (Z.of_nat (length powerUps) <? maxPowerUps level)%Z
     && (0 <? length platforms)%nat
  then
    match nth_error platforms
            (Z.to_nat (Int_part (platformDraw d * INR (length platforms))))
    with
    | Some randomPlatform =>
        let px := x (Platform.position randomPlatform) + (xDraw d * 4 - 2) in
        let py := y (Platform.position randomPlatform) + 1.5 + yDraw d * 1.5 in
        let pz := z (Platform.position randomPlatform) in
        let type :=
          match forcedType with
          | Some forced => forced
          | None => drawnType (typeDraw d)
          end in
        fst (createPowerUp type px py pz (offsetDraw d) powerUps)
    | None => powerUps
    end
  else powerUps.

(** What [checkPowerUpCollisions] reads and writes: [powerUps], and through
    the functions that main.js hands over the fuel of the jetpack
    ([jetpackFuel = 100]), the extra jumps of the ball ([addExtraJumps(1)])
    and the grab counter ([addGrab()]). *)
Record Pickup : Type := {
  powerUps : list t;
  jetpackFuel : Z;
  extraJumps : Z;
  grabCount : Z
}.

(** The collision radius of a power-up, by its type. *)
Definition collisionRadius (k : Kind) : R :=
  match k with
  | ExtraJump => 1.2
  | SOS => 1.5
  | Jetpack => 0.8
  end.

(** [distance < ballRadius + collisionRadius]. *)
Definition touches (ballPosition : Vec3) (p : t) : bool :=
  let ballRadius := 1.0 in
  distance ballPosition (position p)
  <? ballRadius + collisionRadius (type (userData p)).

(** [powerUps.splice(i, 1)]. *)
Definition splice1 (i : nat) (l : list t) : list t :=
  firstn i l ++ skipn (S i) l.

(** The effect of a power-up that is touched, and its removal. *)
Definition collect (i : nat) (p : t) (s : Pickup) : Pickup :=
  match type (userData p) with
  | Jetpack =>
      {| powerUps := splice1 i (powerUps s);
         jetpackFuel := 100;
         extraJumps := extraJumps s;
         grabCount := grabCount s |}
  | ExtraJump =>
      {| powerUps := splice1 i (powerUps s);
         jetpackFuel := jetpackFuel s;
         extraJumps := (extraJumps s + 1)%Z;
         grabCount := grabCount s |}
  | SOS =>
      {| powerUps := splice1 i (powerUps s);
         jetpackFuel := jetpackFuel s;
         extraJumps := extraJumps s;
         grabCount := (grabCount s + 1)%Z |}
  end.

(** The iterations [i = n - 1, ..., 0] of the loop of
    [checkPowerUpCollisions]. *)
Fixpoint checkFrom (ballPosition : Vec3) (n : nat) (s : Pickup) : Pickup :=
  match n with
  | O => s
  | S i =>
      checkFrom ballPosition i
        (match nth_error (powerUps s) i with
         | Some powerUp =>
             if touches ballPosition powerUp then collect i powerUp s else s
         | None => s
         end)
  end.

(** [checkPowerUpCollisions(ball, scene, jetpack, ...)]:
    [for (let i = powerUps.length - 1; i >= 0; i--)]. *)
Definition checkPowerUpCollisions (ballPosition : Vec3) (s : Pickup)
  : Pickup :=
  checkFrom ballPosition (length (powerUps s)) s.

(** [cleanupPowerUps(ballPosition, removeDistance, scene)]. *)
Definition cleanupPowerUps (ballPosition : Vec3) (removeDistance : R)
    (powerUps : list t) : list t :=
  filter (fun p => negb (z ballPosition + removeDistance <? z (position p)))
         powerUps.

(** [resetPowerUps(scene)]. *)
Definition resetPowerUps (powerUps : list t) : list t := [].

End PowerUp.

(* ================================================================= *)
(** ** systems/levels.js *)

Module Levels.

(** [BACKGROUND_COLORS.length] of config.js. *)
Definition backgroundColors : Z := 8.

(** The object [{level, speed, redFlagPlatformReached}] that the functions
    of this module return. *)
Record GameState : Type := {
  level : Z;
  speed : R;
  redFlagPlatformReached : bool
}.

(** What a function of this module leaves behind: the object it returns,
    the platforms, the ball, and the argument of its call of
    [updateBackgroundColor], if it makes one. *)
Record Outcome : Type := {
  returned : GameState;
  world : Platform.State;
  ball : Ball.State;
  backgroundColorIndex : option Z
}.

(** [(level - 1) % BACKGROUND_COLORS.length], with the truncating remainder
    of JavaScript. *)
Definition colorIndex (level : Z) : Z := Z.rem (level - 1) backgroundColors.

(** [initLevel(level, speed, scene, updateBackgroundColor)]. *)
Definition initLevel (level : Z) (speed : R) (w : Platform.State)
    (b : Ball.State) : Outcome :=
  {| returned := {| level := level; speed := speed;
                    redFlagPlatformReached := false |};
     world := w;
     ball := b;
     backgroundColorIndex := Some (colorIndex level) |}.

(** [progressToNextLevel(level, speed, scene, updateBackgroundColor)];
    [draws] are the draws of its call of [generateNewLevel]. *)
Definition progressToNextLevel (level : Z) (speed : R)
    (draws : nat -> Platform.Draws) (w : Platform.State) (b : Ball.State)
  : Outcome :=
  let level1 := (level + 1)%Z in
  let '(w1, levelState) := Platform.generateNewLevel level1 speed draws w in
  {| returned := {| level := level1;
                    speed := Platform.levelSpeed levelState;
                    redFlagPlatformReached := false |};
     world := w1;
     ball := Ball.setPosition b (mkVec3 0 5 (-15));
     backgroundColorIndex := Some (colorIndex level1) |}.

(** [checkLevelCompletion(redFlagPlatformReached, level, speed, scene,
    updateBackgroundColor)]. *)
Definition checkLevelCompletion (redFlagPlatformReached : bool) (level : Z)
    (speed : R) (draws : nat -> Platform.Draws) (w : Platform.State)
    (b : Ball.State) : Outcome :=
  if redFlagPlatformReached then progressToNextLevel level speed draws w b
  else
    {| returned := {| level := level; speed := speed;
                      redFlagPlatformReached := redFlagPlatformReached |};
       world := w;
       ball := b;
       backgroundColorIndex := None |}.

(** [updateDifficulty(score, speed)]. *)
Definition updateDifficulty (score speed : R) : R :=
  0.2 + Rmin 0.5 (score / 2000).

End Levels.

(* ================================================================= *)
(** ** The grab: controls.js, abilities.js, claw.js and main.js together *)

Module Session.
Import Config.

(** The game together with the variables of abilities.js, claw.js and
    controls.js that [Game.t] leaves out: the grab counter, the height at
    which the grab started, and the times of the last three presses of the
    up arrow. *)
Record t : Type := {
  game : Game.t;
  grabCount : Z;
  originalGrabHeight : R;
  upPressTimes : R * R * R
}.

Definition withGame (g : Game.t) (s : t) : t :=
  {| game := g; grabCount := grabCount s;
     originalGrabHeight := originalGrabHeight s;
     upPressTimes := upPressTimes s |}.

(** The variables of abilities.js. *)
Definition abilities (s : t) : Abilities.State :=
  {| Abilities.grabCount := grabCount s;
     Abilities.isGrabbing := Game.isGrabbing (game s) |}.

Definition withAbilities (a : Abilities.State) (s : t) : t :=
  let g := game s in
  {| game :=
       {| Game.ball := Game.ball g; Game.world := Game.world g;
          Game.keys := Game.keys g;
          Game.isGrabbing := Abilities.isGrabbing a;
          Game.spaceship := Game.spaceship g;
          Game.ballHeld := Game.ballHeld g; Game.jetpack := Game.jetpack g;
          Game.speed := Game.speed g; Game.gameOver := Game.gameOver g;
          Game.gameStarted := Game.gameStarted g;
          Game.ballReleased := Game.ballReleased g;
          Game.isPaused := Game.isPaused g;
          Game.jetpackFuel := Game.jetpackFuel g;
          Game.isJetpackActive := Game.isJetpackActive g;
          Game.redFlagPlatformReached := Game.redFlagPlatformReached g |};
     grabCount := Abilities.grabCount a;
     originalGrabHeight := originalGrabHeight s;
     upPressTimes := upPressTimes s |}.

(** The variables of claw.js. *)
Definition claw (s : t) : Claw.State :=
  {| Claw.spaceship := Game.spaceship (game s);
     Claw.ballHeld := Game.ballHeld (game s);
     Claw.originalGrabHeight := originalGrabHeight s |}.

Definition withClaw (c : Claw.State) (s : t) : t :=
  let g := game s in
  {| game :=
       {| Game.ball := Game.ball g; Game.world := Game.world g;
          Game.keys := Game.keys g;
          Game.isGrabbing := Game.isGrabbing g;
          Game.spaceship := Claw.spaceship c;
          Game.ballHeld := Claw.ballHeld c; Game.jetpack := Game.jetpack g;
          Game.speed := Game.speed g; Game.gameOver := Game.gameOver g;
          Game.gameStarted := Game.gameStarted g;
          Game.ballReleased := Game.ballReleased g;
          Game.isPaused := Game.isPaused g;
          Game.jetpackFuel := Game.jetpackFuel g;
          Game.isJetpackActive := Game.isJetpackActive g;
          Game.redFlagPlatformReached := Game.redFlagPlatformReached g |};
     grabCount := grabCount s;
     originalGrabHeight := Claw.originalGrabHeight c;
     upPressTimes := upPressTimes s |}.

(** [executeGrab(grabScene, pauseGame, null, setClaw)] as the input
    handlers call it: [pauseGame] is the function of main.js and [setClaw]
    is [setClawPosition] of claw.js. *)
Definition executeGrab (s : t) : t :=
  let '(a, calls) :=
    Abilities.executeGrab (Some (Ball.position (Game.ball (game s))))
      true true (abilities s) in
  let s1 := withAbilities a s in
  let s2 :=
    if Abilities.pauseGameCalled calls
    then withGame (Game.pauseGame true (game s1)) s1
    else s1 in
  match Abilities.setClawCalled calls with
  | Some p => withClaw (Claw.setClawPosition (x p) (y p) (z p) (claw s2)) s2
  | None => s2
  end.

(** [onKeyDown] for the key ["ArrowUp"], pressed at the time [upNow] that
    [performance.now()] returns. *)
Definition onKeyDownArrowUp (upNow : R) (s : t) : t :=
  if Game.gameOver (game s) then s
  else
    let s1 := withGame (Game.setGameStarted true (game s)) s in
    (* Shift the array to make room for the new press time *)
    let '(_, t1, t2) := upPressTimes s1 in
    let firstPress := t1 in
    let secondPress := t2 in
    let thirdPress := upNow in
    let s2 :=
      {| game := game s1; grabCount := grabCount s1;
         originalGrabHeight := originalGrabHeight s1;
         upPressTimes := (firstPress, secondPress, thirdPress) |} in
    let s3 :=
      if (0 <? firstPress)
         && (secondPress - firstPress <? grabDoubleTapWindow)
         && (thirdPress - secondPress <? grabDoubleTapWindow)
      then
        if Abilities.canUseGrab (abilities s2)
           && Game.ballReleased (game s2)
        then executeGrab s2
        else s2
      else s2 in
    withGame (Game.setKeys (Keys.setUp true (Game.keys (game s3))) (game s3))
             s3.

(** [resetKeys()], for the keyboard. *)
Definition resetKeys (s : t) : t :=
  {| game := Game.setKeys Keys.released (game s);
     grabCount := grabCount s;
     originalGrabHeight := originalGrabHeight s;
     upPressTimes := (0, 0, 0) |}.

(** The first branch of [update()], taken while
    [gameOver || !gameStarted || isPaused]; [keys] is the value of
    [getCombinedKeys()]. *)
Definition updateHalted (keys : Keys.t) (s : t) : t :=
  let g := game s in
  if negb (Game.ballReleased g) || (Game.isPaused g && Game.isGrabbing g)
  then
    (* Allow claw movement when paused for grab aiming *)
    let isGrabbing := Game.isPaused g && Game.isGrabbing g in
    let s1 :=
      withClaw (Claw.updateClaw keys (Game.ballReleased g) isGrabbing
                  (claw s)) s in
    (* Only update the Y position to prevent teleporting *)
    match Game.spaceship (game s1) with
    | Some ship =>
        let b := Game.ball (game s1) in
        withGame
          (Game.setBall
             (Ball.setPosition b
                (mkVec3 (x (Ball.position b)) (y ship)
                        (z (Ball.position b))))
             (game s1))
          s1
    | None => s1
    end
  else s.

(** One halted frame after the other, with the keys held in each. *)
Definition aim (inputs : list Keys.t) (s : t) : t :=
  fold_left (fun s' keys => updateHalted keys s') inputs s.

(** The space key, pressed. *)
Definition onKeyDownSpace (s : t) : t :=
  withGame (Controls.onKeyDownSpace (game s)) s.

End Session.

(* ================================================================= *)
(** ** systems/touch-controls.js: the buttons of the touch screen *)

Module Touch.
Import Config.

(** [touchState], for the fields that the handlers of the buttons read or
    write, and [virtualKeys]. *)
Record State : Type := {
  jumpActive : bool;
  leftArrowActive : bool;
  rightArrowActive : bool;
  virtualKeys : Keys.t
}.

(** The state at start-up and after [resetTouchState()]. *)
Definition initialState : State := {|
  jumpActive := false;
  leftArrowActive := false;
  rightArrowActive := false;
  virtualKeys := Keys.released
|}.

(** The values that [update()] copies into [window.gameState] at the start
    of every frame; the handlers of the buttons read these copies. *)
Record GameState : Type := {
  gameOver : bool;
  ballReleased : bool;
  jetpackFuel : Z;
  gameStarted : bool
}.

Record t : Type := {
  game : Game.t;
  touch : State;
  gameState : GameState
}.

Definition withGame (g : Game.t) (s : t) : t :=
  {| game := g; touch := touch s; gameState := gameState s |}.

Definition withTouch (ts : State) (s : t) : t :=
  {| game := game s; touch := ts; gameState := gameState s |}.

(** The copy of the variables of main.js. *)
Definition snapshot (g : Game.t) : GameState :=
  {| gameOver := Game.gameOver g;
     ballReleased := Game.ballReleased g;
     jetpackFuel := Game.jetpackFuel g;
     gameStarted := Game.gameStarted g |}.

(** The copy that [update()] makes. *)
Definition refresh (s : t) : t :=
  {| game := game s; touch := touch s; gameState := snapshot (game s) |}.

Definition setVirtualKeys (k : Keys.t) (ts : State) : State :=
  {| jumpActive := jumpActive ts;
     leftArrowActive := leftArrowActive ts;
     rightArrowActive := rightArrowActive ts;
     virtualKeys := k |}.

(** [touchState.jumpActive = true; virtualKeys.space = true;
     const remainingJumps = jump(...)]. *)
Definition doJump (k : Controls.JumpKind) (s : t) : t :=
  let ts := touch s in
  let ts1 :=
    {| jumpActive := true;
       leftArrowActive := leftArrowActive ts;
       rightArrowActive := rightArrowActive ts;
       virtualKeys := Keys.setSpace true (virtualKeys ts) |} in
  let '(b, _) :=
    match k with
    | Controls.FirstJump => Ball.jump false false (Game.ball (game s))
    | Controls.DoubleJump => Ball.jump true false (Game.ball (game s))
    | Controls.ExtraJump => Ball.jump false true (Game.ball (game s))
    end in
  {| game := Game.setBall b (game s); touch := ts1;
     gameState := gameState s |}.

(** The jump logic at the end of [handleJumpTouchStart]. *)
Definition jumpInput (s : t) : t :=
  let g := game s in
  let b := Game.ball g in
  (* Regular jump if on platform *)
  if negb (jumpActive (touch s)) && negb (Ball.isJumping b)
     && Game.isOnPlatform g
  then doJump Controls.FirstJump s
  (* Handle jumps in the air *)
  else if negb (jumpActive (touch s)) && negb (Game.isOnPlatform g)
  then
    let airEntryMethod := Ball.airEntryMethod b in
    if negb (Ball.isJumping b) && Controls.isFell airEntryMethod
    then doJump Controls.FirstJump s
    else if negb (Ball.hasDoubleJumped b) then
      if Controls.leftPlatformByItself airEntryMethod
      then doJump Controls.DoubleJump s
      else if Controls.isFell airEntryMethod && Ball.isJumping b
      then doJump Controls.DoubleJump s
      else s
    else if Ball.hasDoubleJumped b && (0 <? Ball.extraJumps b)%Z
    then doJump Controls.ExtraJump s
    else s
  else s.

(** [handleJumpTouchStart(event, gameOver, ballReleased, jetpackFuel,
    setJetpackActive, setBallReleased)], with the arguments the listener
    passes: the copies kept in [window.gameState] and the setters of
    main.js. *)
Definition handleJumpTouchStart (s : t) : t :=
  let gs := gameState s in
  if gameOver gs then s
  else
    (* Start the game with the first jump *)
    let s1 :=
      if negb (gameStarted gs)
      then withGame (Game.setGameStarted true (game s)) s
      else s in
    if Game.isGrabbing (game s1) then
      (* release the ball from grab mode *)
      withGame (Game.endGrab (Game.pauseGame false (game s1))) s1
    else if negb (ballReleased gs) then
      (* the ball is still in the claw: release it *)
      {| game := Game.setBallReleased true (Game.releaseBall (game s1));
         touch :=
           setVirtualKeys (Keys.setSpace true (virtualKeys (touch s1)))
             (touch s1);
         gameState := gameState s1 |}
    else if (0 <? jetpackFuel gs)%Z then
      (* Activate jetpack if we have fuel *)
      withGame (Game.setJetpackActive true (game s1)) s1
    else jumpInput s1.

(** [handleJumpTouchEnd(event, setJetpackActive)]. *)
Definition handleJumpTouchEnd (s : t) : t :=
  let g1 := Game.setJetpackActive false (game s) in
  let b := Game.ball g1 in
  let g2 :=
    if jumpActive (touch s) && Ball.isJumping b then
      let additionalForce :=
        Rmin (maxJumpForce GAME_SETTINGS - jumpForce GAME_SETTINGS)
             (Ball.jumpChargeTime b * 0.8) in
      Game.setBall (Ball.applyJumpForce additionalForce b) g1
    else g1 in
  {| game := g2;
     touch :=
       {| jumpActive := false;
          leftArrowActive := leftArrowActive (touch s);
          rightArrowActive := rightArrowActive (touch s);
          virtualKeys := Keys.setSpace false (virtualKeys (touch s)) |};
     gameState := gameState s |}.

(** The [touchstart] listener of the left arrow: the button lowers the
    ship while the ball is grabbed or not released yet, and steers left
    otherwise. *)
Definition leftArrowTouchStart (s : t) : t :=
  let ts := touch s in
  let k := virtualKeys ts in
  let k1 :=
    if Game.isGrabbing (game s) || negb (ballReleased (gameState s))
    then {| Keys.left := Keys.left k; Keys.right := Keys.right k;
            Keys.up := Keys.up k; Keys.down := true;
            Keys.space := Keys.space k |}
    else {| Keys.left := true; Keys.right := Keys.right k;
            Keys.up := Keys.up k; Keys.down := Keys.down k;
            Keys.space := Keys.space k |} in
  withTouch {| jumpActive := jumpActive ts;
               leftArrowActive := true;
               rightArrowActive := rightArrowActive ts;
               virtualKeys := k1 |} s.

(** The [touchend] listener of the left arrow. *)
Definition leftArrowTouchEnd (s : t) : t :=
  let ts := touch s in
  let k := virtualKeys ts in
  withTouch {| jumpActive := jumpActive ts;
               leftArrowActive := false;
               rightArrowActive := rightArrowActive ts;
               virtualKeys :=
                 {| Keys.left := false; Keys.right := Keys.right k;
                    Keys.up := Keys.up k; Keys.down := false;
                    Keys.space := Keys.space k |} |} s.

(** The [touchstart] listener of the right arrow. *)
Definition rightArrowTouchStart (s : t) : t :=
  let ts := touch s in
  let k := virtualKeys ts in
  let k1 :=
    if Game.isGrabbing (game s) || negb (ballReleased (gameState s))
    then {| Keys.left := Keys.left k; Keys.right := Keys.right k;
            Keys.up := true; Keys.down := Keys.down k;
            Keys.space := Keys.space k |}
    else {| Keys.left := Keys.left k; Keys.right := true;
            Keys.up := Keys.up k; Keys.down := Keys.down k;
            Keys.space := Keys.space k |} in
  withTouch {| jumpActive := jumpActive ts;
               leftArrowActive := leftArrowActive ts;
               rightArrowActive := true;
               virtualKeys := k1 |} s.

(** The [touchend] listener of the right arrow. *)
Definition rightArrowTouchEnd (s : t) : t :=
  let ts := touch s in
  let k := virtualKeys ts in
  withTouch {| jumpActive := jumpActive ts;
               leftArrowActive := leftArrowActive ts;
               rightArrowActive := false;
               virtualKeys :=
                 {| Keys.left := Keys.left k; Keys.right := false;
                    Keys.up := false; Keys.down := Keys.down k;
                    Keys.space := Keys.space k |} |} s.

(** [getCombinedKeys()] of main.js. *)
Definition getCombinedKeys (s : t) : Keys.t :=
  let keyboardKeys := Game.keys (game s) in
  let k := virtualKeys (touch s) in
  {| Keys.left := Keys.left keyboardKeys || Keys.left k;
     Keys.right := Keys.right keyboardKeys || Keys.right k;
     Keys.up := Keys.up keyboardKeys || Keys.up k;
     Keys.down := Keys.down keyboardKeys || Keys.down k;
     Keys.space := Keys.space keyboardKeys || Keys.space k |}.

End Touch.

(* ================================================================= *)
(** ** Scenarios and notions used by the statements *)

(** The goal platform that [createPlatform(true, ...)] builds, placed at the
    origin: a disc of radius 12 with the speed-boost effect. *)
Definition goalPlatformAtOrigin : Platform.Platform := {|
  Platform.position := mkVec3 0 0 0;
  Platform.userData := {|
    Platform.width := 12 * 2;
    Platform.depth := 12 * 2;
    Platform.radius := 12;
    Platform.isRoundPlatform := true;
    Platform.isTrampoline := true;
    Platform.isSlowDownTrampoline := false;
    Platform.bounceEffect := Some Platform.Forward;
    Platform.type := Config.Center;
    Platform.isRedFlagPlatform := true;
    Platform.movement := None
  |}
|}.

(** A ball at [(0, 1.05, 0)] that falls with vertical velocity [-0.2]. *)
Definition fallingBall : Ball.State :=
  Ball.setBallVelocity (mkVec3 0 (-0.2) 0)
    (Ball.setPosition Ball.initialState (mkVec3 0 1.05 0)).

(** What [applyPlatformEffects] reads of a landing on a platform with the
    given bounce effect. *)
Definition landingInfo (effect : option Platform.BounceEffect)
  : Platform.Info.t :=
  {| Platform.Info.onPlatform := true;
     Platform.Info.bounceEffect := effect;
     Platform.Info.isRedFlagPlatform := false;
     Platform.Info.platformY := Some (0 + 0.5);
     Platform.Info.ballRadius := Some Platform.ballRadius;
     Platform.Info.isTrampoline := None |}.

(** A rectangular slow-down trampoline at the origin, 10 wide and deep. *)
Definition slowDownPlatformAtOrigin : Platform.Platform := {|
  Platform.position := mkVec3 0 0 0;
  Platform.userData := {|
    Platform.width := 10;
    Platform.depth := 10;
    Platform.radius := 0;
    Platform.isRoundPlatform := false;
    Platform.isTrampoline := false;
    Platform.isSlowDownTrampoline := true;
    Platform.bounceEffect := Some Platform.Backward;
    Platform.type := Config.Center;
    Platform.isRedFlagPlatform := false;
    Platform.movement := None
  |}
|}.

(** Number of steps between two lanes in the order of [PLATFORM_TYPES]. *)
Definition laneDistance (a b : Config.Lane) : Z :=
  Z.abs (Config.laneIndex a - Config.laneIndex b).

(** [q] is the platform that [createPlatform] builds with the draws [d]
    right after [p]: its lane, height and depth are computed from those of
    [p]. *)
Definition follows (p : Platform.Platform) (d : Platform.Draws)
    (q : Platform.Platform) : Prop :=
  Platform.type (Platform.userData q)
  = Platform.nextLane (Platform.type (Platform.userData p))
      (Platform.rand d) /\
  y (Platform.position q)
  = (if Platform.heightVariation d <? 0.8
     then y (Platform.position p) - (2 + Platform.descent d * 4)
     else y (Platform.position p)) /\
  z (Platform.position q)
  = z (Platform.position p) - (6 + Platform.gap d * 5.25).

(** The lane-transition state describes the platform [p]. *)
Definition tracks (st : Platform.State) (p : Platform.Platform) : Prop :=
  Platform.platforms st <> [] /\
  Platform.lastPlatformPosition st = Platform.position p /\
  Platform.lastPlatformType st = Platform.type (Platform.userData p).

(** Draws that are all equal to [r]. *)
Definition constantDraws (r : R) : Platform.Draws :=
  {| Platform.rand := r; Platform.laneJitter := r;
     Platform.xVariation := r; Platform.heightVariation := r;
     Platform.descent := r; Platform.gap := r; Platform.longRoll := r;
     Platform.widthDraw := r; Platform.depthDraw := r;
     Platform.platformTypeRoll := r; Platform.halfMoveRoll := r;
     Platform.moveRoll := r; Platform.movementTypeDraw := r;
     Platform.progressDraw := r; Platform.paramDraw := r |}.

(** [h] is the greatest height among the platforms [ps]. *)
Definition isHighest (h : R) (ps : list Platform.Platform) : Prop :=
  (exists p, In p ps /\ y (Platform.position p) = h) /\
  (forall p, In p ps -> y (Platform.position p) <= h).

(** The platform [p] is ahead of the ball or below it. *)
Definition aheadOfOrBelowBall (b : Ball.State) (p : Platform.Platform)
  : Prop :=
  z (Platform.position p) <= z (Ball.position b) \/
  y (Platform.position p) <= y (Ball.position b).

(** [h] is the greatest height among the platforms of [ps] that satisfy
    [P]. *)
Definition isHighestOf (P : Platform.Platform -> Prop) (h : R)
    (ps : list Platform.Platform) : Prop :=
  (exists p, In p ps /\ P p /\ y (Platform.position p) = h) /\
  (forall p, In p ps -> P p -> y (Platform.position p) <= h).

(** The list that the loop of [checkFallOutOfBounds] runs over:
    [validPlatforms] after the fallback. *)
Definition referencePlatforms (platforms : list Platform.Platform)
    (b : Ball.State) : list Platform.Platform :=
  match filter (Collision.aheadOrBelow b) platforms with
  | [] => platforms
  | _ :: _ => filter (Collision.aheadOrBelow b) platforms
  end.

(** A platform at the given position, with the properties of the starting
    platform. *)
Definition platformAt (px py pz : R) : Platform.Platform :=
  {| Platform.position := mkVec3 px py pz;
     Platform.userData := Platform.userData Platform.startPlatform |}.

(** A horizontal platform anchored at the origin, at phase 0, that moves
    with the given range and speed. *)
Definition horizontalPlatform (range speed : R) : Platform.Platform :=
  Platform.setMovement Platform.startPlatform (mkVec3 0 0 0)
    {| Platform.originalPosition := mkVec3 0 0 0;
       Platform.movementProgress := 0;
       Platform.movementSpeed := speed;
       Platform.lastPosition := mkVec3 0 0 0;
       Platform.params := Some (Platform.MHorizontal range) |}.


(** What holds of the jump state of the ball in every state of the game:
    the extra-jump credit is not negative, and a ball that has used its
    double jump is jumping or left its platform by a jump, a bounce or a
    roll. *)
Definition jumpInvariant (b : Ball.State) : Prop :=
  (0 <= Ball.extraJumps b)%Z /\
  (Ball.hasDoubleJumped b = true ->
   Ball.isJumping b = true \/
   Controls.leftPlatformByItself (Ball.airEntryMethod b) = true).

(** The ball is in flight after a jump from the starting platform: it is at
    height 5, rising, with its double jump unused, and the jetpack is
    empty. *)
Definition inFlight : Game.t := {|
  Game.ball := {|
    Ball.position := mkVec3 0 5 0;
    Ball.rotation := mkVec3 0 0 0;
    Ball.ballVelocity := mkVec3 0 0.1 0;
    Ball.isJumping := true;
    Ball.hasDoubleJumped := false;
    Ball.jumpChargeTime := 0;
    Ball.airEntryMethod := Ball.Jumped;
    Ball.wasOnPlatform := false;
    Ball.extraJumps := 0
  |};
  Game.world := {|
    Platform.platforms := [Platform.startPlatform];
    Platform.lastPlatformPosition := mkVec3 0 0 0;
    Platform.lastPlatformType := Config.Center;
    Platform.redFlagPlatform := None
  |};
  Game.keys := Keys.released;
  Game.isGrabbing := false;
  Game.spaceship := None;
  Game.ballHeld := false;
  Game.jetpack := true;
  Game.speed := 0.15;
  Game.gameOver := false;
  Game.gameStarted := true;
  Game.ballReleased := true;
  Game.isPaused := false;
  Game.jetpackFuel := 0;
  Game.isJetpackActive := false;
  Game.redFlagPlatformReached := false
|}.


(** The jump state of [b'] is the one of [b]. *)
Definition sameJumpState (b b' : Ball.State) : Prop :=
  Ball.isJumping b' = Ball.isJumping b /\
  Ball.hasDoubleJumped b' = Ball.hasDoubleJumped b /\
  Ball.airEntryMethod b' = Ball.airEntryMethod b /\
  Ball.extraJumps b' = Ball.extraJumps b.

(** A fresh ball falls onto a speed-boost trampoline ([goalPlatformAtOrigin]
    serves as one). *)
Definition aboutToBounce : Game.t :=
  Game.setWorld
    {| Platform.platforms := [goalPlatformAtOrigin];
       Platform.lastPlatformPosition := mkVec3 0 0 0;
       Platform.lastPlatformType := Config.Center;
       Platform.redFlagPlatform := None |}
    (Game.setBall fallingBall inFlight).

(** The ball after the bounce. *)
Definition bouncedBall : Ball.State := {|
  Ball.position := mkVec3 0 (0 + 0.5 + Platform.ballRadius) 0;
  Ball.rotation := mkVec3 0 0 0;
  Ball.ballVelocity := mkVec3 0 (0.4 * 1.5) (0 - 0.1);
  Ball.isJumping := false;
  Ball.hasDoubleJumped := false;
  Ball.jumpChargeTime := 0;
  Ball.airEntryMethod := Ball.Bounced;
  Ball.wasOnPlatform := false;
  Ball.extraJumps := 0
|}.

(** The ball after the bounce and a double jump. *)
Definition doubleJumpedBall : Ball.State := {|
  Ball.position := mkVec3 0 (0 + 0.5 + Platform.ballRadius) 0;
  Ball.rotation := mkVec3 0 0 0;
  Ball.ballVelocity := mkVec3 0 (0.3 * 1.0) (0 - 0.1);
  Ball.isJumping := false;
  Ball.hasDoubleJumped := true;
  Ball.jumpChargeTime := 0;
  Ball.airEntryMethod := Ball.Bounced;
  Ball.wasOnPlatform := false;
  Ball.extraJumps := 0
|}.

(** The game after the bounce, and after the double jump that follows. *)
Definition bounced : Game.t :=
  Game.setSpeed (0.15 + 0.025) (Game.setBall bouncedBall aboutToBounce).

Definition doubleJumped : Game.t :=
  Game.setBall doubleJumpedBall
    (Game.setKeys (Keys.setSpace true Keys.released)
       (Game.setGameStarted true bounced)).

(** The double jump is used, by a ball that is jumping or left its platform
    by a jump, a bounce or a roll. *)
Definition doubleJumpUsed (b : Ball.State) : Prop :=
  Ball.hasDoubleJumped b = true /\
  (Ball.isJumping b = true \/
   Controls.leftPlatformByItself (Ball.airEntryMethod b) = true).

(** The ball rises above the trampoline it bounced from, released and free
    of the grab, in a running game with a jetpack. *)
Definition rising (g : Game.t) : Prop :=
  Platform.platforms (Game.world g) = [goalPlatformAtOrigin] /\
  0 < y (Ball.ballVelocity (Game.ball g)) /\
  0 <= y (Ball.position (Game.ball g)) /\
  Ball.wasOnPlatform (Game.ball g) = false /\
  Ball.airEntryMethod (Game.ball g) = Ball.Bounced /\
  Game.gameOver g = false /\ Game.isGrabbing g = false /\
  Game.ballReleased g = true /\ Game.jetpack g = true.

(** The variables that the frames of a flight leave alone. *)
Definition sameControls (g g' : Game.t) : Prop :=
  Game.keys g' = Game.keys g /\
  Game.isJetpackActive g' = Game.isJetpackActive g.

(** The jetpack burns: it is active and has fuel. *)
Definition burns (g : Game.t) : bool :=
  Game.isJetpackActive g && (0 <? Game.jetpackFuel g)%Z.

(** The vertical velocity after the gravity of one frame. *)
Definition afterGravity (deltaTime : R) (g : Game.t) : R :=
  if burns g then y (Ball.ballVelocity (Game.ball g))
  else y (Ball.ballVelocity (Game.ball g))
       - Config.gravity Config.GAME_SETTINGS * deltaTime * 60.

(** The flight in which the counterexample happens: after the double jump,
    one frame, in which a fuel power-up is collected; the key is released
    and pressed again, which starts the jetpack; a hundred frames, in which
    the jetpack burns its fuel; the key is released. *)
Definition flightWithJetpack : list Main.Op :=
  Main.frame (1 / 60)
  ++ [Main.CollectFuel; Main.KeyUpSpace; Main.KeyDownSpace]
  ++ Main.frames 100 (1 / 60)
  ++ [Main.KeyUpSpace].

(** One call of [createPlatform]. *)
Definition createCall (c : Platform.Call) (st : Platform.State)
  : Platform.State * Platform.Platform :=
  Platform.createPlatform (Platform.callIsRedFlag c) (Platform.callLevel c)
    (Platform.callDraws c) st.

(** The draws of the call are values that [Math.random()] can return. *)
Definition validCall (c : Platform.Call) : Prop :=
  Platform.valid_draws (Platform.callDraws c).

(** The call [createPlatform(false, scene, level)]. *)
Definition regularCall (level : Z) (d : Platform.Draws) : Platform.Call :=
  {| Platform.callIsRedFlag := false;
     Platform.callLevel := level;
     Platform.callDraws := d |}.


(** The state of a grab under way that started with the ball at
    [(x0, y0, z0)]: the game is paused, the ship hovers over [(x0, z0)] at
    a height between [y0 + 1] and [y0 + 21], and the ball is at the height
    of the ship, or still at [y0] with the ship just above it. *)
Definition grabbing (x0 y0 z0 : R) (count : Z) (s : Session.t) : Prop :=
  let g := Session.game s in
  Game.gameOver g = false /\
  Game.isPaused g = true /\
  Game.isGrabbing g = true /\
  Session.grabCount s = count /\
  Session.originalGrabHeight s = y0 + 1 /\
  x (Ball.position (Game.ball g)) = x0 /\
  z (Ball.position (Game.ball g)) = z0 /\
  exists h,
    Game.spaceship g = Some (mkVec3 x0 h z0) /\
    y0 + 1 <= h <= y0 + 21 /\
    (y (Ball.position (Game.ball g)) = h \/
     (y (Ball.position (Game.ball g)) = y0 /\ h = y0 + 1)).

(** The type that [spawnPowerUps] gives to the power-up it creates. *)
Definition spawnedType (forcedType : option PowerUp.Kind) (d : PowerUp.Draws)
  : PowerUp.Kind :=
  match forcedType with
  | Some forced => forced
  | None => PowerUp.drawnType (PowerUp.typeDraw d)
  end.

(** The draws all equal to [r]. *)
Definition constantPowerUpDraws (r : R) : PowerUp.Draws :=
  {| PowerUp.platformDraw := r; PowerUp.xDraw := r; PowerUp.yDraw := r;
     PowerUp.typeDraw := r; PowerUp.offsetDraw := r |}.

(** The power-ups of type [k] that the ball touches. *)
Definition touchedOfKind (ballPosition : Vec3) (k : PowerUp.Kind)
    (p : PowerUp.t) : bool :=
  PowerUp.touches ballPosition p
  && match PowerUp.type (PowerUp.userData p), k with
     | PowerUp.Jetpack, PowerUp.Jetpack => true
     | PowerUp.ExtraJump, PowerUp.ExtraJump => true
     | PowerUp.SOS, PowerUp.SOS => true
     | _, _ => false
     end.

(** The result of [checkPowerUpCollisions], in closed form. *)
Definition collected (ballPosition : Vec3) (pre post : list PowerUp.t)
    (s : PowerUp.Pickup) : PowerUp.Pickup :=
  {| PowerUp.powerUps :=
       filter (fun p => negb (PowerUp.touches ballPosition p)) pre ++ post;
     PowerUp.jetpackFuel :=
       if existsb (touchedOfKind ballPosition PowerUp.Jetpack) pre
       then 100%Z else PowerUp.jetpackFuel s;
     PowerUp.extraJumps :=
       (PowerUp.extraJumps s
        + Z.of_nat
            (length (filter (touchedOfKind ballPosition PowerUp.ExtraJump)
                            pre)))%Z;
     PowerUp.grabCount :=
       (PowerUp.grabCount s
        + Z.of_nat
            (length (filter (touchedOfKind ballPosition PowerUp.SOS)
                            pre)))%Z |}.

(** The calls [createPlatform(false, scene, level)]. *)
Definition regularCalls (calls : list Platform.Call) : Prop :=
  Forall (fun c => Platform.callIsRedFlag c = false) calls.

Definition noGoalPlatform (ps : list Platform.Platform) : Prop :=
  Forall (fun p => Platform.isRedFlagPlatform (Platform.userData p) = false)
         ps.


(** A platform that reaches at most [removeDistance] behind its centre, as
    far as the collision test is concerned: half its depth plus the margin
    of 0.8 for a rectangular platform, nine tenths of its radius for a round
    one. *)
Definition withinReach (removeDistance : R) (p : Platform.Platform) : Prop :=
  if Platform.isRoundPlatform (Platform.userData p)
  then Rabs (Platform.radius (Platform.userData p)) * 0.9 <= removeDistance
  else Platform.depth (Platform.userData p) / 2 + 0.8 <= removeDistance.

(** The object that [checkPlatformCollision] returns for a ball on the
    platform [p]. *)
Definition infoOf (p : Platform.Platform) : Platform.Info.t :=
  {| Platform.Info.onPlatform := true;
     Platform.Info.bounceEffect := Platform.bounceEffect (Platform.userData p);
     Platform.Info.isRedFlagPlatform :=
       Platform.isRedFlagPlatform (Platform.userData p);
     Platform.Info.platformY := Some (y (Platform.position p) + 0.5);
     Platform.Info.ballRadius := Some 1.0;
     Platform.Info.isTrampoline := None |}.

(** Two balls that differ at most in their position. *)
Definition samePhysics (b b' : Ball.State) : Prop :=
  Ball.ballVelocity b' = Ball.ballVelocity b /\
  Ball.isJumping b' = Ball.isJumping b /\
  Ball.hasDoubleJumped b' = Ball.hasDoubleJumped b /\
  Ball.airEntryMethod b' = Ball.airEntryMethod b /\
  Ball.jumpChargeTime b' = Ball.jumpChargeTime b /\
  Ball.extraJumps b' = Ball.extraJumps b.

(** How far a movement can take a platform from its anchor, along each
    axis. *)
Definition reach (k : Platform.MovementParams) : Vec3 :=
  match k with
  | Platform.MHorizontal movementRange => mkVec3 (Rabs movementRange) 0 0
  | Platform.MVertical movementRange => mkVec3 0 (Rabs movementRange) 0
  | Platform.MDiagonal rangeX rangeY direction =>
      mkVec3 (Rabs (rangeX * direction)) (Rabs rangeY) 0
  | Platform.MOrbital orbitalRadius =>
      mkVec3 (Rabs orbitalRadius) 0 (Rabs orbitalRadius)
  | Platform.MFigure8 scaleX scaleY => mkVec3 (Rabs scaleX) (Rabs scaleY / 2) 0
  | Platform.MPendulum pendulumLength Platform.AxisX =>
      mkVec3 (Rabs pendulumLength) 0 0
  | Platform.MPendulum pendulumLength Platform.AxisY =>
      mkVec3 0 (Rabs pendulumLength) 0
  end.

(** The point [pos] lies within [r] of [o] along each axis. *)
Definition within (o r pos : Vec3) : Prop :=
  Rabs (x pos - x o) <= x r /\
  Rabs (y pos - y o) <= y r /\
  Rabs (z pos - z o) <= z r.

(** The sum of the time steps. *)
Definition elapsed (deltas : list R) : R := fold_right Rplus 0 deltas.

(** One call of [updateMovingPlatforms] per time step, seen on one
    platform. *)
Definition updatesOf (deltas : list R) (p : Platform.Platform)
  : Platform.Platform :=
  fold_left (fun q deltaTime => Platform.updateMovingPlatform deltaTime q)
            deltas p.

(** The grab is as it was: the counter, the flags of the grab, of the
    pause, of the release and of the end of the game, the ball and the
    ship. *)
Definition sameGrab (s s' : Session.t) : Prop :=
  Session.grabCount s' = Session.grabCount s /\
  Game.isGrabbing (Session.game s') = Game.isGrabbing (Session.game s) /\
  Game.isPaused (Session.game s') = Game.isPaused (Session.game s) /\
  Game.ballReleased (Session.game s') = Game.ballReleased (Session.game s) /\
  Game.gameOver (Session.game s') = Game.gameOver (Session.game s) /\
  Game.ball (Session.game s') = Game.ball (Session.game s) /\
  Game.spaceship (Session.game s') = Game.spaceship (Session.game s).

(** Every platform of the list is at or beyond the Z of every platform
    before it. *)
Fixpoint ascendingZ (l : list Platform.Platform) : Prop :=
  match l with
  | [] => True
  | p :: rest =>
      Forall (fun q => z (Platform.position p) <= z (Platform.position q))
             rest
      /\ ascendingZ rest
  end.

(** The ball is in a jump and carries no jump charge. *)
Definition jumpingUncharged (b : Ball.State) : Prop :=
  Ball.isJumping b = true /\ Ball.jumpChargeTime b = 0.

(** A ball that fell off a platform, in a world without platforms. *)
Definition fellOff : Game.t :=
  Game.setWorld Platform.initialState
    (Game.setBall
       {| Ball.position := mkVec3 0 5 0;
          Ball.rotation := mkVec3 0 0 0;
          Ball.ballVelocity := mkVec3 0 0 0;
          Ball.isJumping := false;
          Ball.hasDoubleJumped := false;
          Ball.jumpChargeTime := 0;
          Ball.airEntryMethod := Ball.Fell;
          Ball.wasOnPlatform := false;
          Ball.extraJumps := 0 |}
       inFlight).

(** A game in flight with a ship and one grab to spend. *)
Definition grabReady : Session.t :=
  {| Session.game :=
       Main.run (Main.Claw false (Some (mkVec3 0 15 0)) false false) inFlight;
     Session.grabCount := 1;
     Session.originalGrabHeight := 0;
     Session.upPressTimes := (0, 0, 0) |}.

(** The touch screen at start-up, with a game in flight. *)
Definition touchInFlight : Touch.t :=
  {| Touch.game := inFlight;
     Touch.touch := Touch.initialState;
     Touch.gameState := Touch.snapshot inFlight |}.

(* ================================================================= *)
(** * Properties *)

(** ** The boolean comparisons *)

Lemma Rleb_true (a b : R) : (a <=? b) = true <-> a <= b.
Proof.
  unfold Rleb. destruct (Rle_dec a b); split; intros; try easy.
Qed.

Lemma Rleb_false (a b : R) : (a <=? b) = false <-> b < a.
Proof.
  unfold Rleb. destruct (Rle_dec a b); split; intros; try easy; lra.
Qed.

Lemma Rltb_true (a b : R) : (a <? b) = true <-> a < b.
Proof.
  unfold Rltb. destruct (Rlt_dec a b); split; intros; try easy.
Qed.

Lemma Rltb_false (a b : R) : (a <? b) = false <-> b <= a.
Proof.
  unfold Rltb. destruct (Rlt_dec a b); split; intros; try easy; lra.
Qed.

(** [decide_R] replaces the comparisons of real numbers that occur in the
    goal by their truth values; the arithmetic goes to [lra], after [Rabs],
    [Rmin] and [Rmax] are split into their cases. *)
Ltac split_Rabs :=
  repeat match goal with
         | |- context [Rabs ?a] =>
             unfold Rabs; destruct (Rcase_abs a)
         | |- context [Rmin ?a ?b] =>
             unfold Rmin; destruct (Rle_dec a b)
         | |- context [Rmax ?a ?b] =>
             unfold Rmax; destruct (Rle_dec a b)
         end.

Ltac solve_R := split_Rabs; lra.

Ltac decide_R :=
  repeat match goal with
         | |- context [Rleb ?a ?b] =>
             first [ rewrite (proj2 (Rleb_true a b)) by solve_R
                   | rewrite (proj2 (Rleb_false a b)) by solve_R ]
         | |- context [Rltb ?a ?b] =>
             first [ rewrite (proj2 (Rltb_true a b)) by solve_R
                   | rewrite (proj2 (Rltb_false a b)) by solve_R ]
         end.

(* ----------------------------------------------------------------- *)
(** ** The collision resolver and the goal platform *)

(** No object that [checkPlatformCollision] returns has an [isTrampoline]
    property. *)
Lemma checkPlatformCollision_isTrampoline platforms ballPosition ballVelocity :
  Platform.Info.isTrampoline
    (Platform.checkPlatformCollision platforms ballPosition ballVelocity)
  = None.
Proof.
  induction platforms as [|p rest IH]; simpl; [reflexivity|].
  destruct (Platform.collisionDetected p ballPosition ballVelocity);
    [reflexivity | exact IH].
Qed.

(** [handlePlatformCollisions] never calls [onRedFlagPlatformReached],
    whatever the ball touches. *)
Lemma handlePlatformCollisions_never_calls settings platforms speed b :
  Collision.redFlagPlatformReachedCalled
    (Collision.handlePlatformCollisions settings platforms speed b) = false.
Proof.
  unfold Collision.handlePlatformCollisions.
  destruct (Ball.applyPlatformEffects _ _ _ _) as [b1 newSpeed].
  destruct (Platform.Info.onPlatform _); simpl; [|reflexivity].
  rewrite checkPlatformCollision_isTrampoline. simpl.
  apply andb_false_r.
Qed.

(** The flag [redFlagPlatformReached] of the game loop is not raised by the
    collision step. *)
Lemma stepCollisions_redFlagPlatformReached g :
  Game.redFlagPlatformReached (Main.stepCollisions g)
  = Game.redFlagPlatformReached g.
Proof.
  unfold Main.stepCollisions.
  rewrite handlePlatformCollisions_never_calls. reflexivity.
Qed.

(** C1, at the scenario of the goal platform: the ball falls onto the goal
    disc at the origin.  The resolver finds the ball on the platform, reports
    the goal platform with the speed-boost effect and snaps the ball to the
    top of the platform, but the goal-reached callback is not called. *)
Theorem goal_platform_reached_not_signalled :
  let platforms := [goalPlatformAtOrigin] in
  let info :=
    Platform.checkPlatformCollision platforms (Ball.position fallingBall)
      (Ball.ballVelocity fallingBall) in
  let r :=
    Collision.handlePlatformCollisions Config.GAME_SETTINGS platforms 0.15
      fallingBall in
  Platform.Info.onPlatform info = true /\
  Platform.Info.isRedFlagPlatform info = true /\
  Platform.Info.bounceEffect info = Some Platform.Forward /\
  y (Ball.ballVelocity fallingBall) <= 0 /\
  Collision.onPlatform r = true /\
  y (Ball.position (Collision.ball r)) = 0 + 0.5 + 1.0 /\
  Collision.redFlagPlatformReachedCalled r = false.
Proof.
  assert (Hc : Platform.collisionDetected goalPlatformAtOrigin
                 (Ball.position fallingBall) (Ball.ballVelocity fallingBall)
               = true).
  { unfold Platform.collisionDetected, Platform.ballRadius; simpl.
    decide_R; reflexivity. }
  assert (Hv : (y (Ball.ballVelocity fallingBall) <? 0) = true)
    by (apply Rltb_true; simpl; lra).
  cbv zeta.
  unfold Collision.handlePlatformCollisions, Platform.checkPlatformCollision.
  rewrite Hc.
  unfold Ball.applyPlatformEffects.
  cbn [Platform.Info.onPlatform Platform.Info.bounceEffect andb].
  rewrite Hv.
  cbn [Platform.Info.onPlatform Platform.Info.bounceEffect
       Platform.Info.isRedFlagPlatform Platform.Info.platformY
       Platform.Info.ballRadius Platform.Info.isTrampoline
       Platform.userData Platform.bounceEffect Platform.isRedFlagPlatform
       goalPlatformAtOrigin Collision.onPlatform Collision.ball
       Collision.redFlagPlatformReachedCalled truthy andb].
  repeat split; try reflexivity.
  simpl; lra.
Qed.

(* ----------------------------------------------------------------- *)
(** ** Platform effects on landing *)

Lemma fallingBall_on_slowDownPlatform :
  Platform.checkPlatformCollision [slowDownPlatformAtOrigin]
    (Ball.position fallingBall) (Ball.ballVelocity fallingBall)
  = landingInfo (Some Platform.Backward).
Proof.
  unfold Platform.checkPlatformCollision, Platform.collisionDetected,
    Platform.ballRadius; simpl.
  decide_R. reflexivity.
Qed.

Section ApplyPlatformEffects.

Variable settings : Config.GameSettings.
Variable platformInfo : Platform.Info.t.
Variable speed : R.
Variable b : Ball.State.

Hypothesis on_platform : Platform.Info.onPlatform platformInfo = true.
Hypothesis falling : y (Ball.ballVelocity b) < 0.

Lemma landing_test :
  Platform.Info.onPlatform platformInfo && (y (Ball.ballVelocity b) <? 0)
  = true.
Proof.
  rewrite on_platform. simpl. apply Rltb_true. exact falling.
Qed.

(** The speed that a landing on a slow-down trampoline returns: [0.05] less,
    raised to [minSpeed] when the settings have one. *)
Lemma applyPlatformEffects_backward_speed :
  Platform.Info.bounceEffect platformInfo = Some Platform.Backward ->
  snd (Ball.applyPlatformEffects settings platformInfo speed b)
  = match Config.minSpeed settings with
    | Some floor => if speed - 0.05 <? floor then floor else speed - 0.05
    | None => speed - 0.05
    end.
Proof.
  intros Heff. unfold Ball.applyPlatformEffects.
  rewrite landing_test, Heff. simpl.
  destruct (Config.minSpeed settings) as [floor|]; simpl; [|reflexivity].
  destruct (speed - 0.05 <? floor); reflexivity.
Qed.

(** With a [minSpeed] in the settings the returned speed respects it. *)
Lemma applyPlatformEffects_backward_floor floor :
  Platform.Info.bounceEffect platformInfo = Some Platform.Backward ->
  Config.minSpeed settings = Some floor ->
  floor <= snd (Ball.applyPlatformEffects settings platformInfo speed b).
Proof.
  intros Heff Hmin. rewrite applyPlatformEffects_backward_speed by assumption.
  rewrite Hmin. destruct (speed - 0.05 <? floor) eqn:E.
  - lra.
  - apply Rltb_false in E. exact E.
Qed.

(** C5: a landing on a speed-boost trampoline sets the vertical velocity to
    [1.5] times the maximum jump force, adds [-0.1] to the z velocity,
    returns the speed plus [0.025], and leaves the double-jump flag
    cleared. *)
Theorem applyPlatformEffects_forward :
  Platform.Info.bounceEffect platformInfo = Some Platform.Forward ->
  let r := Ball.applyPlatformEffects settings platformInfo speed b in
  y (Ball.ballVelocity (fst r)) = Config.maxJumpForce settings * 1.5 /\
  z (Ball.ballVelocity (fst r)) = z (Ball.ballVelocity b) - 0.1 /\
  snd r = speed + 0.025 /\
  Ball.hasDoubleJumped (fst r) = false.
Proof.
  intros Heff. cbv zeta. unfold Ball.applyPlatformEffects.
  rewrite landing_test, Heff. simpl. repeat split; reflexivity.
Qed.

End ApplyPlatformEffects.

Lemma applyPlatformEffects_forward_witness :
  let r := Ball.applyPlatformEffects Config.GAME_SETTINGS
             (landingInfo (Some Platform.Forward)) 0.15 fallingBall in
  y (Ball.ballVelocity (fst r)) = 0.4 * 1.5 /\
  z (Ball.ballVelocity (fst r)) = 0 - 0.1 /\
  snd r = 0.15 + 0.025 /\
  Ball.hasDoubleJumped (fst r) = false.
Proof.
  apply (applyPlatformEffects_forward Config.GAME_SETTINGS
           (landingInfo (Some Platform.Forward)) 0.15 fallingBall).
  - reflexivity.
  - simpl. lra.
  - reflexivity.
Defined.

(** With the settings of config.js, which have no [minSpeed], every landing
    on a slow-down trampoline returns the speed less [0.05]: nothing bounds
    the result from below. *)
Lemma slow_down_speed_GAME_SETTINGS speed b :
  y (Ball.ballVelocity b) < 0 ->
  snd (Ball.applyPlatformEffects Config.GAME_SETTINGS
         (landingInfo (Some Platform.Backward)) speed b)
  = speed - 0.05.
Proof.
  intros Hv.
  rewrite applyPlatformEffects_backward_speed by (try reflexivity; exact Hv).
  reflexivity.
Qed.

(** C2, at a base speed of [0.02]: the ball lands on a slow-down trampoline
    and the speed returned is [0.02 - 0.05], a negative speed; no floor is
    applied. *)
Theorem slow_down_speed_goes_negative :
  let info :=
    Platform.checkPlatformCollision [slowDownPlatformAtOrigin]
      (Ball.position fallingBall) (Ball.ballVelocity fallingBall) in
  let r := Ball.applyPlatformEffects Config.GAME_SETTINGS info 0.02
             fallingBall in
  Platform.Info.onPlatform info = true /\
  Platform.Info.bounceEffect info = Some Platform.Backward /\
  y (Ball.ballVelocity fallingBall) < 0 /\
  Config.minSpeed Config.GAME_SETTINGS = None /\
  snd r = 0.02 - 0.05 /\
  snd r < 0.
Proof.
  cbv zeta. rewrite fallingBall_on_slowDownPlatform.
  assert (Hv : y (Ball.ballVelocity fallingBall) < 0) by (simpl; lra).
  rewrite (slow_down_speed_GAME_SETTINGS 0.02 fallingBall Hv).
  repeat split; try reflexivity; try exact Hv; lra.
Qed.

(* ----------------------------------------------------------------- *)
(** ** The platform factory: lanes and positions of successive platforms *)

Lemma constantDraws_valid r : 0 <= r < 1 -> Platform.valid_draws (constantDraws r).
Proof.
  intros H. unfold Platform.valid_draws, Platform.unit_draw; simpl.
  repeat split; apply H.
Qed.

(** After every call the lane-transition state describes the platform the
    call returned. *)
Lemma createPlatform_tracks isRedFlag level d st :
  tracks (fst (Platform.createPlatform isRedFlag level d st))
         (snd (Platform.createPlatform isRedFlag level d st)).
Proof.
  unfold Platform.createPlatform, tracks.
  destruct (Platform.platforms st) as [|p0 ps]; simpl.
  - repeat split. discriminate.
  - repeat split. destruct ps; discriminate.
Qed.

(** A call made when the state describes [p] builds a platform that follows
    [p]. *)
Lemma createPlatform_follows isRedFlag level d st p :
  tracks st p ->
  follows p d (snd (Platform.createPlatform isRedFlag level d st)).
Proof.
  intros (Hne & Hpos & Hty). unfold Platform.createPlatform, follows.
  destruct (Platform.platforms st) as [|p0 ps]; [congruence|].
  simpl. rewrite Hpos, Hty. repeat split.
Qed.

Lemma createPlatforms_cons c calls st :
  Platform.createPlatforms (c :: calls) st
  = (fst (Platform.createPlatforms calls (fst (createCall c st))),
     snd (createCall c st)
     :: snd (Platform.createPlatforms calls (fst (createCall c st)))).
Proof.
  unfold createCall. simpl.
  destruct (Platform.createPlatform _ _ _ st) as [st1 p].
  simpl. destruct (Platform.createPlatforms calls st1) as [st2 ps].
  reflexivity.
Qed.

(** One platform is created per call. *)
Lemma createPlatforms_length calls : forall st,
  length (snd (Platform.createPlatforms calls st)) = length calls.
Proof.
  induction calls as [|c calls IH]; intros st; [reflexivity|].
  rewrite createPlatforms_cons. simpl. now rewrite IH.
Qed.

(** In the sequence built by successive calls, each platform follows the
    one created just before it, with the draws of its own call. *)
Lemma createPlatforms_follows calls : forall st i p q,
  let ps := snd (Platform.createPlatforms calls st) in
  nth_error ps i = Some p ->
  nth_error ps (S i) = Some q ->
  exists c, nth_error calls (S i) = Some c /\
            follows p (Platform.callDraws c) q.
Proof.
  induction calls as [|c calls IH]; intros st i p q ps Hp Hq.
  - destruct i; discriminate.
  - subst ps. rewrite createPlatforms_cons in Hp, Hq. simpl in Hp, Hq.
    destruct i as [|i].
    + simpl in Hp. injection Hp as <-.
      destruct calls as [|c' calls']; [discriminate|].
      rewrite createPlatforms_cons in Hq. simpl in Hq. injection Hq as <-.
      exists c'. split; [reflexivity|].
      apply createPlatform_follows, createPlatform_tracks.
    + simpl in Hp. simpl.
      exact (IH _ i p q Hp Hq).
Qed.

Lemma valid_call_nth calls i c :
  Forall validCall calls -> nth_error calls i = Some c ->
  Platform.valid_draws (Platform.callDraws c).
Proof.
  intros HF Hn. rewrite Forall_forall in HF. apply HF.
  eapply nth_error_In; eassumption.
Qed.

(** C6: in the sequence of platforms built by successive calls of
    [createPlatform], each platform after the first is no higher than the
    one before it, either level with it or between 2 and 6 lower, and lies
    ahead of it by a gap between 6 and 11.25, whatever the draws. *)
Theorem createPlatforms_descend_and_advance calls st i p q :
  Forall validCall calls ->
  nth_error (snd (Platform.createPlatforms calls st)) i = Some p ->
  nth_error (snd (Platform.createPlatforms calls st)) (S i) = Some q ->
  y (Platform.position q) <= y (Platform.position p) /\
  (y (Platform.position q) = y (Platform.position p) \/
   2 <= y (Platform.position p) - y (Platform.position q) < 6) /\
  z (Platform.position q) < z (Platform.position p) /\
  6 <= z (Platform.position p) - z (Platform.position q) < 11.25.
Proof.
  intros Hvalid Hp Hq.
  destruct (createPlatforms_follows calls st i p q Hp Hq)
    as (c & Hc & _ & Hy & Hz).
  pose proof (valid_call_nth _ _ _ Hvalid Hc) as Hv.
  unfold Platform.valid_draws, Platform.unit_draw in Hv.
  destruct Hv as (_ & _ & _ & _ & Hdescent & Hgap & _).
  rewrite Hz.
  destruct (Platform.heightVariation (Platform.callDraws c) <? 0.8);
    rewrite Hy.
  - split; [lra|]. split; [right; lra|]. lra.
  - split; [lra|]. split; [left; reflexivity|]. lra.
Qed.

Lemma createPlatforms_descend_and_advance_witness :
  let c := regularCall 1 (constantDraws 0.5) in
  let q := snd (createCall c (fst (createCall c Platform.initialState))) in
  Forall validCall [c; c] /\
  y (Platform.position q) <= y (Platform.position Platform.startPlatform) /\
  (y (Platform.position q) = y (Platform.position Platform.startPlatform) \/
   2 <= y (Platform.position Platform.startPlatform) - y (Platform.position q)
     < 6) /\
  z (Platform.position q) < z (Platform.position Platform.startPlatform) /\
  6 <= z (Platform.position Platform.startPlatform) - z (Platform.position q)
    < 11.25.
Proof.
  intros c q.
  assert (Hc : validCall c) by (apply constantDraws_valid; lra).
  assert (Hv : Forall validCall [c; c]).
  { apply Forall_cons; [exact Hc|].
    apply Forall_cons; [exact Hc|]. apply Forall_nil. }
  split; [exact Hv|].
  apply (createPlatforms_descend_and_advance [c; c] Platform.initialState
           0%nat Platform.startPlatform q Hv).
  - reflexivity.
  - reflexivity.
Defined.

(** The lane transition never keeps the lane.  From a lane other than
    [Center] it moves at most two steps, and exactly one from the two
    outermost lanes; from [Center] a draw below [0.9] moves at most three
    steps. *)
Lemma nextLane_steps last rand :
  let n := laneDistance last (Platform.nextLane last rand) in
  (1 <= n)%Z /\
  (last <> Config.Center -> (n <= 2)%Z) /\
  (last = Config.FarFarLeft \/ last = Config.FarFarRight -> n = 1%Z) /\
  (last = Config.Center -> rand < 0.9 -> (n <= 3)%Z).
Proof.
  cbv zeta. unfold Platform.nextLane.
  destruct last;
    repeat match goal with
           | |- context [Rltb rand ?c] => destruct (Rltb rand c) eqn:?
           end;
    unfold laneDistance; simpl;
    (split; [lia|]); (split; [intros; try lia; congruence|]);
    (split; [intros [?|?]; try reflexivity; discriminate|]);
    intros; try lia; try discriminate;
    repeat match goal with
           | H : Rltb _ _ = false |- _ => apply Rltb_false in H
           end; lra.
Qed.

(** C3, as amended: in the sequence of platforms built by successive calls
    of [createPlatform], the lane of each platform after the first differs
    from the lane of the platform before it; it lies at most two steps from
    it when that lane is not the centre (exactly one step from the two
    outermost lanes), and at most three steps when that lane is the centre
    and the lane draw is below 0.9. *)
Theorem createPlatforms_lane_steps calls st i p q c :
  nth_error (snd (Platform.createPlatforms calls st)) i = Some p ->
  nth_error (snd (Platform.createPlatforms calls st)) (S i) = Some q ->
  nth_error calls (S i) = Some c ->
  let prev := Platform.type (Platform.userData p) in
  let n := laneDistance prev (Platform.type (Platform.userData q)) in
  (1 <= n)%Z /\
  (prev <> Config.Center -> (n <= 2)%Z) /\
  (prev = Config.FarFarLeft \/ prev = Config.FarFarRight -> n = 1%Z) /\
  (prev = Config.Center -> Platform.rand (Platform.callDraws c) < 0.9 ->
   (n <= 3)%Z).
Proof.
  intros Hp Hq Hc.
  destruct (createPlatforms_follows calls st i p q Hp Hq)
    as (c' & Hc' & Hlane & _).
  assert (c' = c) by congruence. subst c'.
  cbv zeta. rewrite Hlane. apply nextLane_steps.
Qed.

Lemma createPlatforms_lane_steps_witness :
  let c := regularCall 1 (constantDraws 0.8) in
  let q := snd (createCall c (fst (createCall c Platform.initialState))) in
  let prev := Platform.type (Platform.userData Platform.startPlatform) in
  let n := laneDistance prev (Platform.type (Platform.userData q)) in
  (1 <= n)%Z /\
  (prev <> Config.Center -> (n <= 2)%Z) /\
  (prev = Config.FarFarLeft \/ prev = Config.FarFarRight -> n = 1%Z) /\
  (prev = Config.Center -> Platform.rand (Platform.callDraws c) < 0.9 ->
   (n <= 3)%Z).
Proof.
  intros c q.
  apply (createPlatforms_lane_steps [c; c] Platform.initialState 0%nat
           Platform.startPlatform q c).
  - reflexivity.
  - reflexivity.
  - reflexivity.
Defined.

(** C3, as stated, fails: with every draw equal to [0.1], the platform
    created right after the starting platform (lane [Center]) is in lane
    [FarLeft], three steps away. *)
Lemma createPlatforms_lane_jump :
  let c := regularCall 1 (constantDraws 0.1) in
  let ps := snd (Platform.createPlatforms [c; c] Platform.initialState) in
  Forall validCall [c; c] /\
  map (fun p => Platform.type (Platform.userData p)) ps
  = [Config.Center; Config.FarLeft] /\
  laneDistance Config.Center Config.FarLeft = 3%Z /\
  ~ (laneDistance Config.Center Config.FarLeft <= 1)%Z.
Proof.
  intros c ps.
  assert (Hc : validCall c) by (apply constantDraws_valid; lra).
  split.
  { apply Forall_cons; [exact Hc|].
    apply Forall_cons; [exact Hc|]. apply Forall_nil. }
  split.
  - subst ps.
    assert (H : (0.1 <? 0.15) = true) by (apply Rltb_true; lra).
    change (map (fun p => Platform.type (Platform.userData p))
              (snd (Platform.createPlatforms [c; c] Platform.initialState)))
      with [Config.Center; Platform.nextLane Config.Center 0.1].
    unfold Platform.nextLane. rewrite H. reflexivity.
  - split; [reflexivity|]. unfold laneDistance; simpl. lia.
Qed.

(* ----------------------------------------------------------------- *)
(** ** The fall-out-of-bounds check *)

Lemma aheadOrBelow_spec b p :
  Collision.aheadOrBelow b p = true <->
  z (Platform.position p) <= z (Ball.position b) \/
  y (Platform.position p) <= y (Ball.position b).
Proof.
  unfold Collision.aheadOrBelow. rewrite orb_true_iff, !Rleb_true.
  reflexivity.
Qed.

Lemma highestPlatformY_from ps : forall a,
  exists h,
    fold_left
      (fun highest p =>
         match highest with
         | None => Some (y (Platform.position p))
         | Some h =>
             if h <? y (Platform.position p)
             then Some (y (Platform.position p))
             else Some h
         end) ps (Some a) = Some h /\
    a <= h /\
    (h = a \/ exists p, In p ps /\ y (Platform.position p) = h) /\
    (forall p, In p ps -> y (Platform.position p) <= h).
Proof.
  induction ps as [|p ps IH]; intros a; simpl.
  - exists a. repeat split; [lra | now left | intros p []].
  - destruct (a <? y (Platform.position p)) eqn:E.
    + apply Rltb_true in E.
      destruct (IH (y (Platform.position p))) as (h & Hf & Hle & Hin & Hall).
      exists h. split; [exact Hf|]. split; [lra|]. split.
      * right. destruct Hin as [->|(p' & Hp' & Hy)].
        -- exists p. split; [now left | reflexivity].
        -- exists p'. split; [now right | exact Hy].
      * intros p' [<-|Hp']; [exact Hle | now apply Hall].
    + apply Rltb_false in E.
      destruct (IH a) as (h & Hf & Hle & Hin & Hall).
      exists h. split; [exact Hf|]. split; [exact Hle|]. split.
      * destruct Hin as [->|(p' & Hp' & Hy)]; [now left|].
        right. exists p'. split; [now right | exact Hy].
      * intros p' [<-|Hp']; [lra | now apply Hall].
Qed.

(** On a list that is not empty the loop finds the greatest height. *)
Lemma highestPlatformY_spec ps :
  ps <> [] ->
  exists h, Collision.highestPlatformY ps = Some h /\ isHighest h ps.
Proof.
  destruct ps as [|p ps]; [congruence|]. intros _.
  unfold Collision.highestPlatformY. simpl.
  destruct (highestPlatformY_from ps (y (Platform.position p)))
    as (h & Hf & Hle & Hin & Hall).
  exists h. split; [exact Hf|]. split.
  - destruct Hin as [->|(p' & Hp' & Hy)].
    + exists p. split; [now left | reflexivity].
    + exists p'. split; [now right | exact Hy].
  - intros p' [<-|Hp']; [exact Hle | now apply Hall].
Qed.

Lemma referencePlatforms_nonempty platforms b :
  platforms <> [] -> referencePlatforms platforms b <> [].
Proof.
  unfold referencePlatforms. intros H.
  destruct (filter (Collision.aheadOrBelow b) platforms); [exact H|].
  discriminate.
Qed.

Lemma checkFallOutOfBounds_reference platforms fallThreshold b :
  platforms <> [] ->
  Collision.checkFallOutOfBounds platforms fallThreshold b
  = match Collision.highestPlatformY (referencePlatforms platforms b) with
    | None => false
    | Some highest =>
        y (Ball.position b)
        <? highest - match fallThreshold with Some t => t | None => 30 end
    end.
Proof.
  destruct platforms as [|p ps]; [congruence|]. intros _.
  unfold Collision.checkFallOutOfBounds, referencePlatforms.
  destruct (filter (Collision.aheadOrBelow b) (p :: ps)); reflexivity.
Qed.

(** C10: on an empty list [checkFallOutOfBounds] returns [false].  On a list
    that is not empty it returns [true] exactly when the ball is lower than
    a height [highest] by more than the threshold, which is 30 when the
    argument is left out.  When some platform is ahead of the ball
    ([z <= ball z]) or below it ([y <= ball y]), [highest] is the greatest
    height among these platforms; when there is none, it is the greatest
    height among all the platforms. *)
Theorem checkFallOutOfBounds_spec platforms fallThreshold b :
  Collision.checkFallOutOfBounds [] fallThreshold b = false /\
  (platforms <> [] ->
   let threshold := match fallThreshold with Some t => t | None => 30 end in
   exists highest,
     (Collision.checkFallOutOfBounds platforms fallThreshold b = true <->
      y (Ball.position b) < highest - threshold) /\
     ((exists p, In p platforms /\ aheadOfOrBelowBall b p) ->
      isHighestOf (aheadOfOrBelowBall b) highest platforms) /\
     ((forall p, In p platforms -> ~ aheadOfOrBelowBall b p) ->
      isHighestOf (fun _ => True) highest platforms)).
Proof.
  split; [reflexivity|]. intros Hne. cbv zeta.
  destruct (highestPlatformY_spec (referencePlatforms platforms b)
              (referencePlatforms_nonempty platforms b Hne))
    as (h & Hh & (p1 & Hin1 & Hy1) & Hall).
  exists h. split; [|split].
  - rewrite checkFallOutOfBounds_reference by exact Hne.
    rewrite Hh. apply Rltb_true.
  - intros (p0 & Hin0 & Hq0).
    assert (Href : forall p,
               In p (referencePlatforms platforms b) <->
               In p platforms /\ aheadOfOrBelowBall b p).
    { intros p. unfold referencePlatforms.
      destruct (filter (Collision.aheadOrBelow b) platforms) as [|q l] eqn:E.
      - assert (Hin : In p0 (filter (Collision.aheadOrBelow b) platforms))
          by (apply filter_In; split; [exact Hin0|];
              apply aheadOrBelow_spec; exact Hq0).
        rewrite E in Hin. destruct Hin.
      - rewrite <- E, filter_In, aheadOrBelow_spec. reflexivity. }
    split.
    + exists p1. apply Href in Hin1. destruct Hin1 as [Hin1 Hq1].
      split; [exact Hin1|]. split; [exact Hq1 | exact Hy1].
    + intros p Hin Hq. apply Hall, Href. split; assumption.
  - intros Hnone.
    assert (Href : referencePlatforms platforms b = platforms).
    { unfold referencePlatforms.
      destruct (filter (Collision.aheadOrBelow b) platforms) as [|q l] eqn:E;
        [reflexivity|].
      assert (Hin : In q (filter (Collision.aheadOrBelow b) platforms))
        by (rewrite E; now left).
      apply filter_In in Hin. destruct Hin as [Hin Htrue].
      apply aheadOrBelow_spec in Htrue.
      destruct (Hnone q Hin Htrue). }
    rewrite Href in Hin1, Hall. split.
    + exists p1. split; [exact Hin1|]. split; [exact I | exact Hy1].
    + intros p Hin _. apply Hall. exact Hin.
Qed.

Lemma checkFallOutOfBounds_spec_witness :
  let platforms := [platformAt 0 50 5; platformAt 0 0 (-10);
                    platformAt 0 (-4) (-20)] in
  platforms <> [] /\
  Collision.checkFallOutOfBounds platforms None fallingBall = false.
Proof.
  intros platforms.
  assert (Hne : platforms <> []) by discriminate.
  split; [exact Hne|].
  destruct (proj2 (checkFallOutOfBounds_spec platforms None fallingBall) Hne)
    as (highest & Hiff & Hsome & _).
  destruct Hsome as [(p & Hin & Hq & Hy) _].
  { exists (platformAt 0 0 (-10)).
    split; [right; left; reflexivity|].
    left. unfold platformAt, fallingBall. simpl. lra. }
  apply not_true_is_false. intros Htrue. apply Hiff in Htrue.
  unfold aheadOfOrBelowBall, fallingBall in Htrue, Hq.
  simpl in Htrue, Hq.
  destruct Hin as [<-|[<-|[<-|[]]]];
    unfold platformAt in Hq, Hy; simpl in Hq, Hy; destruct Hq; lra.
Defined.

(* ----------------------------------------------------------------- *)
(** ** Moving platforms and the ball that rides them *)


(** The platform found by [getCurrentPlatform] is one of the platforms and
    touches the ball. *)
Lemma getCurrentPlatform_In platforms ballPosition ballVelocity p :
  Platform.getCurrentPlatform platforms ballPosition ballVelocity = Some p ->
  In p platforms /\
  Platform.collisionDetected p ballPosition ballVelocity = true.
Proof.
  induction platforms as [|p0 ps IH]; simpl; [discriminate|].
  destruct (Platform.collisionDetected p0 _ _) eqn:E.
  - intros [= <-]. split; [now left | exact E].
  - intros H. destruct (IH H). split; [now right | assumption].
Qed.

(** What [updateMovingPlatforms] does to one moving platform. *)
Lemma updateMovingPlatform_moving deltaTime p m :
  Platform.movement (Platform.userData p) = Some m ->
  Platform.updateMovingPlatform deltaTime p
  = Platform.setMovement p
      (Platform.trajectory (Platform.params m) (Platform.originalPosition m)
         (Platform.position p)
         (Platform.movementProgress m
          + Platform.movementSpeed m * deltaTime * 60))
      {| Platform.originalPosition := Platform.originalPosition m;
         Platform.movementProgress :=
           Platform.movementProgress m
           + Platform.movementSpeed m * deltaTime * 60;
         Platform.movementSpeed := Platform.movementSpeed m;
         Platform.lastPosition := Platform.position p;
         Platform.params := Platform.params m |}.
Proof.
  intros Hm. unfold Platform.updateMovingPlatform. rewrite Hm.
  destruct (Platform.position p); reflexivity.
Qed.


Lemma stepCollisions_ball g :
  Game.ball (Main.stepCollisions g)
  = Collision.ball
      (Collision.handlePlatformCollisions Config.GAME_SETTINGS
         (Platform.platforms (Game.world g)) (Game.speed g) (Game.ball g)).
Proof.
  unfold Main.stepCollisions.
  destruct (Collision.redFlagPlatformReachedCalled _); reflexivity.
Qed.
















(* ----------------------------------------------------------------- *)
(** ** The jump chain *)

Lemma jump_extraJumps isDoubleJump b :
  Ball.extraJumps (fst (Ball.jump isDoubleJump true b))
  = (Ball.extraJumps b - 1)%Z /\
  snd (Ball.jump isDoubleJump true b) = (Ball.extraJumps b - 1)%Z.
Proof. split; reflexivity. Qed.

(** What a press of the space key does to the ball. *)
Lemma onKeyDownSpace_ball g :
  Game.ball (Controls.onKeyDownSpace g)
  = match Main.jumpMade g with
    | Some Controls.FirstJump => fst (Ball.jump false false (Game.ball g))
    | Some Controls.DoubleJump => fst (Ball.jump true false (Game.ball g))
    | Some Controls.ExtraJump => fst (Ball.jump false true (Game.ball g))
    | None =>
        if negb (Game.gameOver g) && Game.isGrabbing g
        then Game.ball (Game.endGrab g)
        else Game.ball g
    end.
Proof.
  unfold Controls.onKeyDownSpace, Main.jumpMade.
  destruct (Game.gameOver g); [reflexivity|].
  cbn [Game.isGrabbing Game.setGameStarted Game.ballReleased
       Game.jetpackFuel negb andb].
  destruct (Game.isGrabbing g); [reflexivity|].
  destruct (Game.ballReleased g); [|reflexivity]. cbn [negb].
  destruct (0 <? Game.jetpackFuel g)%Z; [reflexivity|].
  unfold Controls.jumpInput.
  repeat match goal with
         | |- context [if ?c then _ else _] => destruct c
         end; reflexivity.
Qed.

(** The call of [jump] that a press makes, from the state of the ball. *)
Lemma jumpMade_Some g k :
  Main.jumpMade g = Some k ->
  Game.gameOver g = false /\ Game.isGrabbing g = false /\
  Keys.space (Game.keys g) = false /\
  match k with
  | Controls.FirstJump =>
      Ball.isJumping (Game.ball g) = false /\
      (Game.isOnPlatform g = true \/
       Ball.airEntryMethod (Game.ball g) = Ball.Fell)
  | Controls.DoubleJump =>
      Game.isOnPlatform g = false /\
      Ball.hasDoubleJumped (Game.ball g) = false /\
      (Controls.leftPlatformByItself (Ball.airEntryMethod (Game.ball g))
       = true \/ Ball.isJumping (Game.ball g) = true)
  | Controls.ExtraJump =>
      Game.isOnPlatform g = false /\
      Ball.hasDoubleJumped (Game.ball g) = true /\
      (0 < Ball.extraJumps (Game.ball g))%Z
  end.
Proof.
  unfold Main.jumpMade.
  destruct (Game.gameOver g); [discriminate|].
  destruct (Game.isGrabbing g); [discriminate|].
  destruct (Game.ballReleased g); [|discriminate]. cbn [negb].
  destruct (0 <? Game.jetpackFuel g)%Z; [discriminate|].
  unfold Controls.jumpInput.
  change (Game.isOnPlatform (Game.setGameStarted true g))
    with (Game.isOnPlatform g).
  cbn [Game.ball Game.keys Game.setGameStarted].
  destruct (Keys.space (Game.keys g)); cbn [negb andb]; [discriminate|].
  destruct (Game.isOnPlatform g) eqn:Hon;
    destruct (Ball.isJumping (Game.ball g)) eqn:Hj;
    destruct (Ball.hasDoubleJumped (Game.ball g)) eqn:Hd;
    destruct (Ball.airEntryMethod (Game.ball g)) eqn:Ha;
    cbn [negb andb snd Controls.isFell Controls.leftPlatformByItself];
    try discriminate;
    try (destruct (0 <? Ball.extraJumps (Game.ball g))%Z eqn:He;
         cbn [snd]; try discriminate; apply Z.ltb_lt in He);
    intros [= <-]; repeat split; auto.
Qed.

Lemma sameJumpState_refl b : sameJumpState b b.
Proof. repeat split. Qed.

(** What each operation other than a press of the space key does to the jump
    state of the ball. *)
Lemma run_jumpState op g :
  let b := Game.ball g in
  let b' := Game.ball (Main.run op g) in
  match op with
  | Main.KeyDownSpace => True
  | Main.UpdateBallPosition _ =>
      if Main.leavesPlatform g then
        Ball.hasDoubleJumped b' = false /\
        Ball.isJumping b' = Ball.isJumping b /\
        Ball.extraJumps b' = Ball.extraJumps b
      else sameJumpState b b'
  | Main.UpdateJetpack =>
      if Main.depletesFuel g then
        Ball.isJumping b' = true /\ Ball.hasDoubleJumped b' = false /\
        Ball.airEntryMethod b' = Ball.airEntryMethod b /\
        Ball.extraJumps b' = Ball.extraJumps b
      else sameJumpState b b'
  | Main.HandlePlatformCollisions =>
      if Main.lands g then
        Ball.isJumping b' = false /\ Ball.hasDoubleJumped b' = false /\
        Ball.extraJumps b' = Ball.extraJumps b
      else sameJumpState b b'
  | Main.CollectExtraJump =>
      Ball.isJumping b' = Ball.isJumping b /\
      Ball.hasDoubleJumped b' = Ball.hasDoubleJumped b /\
      Ball.airEntryMethod b' = Ball.airEntryMethod b /\
      Ball.extraJumps b' = (Ball.extraJumps b + 1)%Z
  | Main.Restart _ => b' = Ball.initialState
  | _ => sameJumpState b b'
  end.
Proof.
  cbv zeta. destruct op; try exact I;
    try (unfold sameJumpState; simpl; repeat split; reflexivity).
  - (* KeyUpSpace *)
    unfold Main.run, Controls.onKeyUpSpace.
    cbn [Game.keys Game.ball Game.setJetpackActive].
    destruct (Keys.space (Game.keys g) && Ball.isJumping (Game.ball g));
      repeat split.
  - (* UpdateBallPosition *)
    unfold Main.run, Main.stepBall, Main.leavesPlatform, Game.isOnPlatform,
      Ball.updateBallPosition.
    cbn [Game.ball Game.setBall Ball.hasDoubleJumped Ball.isJumping
         Ball.extraJumps Ball.airEntryMethod].
    destruct (Ball.wasOnPlatform (Game.ball g)
              && negb (Collision.isOnPlatform
                         (Platform.platforms (Game.world g)) (Game.ball g))
              && negb (Ball.isJumping (Game.ball g)));
      repeat split.
  - (* UpdateJetpack *)
    unfold Main.run, Main.stepJetpack, Main.depletesFuel,
      Jetpack.updateJetpack.
    destruct (Game.jetpack g); cbn [negb andb]; [|repeat split].
    destruct (Game.isJetpackActive g); cbn [andb]; [|
      replace (false && (0 <? Game.jetpackFuel g)%Z) with false
        by reflexivity; repeat split].
    destruct (Game.jetpackFuel g =? 1)%Z eqn:E1.
    + apply Z.eqb_eq in E1. rewrite E1. repeat split.
    + destruct (0 <? Game.jetpackFuel g)%Z; repeat split.
  - (* HandlePlatformCollisions *)
    unfold Main.run, Main.stepCollisions.
    rewrite handlePlatformCollisions_never_calls.
    cbn [Game.ball Game.setBall Game.setSpeed].
    unfold Main.lands, Game.isOnPlatform, Collision.isOnPlatform,
      Collision.handlePlatformCollisions, Ball.applyPlatformEffects.
    destruct (Platform.checkPlatformCollision
                (Platform.platforms (Game.world g))
                (Ball.position (Game.ball g))
                (Ball.ballVelocity (Game.ball g)))
      as [on effect red py br tr].
    cbn [Platform.Info.onPlatform Platform.Info.bounceEffect
         Platform.Info.platformY Platform.Info.ballRadius].
    destruct on; cbn [andb].
    + destruct (y (Ball.ballVelocity (Game.ball g)) <? 0).
      * destruct effect as [[|]|]; destruct py, br; repeat split.
      * destruct py, br; repeat split.
    + repeat split.
  - (* FallCheck *)
    unfold Main.run, Main.stepFallCheck.
    destruct (Collision.checkFallOutOfBounds _ _ _); repeat split.
Qed.

Lemma jumpInvariant_same b b' :
  sameJumpState b b' -> jumpInvariant b -> jumpInvariant b'.
Proof.
  intros (Hj & Hd & Ha & He) (Hpos & Hinv). unfold jumpInvariant.
  rewrite Hj, Hd, Ha, He. split; assumption.
Qed.

Lemma endGrab_sameJumpState g :
  sameJumpState (Game.ball g) (Game.ball (Game.endGrab g)).
Proof.
  unfold Game.endGrab. destruct (Game.spaceship g); repeat split.
Qed.

(** Every operation preserves the invariant of the jump state. *)
Lemma run_jumpInvariant op g :
  jumpInvariant (Game.ball g) -> jumpInvariant (Game.ball (Main.run op g)).
Proof.
  intros Hinv. pose proof (run_jumpState op g) as H. cbv zeta in H.
  destruct op;
    try (apply (jumpInvariant_same _ _ H Hinv)).
  - (* KeyDownSpace *)
    change (Main.run Main.KeyDownSpace g) with (Controls.onKeyDownSpace g).
    rewrite onKeyDownSpace_ball.
    destruct (Main.jumpMade g) as [k|] eqn:Hk.
    + apply jumpMade_Some in Hk. destruct Hk as (_ & _ & _ & Hk).
      destruct Hinv as (Hpos & Hd).
      destruct k; unfold jumpInvariant; simpl.
      * split; [exact Hpos | discriminate].
      * split; [exact Hpos|]. intros _. destruct Hk as (_ & _ & [?|?]);
          [now right | now left].
      * split; [lia | exact Hd].
    + destruct (negb (Game.gameOver g) && Game.isGrabbing g);
        [|exact Hinv].
      exact (jumpInvariant_same _ _ (endGrab_sameJumpState g) Hinv).
  - (* UpdateBallPosition *)
    destruct (Main.leavesPlatform g);
      [|exact (jumpInvariant_same _ _ H Hinv)].
    destruct H as (Hd & _ & He), Hinv as (Hpos & _).
    split; [now rewrite He | rewrite Hd; discriminate].
  - (* UpdateJetpack *)
    destruct (Main.depletesFuel g);
      [|exact (jumpInvariant_same _ _ H Hinv)].
    destruct H as (_ & Hd & _ & He), Hinv as (Hpos & _).
    split; [now rewrite He | rewrite Hd; discriminate].
  - (* HandlePlatformCollisions *)
    destruct (Main.lands g);
      [|exact (jumpInvariant_same _ _ H Hinv)].
    destruct H as (_ & Hd & He), Hinv as (Hpos & _).
    split; [now rewrite He | rewrite Hd; discriminate].
  - (* CollectExtraJump *)
    destruct H as (Hj & Hd & Ha & He), Hinv as (Hpos & Hinv).
    unfold jumpInvariant. rewrite Hj, Hd, Ha, He. split; [lia | exact Hinv].
  - (* Restart *)
    rewrite H. split; [simpl; lia | discriminate].
Qed.

(** The invariant holds in every state of the game. *)
Lemma reachable_jumpInvariant g :
  Main.reachable g -> jumpInvariant (Game.ball g).
Proof.
  induction 1 as [g (Hj & Hd & Ha & Hw & He) | op g _ IH].
  - split; [rewrite He; lia | rewrite Hd; discriminate].
  - apply run_jumpInvariant, IH.
Qed.

(** C8: an extra jump takes exactly one unit of the extra-jump credit, and
    in every state of the game the credit is not negative, before and after
    a press of the space key.  A press that arrives while the ball is in
    the air with its double jump used and no credit left, and that is a
    jump input (the ball is not held by the grab), changes nothing of the
    ball and calls [jump] not at all. *)
Theorem jump_input_credit g :
  Main.reachable g ->
  (forall isDoubleJump b,
     Ball.extraJumps (fst (Ball.jump isDoubleJump true b))
     = (Ball.extraJumps b - 1)%Z) /\
  (Main.jumpMade g = Some Controls.ExtraJump ->
   Ball.extraJumps (Game.ball (Controls.onKeyDownSpace g))
   = (Ball.extraJumps (Game.ball g) - 1)%Z) /\
  (0 <= Ball.extraJumps (Game.ball g))%Z /\
  (0 <= Ball.extraJumps (Game.ball (Controls.onKeyDownSpace g)))%Z /\
  (Ball.hasDoubleJumped (Game.ball g) = true ->
   Ball.extraJumps (Game.ball g) = 0%Z ->
   Game.isOnPlatform g = false ->
   Game.isGrabbing g = false ->
   Main.jumpMade g = None /\
   Game.ball (Controls.onKeyDownSpace g) = Game.ball g).
Proof.
  intros Hreach.
  pose proof (reachable_jumpInvariant g Hreach) as Hinv.
  pose proof (reachable_jumpInvariant _
                (Main.reachable_run Main.KeyDownSpace g Hreach)) as Hinv'.
  split; [reflexivity|]. split; [|split; [apply Hinv|split; [apply Hinv'|]]].
  - intros Hk. rewrite onKeyDownSpace_ball, Hk. reflexivity.
  - intros Hd He Hon Hgrab.
    assert (Hnone : Main.jumpMade g = None).
    { destruct (Main.jumpMade g) as [k|] eqn:Hk; [|reflexivity].
      apply jumpMade_Some in Hk. destruct Hk as (_ & _ & _ & Hk).
      destruct Hinv as (_ & Hinv). specialize (Hinv Hd).
      destruct k.
      - destruct Hk as (Hj & [Hon'|Ha]); [congruence|].
        destruct Hinv as [?|Hleft]; [congruence|].
        rewrite Ha in Hleft. discriminate.
      - destruct Hk as (_ & Hd' & _). congruence.
      - destruct Hk as (_ & _ & Hlt). lia. }
    split; [exact Hnone|].
    rewrite onKeyDownSpace_ball, Hnone, Hgrab, andb_false_r. reflexivity.
Qed.

Lemma aboutToBounce_fresh : Main.freshBall (Game.ball aboutToBounce).
Proof. repeat split. Qed.

(** A ball that moves upwards touches no platform. *)
Lemma rising_not_on_platform platforms b :
  0 < y (Ball.ballVelocity b) -> Collision.isOnPlatform platforms b = false.
Proof.
  intros Hup. unfold Collision.isOnPlatform.
  induction platforms as [|p ps IH]; simpl; [reflexivity|].
  assert (Hv : (y (Ball.ballVelocity b) <=? 0) = false)
    by (apply Rleb_false; exact Hup).
  unfold Platform.collisionDetected. rewrite Hv.
  destruct (Platform.isRoundPlatform (Platform.userData p));
    rewrite andb_false_r; exact IH.
Qed.

Lemma aboutToBounce_bounces :
  Main.run Main.HandlePlatformCollisions aboutToBounce = bounced.
Proof.
  assert (Hc : Platform.collisionDetected goalPlatformAtOrigin
                 (Ball.position fallingBall) (Ball.ballVelocity fallingBall)
               = true).
  { unfold Platform.collisionDetected, Platform.ballRadius; simpl.
    decide_R; reflexivity. }
  assert (Hv : (y (Ball.ballVelocity fallingBall) <? 0) = true)
    by (apply Rltb_true; simpl; lra).
  assert (Hr : Collision.handlePlatformCollisions Config.GAME_SETTINGS
                 [goalPlatformAtOrigin] 0.15 fallingBall
               = {| Collision.ball := bouncedBall;
                    Collision.onPlatform := true;
                    Collision.speed := 0.15 + 0.025;
                    Collision.redFlagPlatformReachedCalled := false |}).
  { unfold Collision.handlePlatformCollisions,
      Platform.checkPlatformCollision.
    rewrite Hc. unfold Ball.applyPlatformEffects.
    cbn [Platform.Info.onPlatform Platform.Info.bounceEffect andb].
    rewrite Hv. reflexivity. }
  unfold Main.run, Main.stepCollisions.
  change (Platform.platforms (Game.world aboutToBounce))
    with [goalPlatformAtOrigin].
  change (Game.ball aboutToBounce) with fallingBall.
  change (Game.speed aboutToBounce) with 0.15.
  rewrite Hr. reflexivity.
Qed.

Lemma bounced_not_on_platform : Game.isOnPlatform bounced = false.
Proof. apply rising_not_on_platform. simpl. lra. Qed.

Lemma bounced_jumpMade : Main.jumpMade bounced = Some Controls.DoubleJump.
Proof.
  unfold Main.jumpMade, Controls.jumpInput.
  change (Game.isOnPlatform (Game.setGameStarted true bounced))
    with (Game.isOnPlatform bounced).
  rewrite bounced_not_on_platform. reflexivity.
Qed.

Lemma bounced_doubleJumps :
  Main.run Main.KeyDownSpace bounced = doubleJumped.
Proof.
  unfold Main.run, Controls.onKeyDownSpace, Controls.jumpInput.
  change (Game.isOnPlatform (Game.setGameStarted true bounced))
    with (Game.isOnPlatform bounced).
  rewrite bounced_not_on_platform. reflexivity.
Qed.

Lemma doubleJumped_not_on_platform : Game.isOnPlatform doubleJumped = false.
Proof. apply rising_not_on_platform. simpl. lra. Qed.

Lemma doubleJumped_reachable : Main.reachable doubleJumped.
Proof.
  rewrite <- bounced_doubleJumps, <- aboutToBounce_bounces.
  apply Main.reachable_run, Main.reachable_run, Main.reachable_fresh.
  exact aboutToBounce_fresh.
Qed.

Lemma jump_input_credit_witness :
  Main.reachable doubleJumped /\
  Ball.hasDoubleJumped (Game.ball doubleJumped) = true /\
  Ball.extraJumps (Game.ball doubleJumped) = 0%Z /\
  Game.isOnPlatform doubleJumped = false /\
  Game.isGrabbing doubleJumped = false /\
  (0 <= Ball.extraJumps (Game.ball (Controls.onKeyDownSpace doubleJumped)))%Z
  /\
  Main.jumpMade doubleJumped = None /\
  Game.ball (Controls.onKeyDownSpace doubleJumped) = Game.ball doubleJumped.
Proof.
  pose proof doubleJumped_reachable as Hreach.
  pose proof doubleJumped_not_on_platform as Hoff.
  destruct (jump_input_credit doubleJumped Hreach)
    as (_ & _ & _ & Hcredit & Hnoop).
  split; [exact Hreach|].
  split; [reflexivity|]. split; [reflexivity|]. split; [exact Hoff|].
  split; [reflexivity|]. split; [exact Hcredit|].
  exact (Hnoop eq_refl eq_refl Hoff eq_refl).
Defined.

(* ----------------------------------------------------------------- *)
(** ** The jetpack and the double jump *)





(* ----------------------------------------------------------------- *)
(** ** One double jump per flight *)

Lemma doubleJumpUsed_same b b' :
  sameJumpState b b' -> doubleJumpUsed b -> doubleJumpUsed b'.
Proof.
  intros (Hj & Hd & Ha & _) H. unfold doubleJumpUsed.
  rewrite Hj, Hd, Ha. exact H.
Qed.

(** A double jump leaves the double jump used. *)
Lemma double_jump_uses_it g :
  Main.jumpMade g = Some Controls.DoubleJump ->
  doubleJumpUsed (Game.ball (Main.run Main.KeyDownSpace g)).
Proof.
  intros Hk. change (Main.run Main.KeyDownSpace g)
    with (Controls.onKeyDownSpace g).
  rewrite onKeyDownSpace_ball, Hk.
  apply jumpMade_Some in Hk. destruct Hk as (_ & _ & _ & _ & _ & Hk).
  split; [reflexivity|]. simpl. destruct Hk; [now right | now left].
Qed.

(** While the double jump is used, no press is answered with one. *)
Lemma doubleJumpUsed_no_double_jump g :
  doubleJumpUsed (Game.ball g) ->
  Main.jumpMade g <> Some Controls.DoubleJump.
Proof.
  intros (Hd & _) Hk. apply jumpMade_Some in Hk.
  destruct Hk as (_ & _ & _ & _ & Hd' & _). congruence.
Qed.

(** A quiet operation leaves the double jump used. *)
Lemma quiet_keeps_doubleJumpUsed op g :
  Main.quiet op g = true ->
  doubleJumpUsed (Game.ball g) ->
  doubleJumpUsed (Game.ball (Main.run op g)).
Proof.
  intros Hq Hused. pose proof (run_jumpState op g) as H. cbv zeta in H.
  destruct op; simpl in Hq;
    try (apply (doubleJumpUsed_same _ _ H Hused)).
  - (* KeyDownSpace *)
    apply negb_true_iff in Hq.
    change (Main.run Main.KeyDownSpace g) with (Controls.onKeyDownSpace g).
    rewrite onKeyDownSpace_ball.
    destruct (Main.jumpMade g) as [k|] eqn:Hk.
    + pose proof Hk as Hk'. apply jumpMade_Some in Hk'.
      destruct Hk' as (_ & _ & _ & Hk').
      destruct Hused as (Hd & Hhow).
      destruct k.
      * destruct Hk' as (Hj & [Hon|Ha]); [congruence|].
        destruct Hhow as [?|Hleft]; [congruence|].
        rewrite Ha in Hleft. discriminate.
      * destruct Hk' as (_ & Hd' & _). congruence.
      * split; [exact Hd | exact Hhow].
    + destruct (negb (Game.gameOver g) && Game.isGrabbing g);
        [|exact Hused].
      exact (doubleJumpUsed_same _ _ (endGrab_sameJumpState g) Hused).
  - (* UpdateBallPosition *)
    apply negb_true_iff in Hq. rewrite Hq in H.
    exact (doubleJumpUsed_same _ _ H Hused).
  - (* UpdateJetpack *)
    apply negb_true_iff in Hq. rewrite Hq in H.
    exact (doubleJumpUsed_same _ _ H Hused).
  - (* HandlePlatformCollisions *)
    apply negb_true_iff in Hq. rewrite Hq in H.
    exact (doubleJumpUsed_same _ _ H Hused).
  - (* CollectExtraJump *)
    destruct H as (Hj & Hd & Ha & _). unfold doubleJumpUsed.
    rewrite Hj, Hd, Ha. exact Hused.
  - (* Restart *)
    discriminate.
Qed.

(** The two operations that are not quiet without landing the ball do clear
    the flag. *)
Lemma unquiet_clears_flag g :
  (forall deltaTime,
     Main.leavesPlatform g = true ->
     Ball.hasDoubleJumped
       (Game.ball (Main.run (Main.UpdateBallPosition deltaTime) g))
     = false) /\
  (Main.depletesFuel g = true ->
   Ball.hasDoubleJumped (Game.ball (Main.run Main.UpdateJetpack g)) = false).
Proof.
  split.
  - intros deltaTime H.
    pose proof (run_jumpState (Main.UpdateBallPosition deltaTime) g) as Hrun.
    cbv zeta in Hrun. rewrite H in Hrun. apply Hrun.
  - intros H. pose proof (run_jumpState Main.UpdateJetpack g) as Hrun.
    cbv zeta in Hrun. rewrite H in Hrun. apply Hrun.
Qed.

Lemma quietRun_keeps_doubleJumpUsed ops : forall g,
  Main.quietRun ops g ->
  doubleJumpUsed (Game.ball g) ->
  doubleJumpUsed (Game.ball (Main.runs ops g)).
Proof.
  induction ops as [|op ops IH]; intros g Hq Hused; [exact Hused|].
  destruct Hq as (Hq & Hrest). simpl.
  apply IH; [exact Hrest|]. now apply quiet_keeps_doubleJumpUsed.
Qed.

(** C4, as amended: once a jump input in the air is answered with a double
    jump, the double-jumped flag stays set, and no further jump input is
    answered with a double jump, for as long as the ball stays in flight
    (it does not land, the space key is pressed off the platforms only, the
    game is not restarted), [updateJetpack] does not burn the last unit of
    fuel and [updateBallPosition] does not record a roll or a fall off a
    platform. *)
Theorem double_jump_once_per_quiet_flight g ops :
  Main.jumpMade g = Some Controls.DoubleJump ->
  Main.quietRun ops (Main.run Main.KeyDownSpace g) ->
  let g' := Main.runs ops (Main.run Main.KeyDownSpace g) in
  Ball.hasDoubleJumped (Game.ball g') = true /\
  Main.jumpMade g' <> Some Controls.DoubleJump.
Proof.
  intros Hk Hq. cbv zeta.
  pose proof (quietRun_keeps_doubleJumpUsed ops _ Hq
                (double_jump_uses_it g Hk)) as Hused.
  split; [apply Hused | now apply doubleJumpUsed_no_double_jump].
Qed.

Lemma double_jump_once_per_quiet_flight_witness :
  let ops := [Main.KeyUpSpace; Main.UpdateJetpack; Main.KeyDownSpace] in
  let g' := Main.runs ops (Main.run Main.KeyDownSpace bounced) in
  Main.jumpMade bounced = Some Controls.DoubleJump /\
  Main.quietRun ops (Main.run Main.KeyDownSpace bounced) /\
  Ball.hasDoubleJumped (Game.ball g') = true /\
  Main.jumpMade g' <> Some Controls.DoubleJump.
Proof.
  intros ops g'.
  assert (Hq : Main.quietRun ops (Main.run Main.KeyDownSpace bounced)).
  { rewrite bounced_doubleJumps. unfold ops. simpl Main.quietRun.
    split; [reflexivity|]. split; [reflexivity|]. split; [|exact I].
    apply negb_true_iff. apply rising_not_on_platform. simpl. lra. }
  split; [exact bounced_jumpMade|]. split; [exact Hq|].
  exact (double_jump_once_per_quiet_flight bounced ops bounced_jumpMade Hq).
Defined.

(* ----------------------------------------------------------------- *)
(** ** A second double jump in one flight *)

Lemma runs_app ops1 : forall ops2 g,
  Main.runs (ops1 ++ ops2) g = Main.runs ops2 (Main.runs ops1 g).
Proof.
  induction ops1 as [|op ops1 IH]; intros ops2 g; [reflexivity|].
  simpl. apply IH.
Qed.

Lemma flightRun_app ops1 : forall ops2 g,
  Main.flightRun ops1 g -> Main.flightRun ops2 (Main.runs ops1 g) ->
  Main.flightRun (ops1 ++ ops2) g.
Proof.
  induction ops1 as [|op ops1 IH]; intros ops2 g H1 H2; [exact H2|].
  destruct H1 as (Hop & H1). split; [exact Hop|]. now apply IH.
Qed.

Lemma rising_off_platform g : rising g -> Game.isOnPlatform g = false.
Proof.
  intros (_ & Hv & _). now apply rising_not_on_platform.
Qed.

(** The ball step of a frame, for a ball that still rises after gravity. *)
Lemma rising_stepBall deltaTime g :
  rising g -> 0 <= deltaTime -> 0 < afterGravity deltaTime g ->
  let g' := Main.run (Main.UpdateBallPosition deltaTime) g in
  rising g' /\ sameControls g g' /\
  Game.jetpackFuel g' = Game.jetpackFuel g /\
  sameJumpState (Game.ball g) (Game.ball g') /\
  y (Ball.ballVelocity (Game.ball g')) = afterGravity deltaTime g.
Proof.
  intros Hr Hdt Hup. pose proof (rising_off_platform g Hr) as Hoff.
  destruct Hr as (Hw & Hv & Hy & Hwas & Ha & Hover & Hgrab & Hrel & Hjet).
  unfold Game.isOnPlatform in Hoff.
  unfold afterGravity, burns in Hup |- *.
  cbv zeta. unfold Main.run, Main.stepBall, Ball.updateBallPosition.
  rewrite Hoff, Hwas. cbn [andb negb].
  assert (Hvy :
    (if (if negb (Game.isJetpackActive g) || (Game.jetpackFuel g <=? 0)%Z
         then y (Ball.ballVelocity (Game.ball g))
              - Config.gravity Config.GAME_SETTINGS * deltaTime * 60
         else y (Ball.ballVelocity (Game.ball g))) <? -0.5
     then -0.5
     else if negb (Game.isJetpackActive g) || (Game.jetpackFuel g <=? 0)%Z
          then y (Ball.ballVelocity (Game.ball g))
               - Config.gravity Config.GAME_SETTINGS * deltaTime * 60
          else y (Ball.ballVelocity (Game.ball g)))
    = if Game.isJetpackActive g && (0 <? Game.jetpackFuel g)%Z
      then y (Ball.ballVelocity (Game.ball g))
      else y (Ball.ballVelocity (Game.ball g))
           - Config.gravity Config.GAME_SETTINGS * deltaTime * 60).
  { destruct (Game.isJetpackActive g); cbn [negb orb andb] in *.
    - rewrite Z.leb_antisym.
      destruct (0 <? Game.jetpackFuel g)%Z; cbn [negb] in *;
        rewrite (proj2 (Rltb_false _ _)); try reflexivity; lra.
    - rewrite (proj2 (Rltb_false _ _)); try reflexivity; lra. }
  unfold rising, sameControls, sameJumpState.
  cbn [Game.ball Game.world Game.keys Game.isJetpackActive Game.jetpackFuel
       Game.gameOver Game.isGrabbing Game.ballReleased Game.jetpack
       Game.setBall Ball.position Ball.ballVelocity Ball.wasOnPlatform
       Ball.airEntryMethod Ball.isJumping Ball.hasDoubleJumped
       Ball.extraJumps x y z].
  rewrite Hvy.
  repeat match goal with |- _ /\ _ => split end;
    try reflexivity; try assumption.
  assert (0 <= (if Game.isJetpackActive g && (0 <? Game.jetpackFuel g)%Z
                then y (Ball.ballVelocity (Game.ball g))
                else y (Ball.ballVelocity (Game.ball g))
                     - Config.gravity Config.GAME_SETTINGS * deltaTime * 60)
               * deltaTime * 60) by nra.
  lra.
Qed.

(** The jetpack step of a frame. *)
Lemma rising_stepJetpack g :
  rising g ->
  let g' := Main.run Main.UpdateJetpack g in
  rising g' /\ sameControls g g' /\
  Game.jetpackFuel g'
  = (if burns g then Game.jetpackFuel g - 1 else Game.jetpackFuel g)%Z /\
  y (Ball.ballVelocity (Game.ball g))
  <= y (Ball.ballVelocity (Game.ball g')) /\
  Ball.isJumping (Game.ball g')
  = (if burns g && (Game.jetpackFuel g =? 1)%Z then true
     else Ball.isJumping (Game.ball g)) /\
  Ball.hasDoubleJumped (Game.ball g')
  = (if burns g && (Game.jetpackFuel g =? 1)%Z then false
     else Ball.hasDoubleJumped (Game.ball g)).
Proof.
  intros (Hw & Hv & Hy & Hwas & Ha & Hover & Hgrab & Hrel & Hjet).
  cbv zeta. unfold Main.run, Main.stepJetpack, Jetpack.updateJetpack, burns.
  rewrite Hjet. cbn [negb].
  destruct (Game.isJetpackActive g && (0 <? Game.jetpackFuel g)%Z) eqn:Hb.
  - unfold rising, sameControls.
    destruct (Game.jetpackFuel g =? 1)%Z;
      cbn [andb Game.ball Game.world Game.keys Game.isJetpackActive
           Game.jetpackFuel Game.gameOver Game.isGrabbing Game.ballReleased
           Game.jetpack Game.setBall Game.setJetpackFuel Ball.position
           Ball.ballVelocity Ball.wasOnPlatform Ball.airEntryMethod
           Ball.isJumping Ball.hasDoubleJumped Ball.setBallVelocity
           Ball.setJumpingState Ball.setDoubleJumpedState x y z];
      repeat match goal with |- _ /\ _ => split end;
      try reflexivity; try assumption;
      unfold Config.jetpackBoostForce, Config.GAME_SETTINGS; lra.
  - unfold rising, sameControls.
    cbn [andb Game.ball Game.world Game.keys Game.isJetpackActive
         Game.jetpackFuel Game.gameOver Game.isGrabbing Game.ballReleased
         Game.jetpack Game.setBall Game.setJetpackFuel].
    repeat match goal with |- _ /\ _ => split end;
      try reflexivity; try assumption; lra.
Qed.

Lemma checkPlatformCollision_off platforms ballPosition ballVelocity :
  Platform.Info.onPlatform
    (Platform.checkPlatformCollision platforms ballPosition ballVelocity)
  = false ->
  Platform.checkPlatformCollision platforms ballPosition ballVelocity
  = Platform.checkPlatformCollision [] ballPosition ballVelocity.
Proof.
  induction platforms as [|p ps IH]; [reflexivity|]. simpl.
  destruct (Platform.collisionDetected p ballPosition ballVelocity);
    [discriminate | exact IH].
Qed.

(** The collision step changes nothing of a game whose ball touches no
    platform. *)
Lemma stepCollisions_off_platform g :
  Game.isOnPlatform g = false ->
  Main.run Main.HandlePlatformCollisions g = g.
Proof.
  intros Hoff. unfold Game.isOnPlatform, Collision.isOnPlatform in Hoff.
  unfold Main.run, Main.stepCollisions, Collision.handlePlatformCollisions.
  rewrite (checkPlatformCollision_off _ _ _ Hoff). simpl.
  destruct g. reflexivity.
Qed.

Lemma rising_stepPlatforms deltaTime g :
  rising g ->
  let g' := Main.run (Main.UpdateMovingPlatforms deltaTime) g in
  rising g' /\ sameControls g g' /\
  Game.jetpackFuel g' = Game.jetpackFuel g /\ Game.ball g' = Game.ball g.
Proof.
  intros (Hw & Hrest). cbv zeta.
  unfold Main.run, Main.stepPlatforms, rising, sameControls.
  cbn [Game.ball Game.world Game.keys Game.isJetpackActive
       Game.jetpackFuel Game.gameOver Game.isGrabbing Game.ballReleased
       Game.jetpack Game.setWorld Platform.updateMovingPlatforms
       Platform.platforms].
  rewrite Hw. repeat split; apply Hrest.
Qed.

Lemma rising_stepFallCheck g :
  rising g -> Main.run Main.FallCheck g = g.
Proof.
  intros (Hw & Hv & Hy & _).
  unfold Main.run, Main.stepFallCheck, Collision.checkFallOutOfBounds.
  rewrite Hw.
  assert (Hh : forall ps,
             ps = [goalPlatformAtOrigin] ->
             match Collision.highestPlatformY ps with
             | Some highest =>
                 y (Ball.position (Game.ball g)) <? highest - 30
             | None => false
             end = false).
  { intros ps ->. unfold Collision.highestPlatformY. simpl.
    apply Rltb_false. lra. }
  simpl filter.
  destruct (Collision.aheadOrBelow (Game.ball g) goalPlatformAtOrigin);
    rewrite (Hh _ eq_refl); reflexivity.
Qed.

(** One frame of the flight: the ball does not land and keeps rising, the
    keys and the jetpack switch stay as they are, and the jetpack, when it
    burns, takes one unit of fuel and, with the last unit, marks the ball
    as jumping with its double jump unused. *)
Lemma rising_frame deltaTime g :
  rising g -> 0 <= deltaTime -> 0 < afterGravity deltaTime g ->
  let g' := Main.runs (Main.frame deltaTime) g in
  Main.flightRun (Main.frame deltaTime) g /\
  rising g' /\ sameControls g g' /\
  Game.jetpackFuel g'
  = (if burns g then Game.jetpackFuel g - 1 else Game.jetpackFuel g)%Z /\
  Ball.isJumping (Game.ball g')
  = (if burns g && (Game.jetpackFuel g =? 1)%Z then true
     else Ball.isJumping (Game.ball g)) /\
  Ball.hasDoubleJumped (Game.ball g')
  = (if burns g && (Game.jetpackFuel g =? 1)%Z then false
     else Ball.hasDoubleJumped (Game.ball g)).
Proof.
  intros Hr Hdt Hup. cbv zeta. unfold Main.frame.
  cbn [Main.runs Main.flightRun].
  destruct (rising_stepBall deltaTime g Hr Hdt Hup)
    as (Hr1 & (Hk1 & Ha1) & Hf1 & (Hj1 & Hd1 & _) & _).
  set (g1 := Main.run (Main.UpdateBallPosition deltaTime) g) in *.
  assert (Hb1 : burns g1 = burns g) by (unfold burns; now rewrite Ha1, Hf1).
  destruct (rising_stepJetpack g1 Hr1)
    as (Hr2 & (Hk2 & Ha2) & Hf2 & _ & Hj2 & Hd2).
  set (g2 := Main.run Main.UpdateJetpack g1) in *.
  pose proof (rising_off_platform g2 Hr2) as Hoff2.
  rewrite (stepCollisions_off_platform g2 Hoff2).
  destruct (rising_stepPlatforms deltaTime g2 Hr2)
    as (Hr3 & (Hk3 & Ha3) & Hf3 & Hball3).
  set (g3 := Main.run (Main.UpdateMovingPlatforms deltaTime) g2) in *.
  rewrite (rising_stepFallCheck g3 Hr3).
  split.
  { repeat split. unfold Main.lands. now rewrite Hoff2. }
  split; [exact Hr3|]. split.
  { split; congruence. }
  rewrite Hball3, Hf3, Hf2, Hj2, Hd2, Hb1, Hf1, Hj1, Hd1.
  repeat split.
Qed.

Lemma frames_S n deltaTime :
  Main.frames (S n) deltaTime
  = Main.frame deltaTime ++ Main.frames n deltaTime.
Proof. reflexivity. Qed.

(** A jetpack that is switched on burns its fuel to the last unit in as many
    frames as it has units, in a flight in which the ball never lands; the
    last frame leaves the ball jumping with its double jump unused. *)
Lemma rising_burn deltaTime n : forall g,
  0 <= deltaTime ->
  rising g -> Game.isJetpackActive g = true ->
  Game.jetpackFuel g = Z.of_nat (S n) ->
  let g' := Main.runs (Main.frames (S n) deltaTime) g in
  Main.flightRun (Main.frames (S n) deltaTime) g /\
  rising g' /\ Game.keys g' = Game.keys g /\
  Game.jetpackFuel g' = 0%Z /\
  Ball.isJumping (Game.ball g') = true /\
  Ball.hasDoubleJumped (Game.ball g') = false.
Proof.
  induction n as [|n IH]; intros g Hdt Hr Hact Hfuel; cbv zeta.
  - assert (Hb : burns g = true) by (unfold burns; now rewrite Hact, Hfuel).
    assert (Hup : 0 < afterGravity deltaTime g).
    { unfold afterGravity. rewrite Hb. apply Hr. }
    destruct (rising_frame deltaTime g Hr Hdt Hup)
      as (Hflight & Hr' & (Hk & _) & Hf & Hj & Hd).
    rewrite Hb, Hfuel in Hf, Hj, Hd.
    change (Main.frames 1 deltaTime) with (Main.frame deltaTime ++ []).
    rewrite app_nil_r.
    split; [exact Hflight|]. split; [exact Hr'|]. split; [exact Hk|].
    split; [exact Hf|]. split; [exact Hj | exact Hd].
  - assert (Hb : burns g = true).
    { unfold burns. rewrite Hact, Hfuel. reflexivity. }
    assert (Hup : 0 < afterGravity deltaTime g).
    { unfold afterGravity. rewrite Hb. apply Hr. }
    destruct (rising_frame deltaTime g Hr Hdt Hup)
      as (Hflight & Hr' & (Hk & Ha) & Hf & Hj & Hd).
    rewrite Hb, Hfuel in Hf.
    assert (Hf' : Game.jetpackFuel (Main.runs (Main.frame deltaTime) g)
                  = Z.of_nat (S n)) by (rewrite Hf; lia).
    rewrite Hact in Ha.
    destruct (IH _ Hdt Hr' Ha Hf') as (Hflight' & Hr'' & Hk' & Hrest).
    rewrite (frames_S (S n)), runs_app.
    split; [now apply flightRun_app|].
    split; [exact Hr''|]. split; [congruence | exact Hrest].
Qed.

(** The release of a key that is not held down, in the flight. *)
Lemma rising_keyUp g :
  rising g -> Keys.space (Game.keys g) && Ball.isJumping (Game.ball g) = false ->
  let g' := Main.run Main.KeyUpSpace g in
  rising g' /\ Keys.space (Game.keys g') = false /\
  Game.jetpackFuel g' = Game.jetpackFuel g /\
  Game.ball g' = Game.ball g.
Proof.
  intros Hr Hnot. cbv zeta. unfold Main.run, Controls.onKeyUpSpace.
  cbn [Game.keys Game.ball Game.setJetpackActive]. rewrite Hnot.
  repeat split; apply Hr.
Qed.

(** A press of the key with fuel in the tank switches the jetpack on. *)
Lemma rising_keyDown_with_fuel g :
  rising g -> (0 < Game.jetpackFuel g)%Z ->
  let g' := Main.run Main.KeyDownSpace g in
  rising g' /\ Game.isJetpackActive g' = true /\
  Game.keys g' = Game.keys g /\
  Game.jetpackFuel g' = Game.jetpackFuel g /\
  Game.ball g' = Game.ball g.
Proof.
  intros Hr Hfuel. cbv zeta.
  destruct Hr as (Hw & Hv & Hy & Hwas & Ha & Hover & Hgrab & Hrel & Hjet).
  unfold Main.run, Controls.onKeyDownSpace. rewrite Hover.
  cbn [Game.isGrabbing Game.ballReleased Game.jetpackFuel
       Game.setGameStarted].
  rewrite Hgrab, Hrel. cbn [negb].
  rewrite (proj2 (Z.ltb_lt _ _) Hfuel).
  unfold rising, Game.setJetpackActive.
  cbn [Game.ball Game.world Game.keys Game.isJetpackActive
       Game.jetpackFuel Game.gameOver Game.isGrabbing Game.ballReleased
       Game.jetpack Game.setGameStarted].
  rewrite (proj2 (Z.leb_gt _ _) Hfuel).
  repeat match goal with |- _ /\ _ => split end;
    try reflexivity; assumption.
Qed.

(** In the flight, with an empty tank, a press of the key is answered with
    a double jump as soon as the double-jumped flag is down. *)
Lemma rising_jumpMade g :
  rising g -> Game.jetpackFuel g = 0%Z ->
  Keys.space (Game.keys g) = false ->
  Ball.hasDoubleJumped (Game.ball g) = false ->
  Main.jumpMade g = Some Controls.DoubleJump.
Proof.
  intros Hr Hfuel Hspace Hd. pose proof (rising_off_platform g Hr) as Hoff.
  destruct Hr as (Hw & Hv & Hy & Hwas & Ha & Hover & Hgrab & Hrel & Hjet).
  unfold Main.jumpMade, Controls.jumpInput.
  change (Game.isOnPlatform (Game.setGameStarted true g))
    with (Game.isOnPlatform g).
  cbn [Game.ball Game.keys Game.setGameStarted].
  rewrite Hover, Hgrab, Hrel, Hfuel, Hoff, Hspace, Hd, Ha.
  destruct (Ball.isJumping (Game.ball g)); reflexivity.
Qed.

Lemma doubleJumped_rising : rising doubleJumped.
Proof.
  unfold rising. simpl.
  repeat match goal with |- _ /\ _ => split end;
    try reflexivity; unfold Platform.ballRadius; lra.
Qed.

(** The collection of a fuel power-up, in the flight. *)
Lemma rising_collectFuel g :
  rising g ->
  let g' := Main.run Main.CollectFuel g in
  rising g' /\ Game.jetpackFuel g' = 100%Z /\
  Game.ball g' = Game.ball g /\ Game.keys g' = Game.keys g.
Proof.
  intros Hr. cbv zeta. unfold Main.run.
  split; [exact Hr|]. repeat split.
Qed.

(** The flight with the jetpack is made of these runs. *)
Lemma flightWithJetpack_runs g :
  Main.runs flightWithJetpack g
  = Main.run Main.KeyUpSpace
      (Main.runs (Main.frames 100 (1 / 60))
         (Main.run Main.KeyDownSpace
            (Main.run Main.KeyUpSpace
               (Main.run Main.CollectFuel
                  (Main.runs (Main.frame (1 / 60)) g))))).
Proof.
  unfold flightWithJetpack. rewrite !runs_app. reflexivity.
Qed.

Lemma flightWithJetpack_flightRun g :
  Main.flightRun (Main.frame (1 / 60)) g ->
  Game.isOnPlatform
    (Main.run Main.KeyUpSpace
       (Main.run Main.CollectFuel (Main.runs (Main.frame (1 / 60)) g)))
  = false ->
  Main.flightRun (Main.frames 100 (1 / 60))
    (Main.run Main.KeyDownSpace
       (Main.run Main.KeyUpSpace
          (Main.run Main.CollectFuel (Main.runs (Main.frame (1 / 60)) g)))) ->
  Main.flightRun flightWithJetpack g.
Proof.
  intros H1 H2 H3. unfold flightWithJetpack.
  apply flightRun_app; [exact H1|].
  apply (flightRun_app [Main.CollectFuel; Main.KeyUpSpace;
                        Main.KeyDownSpace]).
  - split; [exact I|]. split; [exact I|]. split; [exact H2 | exact I].
  - apply flightRun_app; [exact H3|]. split; exact I.
Qed.

(** The start of the flight with the jetpack: one frame, the power-up, the
    release of the key and the press that switches the jetpack on. *)
Lemma flightWithJetpack_start g :
  rising g -> Game.jetpackFuel g = 0%Z ->
  Ball.isJumping (Game.ball g) = false ->
  0 < afterGravity (1 / 60) g ->
  Main.flightRun (Main.frame (1 / 60)) g /\
  Game.isOnPlatform
    (Main.run Main.KeyUpSpace
       (Main.run Main.CollectFuel (Main.runs (Main.frame (1 / 60)) g)))
  = false /\
  let g' :=
    Main.run Main.KeyDownSpace
      (Main.run Main.KeyUpSpace
         (Main.run Main.CollectFuel (Main.runs (Main.frame (1 / 60)) g))) in
  rising g' /\ Game.isJetpackActive g' = true /\
  Game.jetpackFuel g' = 100%Z /\ Keys.space (Game.keys g') = false.
Proof.
  intros Hr Hfuel Hjump Hup.
  assert (Hdt : 0 <= 1 / 60) by lra.
  assert (Hb : burns g = false).
  { unfold burns. rewrite Hfuel. apply andb_false_r. }
  destruct (rising_frame (1 / 60) g Hr Hdt Hup)
    as (Hfl1 & Hr1 & _ & _ & Hj1 & _).
  rewrite Hb in Hj1. cbn [andb] in Hj1.
  destruct (rising_collectFuel _ Hr1) as (Hr2 & Hf2 & Hb2 & _).
  assert (Hnot2 :
    Keys.space (Game.keys (Main.run Main.CollectFuel
                             (Main.runs (Main.frame (1 / 60)) g)))
    && Ball.isJumping (Game.ball (Main.run Main.CollectFuel
                                    (Main.runs (Main.frame (1 / 60)) g)))
    = false).
  { rewrite Hb2, Hj1, Hjump. apply andb_false_r. }
  destruct (rising_keyUp _ Hr2 Hnot2) as (Hr3 & Hs3 & Hf3 & _).
  rewrite Hf2 in Hf3.
  assert (Hpos3 :
    (0 < Game.jetpackFuel
           (Main.run Main.KeyUpSpace
              (Main.run Main.CollectFuel
                 (Main.runs (Main.frame (1 / 60)) g))))%Z)
    by (rewrite Hf3; lia).
  destruct (rising_keyDown_with_fuel _ Hr3 Hpos3)
    as (Hr4 & Ha4 & Hk4 & Hf4 & _).
  split; [exact Hfl1|]. split; [exact (rising_off_platform _ Hr3)|].
  cbv zeta. split; [exact Hr4|]. split; [exact Ha4|].
  split; [rewrite Hf4; exact Hf3 | rewrite Hk4; exact Hs3].
Qed.

(** The flight with the jetpack, from any state in which the ball rises
    with an empty tank and is not marked as jumping: the ball never lands,
    the frame that burns the last unit of fuel leaves the double-jumped flag
    down, and the next jump input is answered with a double jump. *)
Lemma flightWithJetpack_rearms g :
  rising g -> Game.jetpackFuel g = 0%Z ->
  Ball.isJumping (Game.ball g) = false ->
  0 < afterGravity (1 / 60) g ->
  Main.flightRun flightWithJetpack g /\
  Ball.hasDoubleJumped (Game.ball (Main.runs flightWithJetpack g)) = false /\
  Main.jumpMade (Main.runs flightWithJetpack g) = Some Controls.DoubleJump.
Proof.
  intros Hr Hfuel Hjump Hup.
  assert (Hdt : 0 <= 1 / 60) by lra.
  destruct (flightWithJetpack_start g Hr Hfuel Hjump Hup)
    as (Hfl1 & Hoff3 & Hr4 & Ha4 & Hf4 & Hs4).
  destruct (rising_burn (1 / 60) 99 _ Hdt Hr4 Ha4 Hf4)
    as (Hfl5 & Hr5 & Hk5 & Hf5 & _ & Hd5).
  assert (Hnot5 :
    Keys.space
      (Game.keys
         (Main.runs (Main.frames 100 (1 / 60))
            (Main.run Main.KeyDownSpace
               (Main.run Main.KeyUpSpace
                  (Main.run Main.CollectFuel
                     (Main.runs (Main.frame (1 / 60)) g))))))
    && Ball.isJumping
         (Game.ball
            (Main.runs (Main.frames 100 (1 / 60))
               (Main.run Main.KeyDownSpace
                  (Main.run Main.KeyUpSpace
                     (Main.run Main.CollectFuel
                        (Main.runs (Main.frame (1 / 60)) g))))))
    = false).
  { rewrite Hk5, Hs4. reflexivity. }
  destruct (rising_keyUp _ Hr5 Hnot5) as (Hr6 & Hs6 & Hf6 & Hb6).
  rewrite flightWithJetpack_runs. split; [|split].
  - exact (flightWithJetpack_flightRun g Hfl1 Hoff3 Hfl5).
  - rewrite Hb6. exact Hd5.
  - apply rising_jumpMade; [exact Hr6 | rewrite Hf6; exact Hf5 | exact Hs6 |].
    rewrite Hb6. exact Hd5.
Qed.

(** C4, as stated, fails.  The ball bounces off a trampoline and the jump
    input in the air is answered with a double jump, which sets the
    double-jumped flag.  In the flight that follows the ball never lands: a
    fuel power-up is collected, the key is pressed again and the jetpack
    burns its hundred units of fuel, one per frame.  The frame that burns
    the last unit clears the flag, and the next jump input is answered with
    a second double jump. *)
Lemma second_double_jump_in_one_flight :
  Main.reachable bounced /\
  Main.jumpMade bounced = Some Controls.DoubleJump /\
  Ball.hasDoubleJumped (Game.ball (Main.run Main.KeyDownSpace bounced))
  = true /\
  Main.flightRun flightWithJetpack (Main.run Main.KeyDownSpace bounced) /\
  Ball.hasDoubleJumped
    (Game.ball
       (Main.runs flightWithJetpack (Main.run Main.KeyDownSpace bounced)))
  = false /\
  Main.jumpMade
    (Main.runs flightWithJetpack (Main.run Main.KeyDownSpace bounced))
  = Some Controls.DoubleJump.
Proof.
  split.
  { rewrite <- aboutToBounce_bounces.
    apply Main.reachable_run, Main.reachable_fresh, aboutToBounce_fresh. }
  split; [exact bounced_jumpMade|].
  rewrite bounced_doubleJumps.
  split; [reflexivity|].
  apply flightWithJetpack_rearms.
  - exact doubleJumped_rising.
  - reflexivity.
  - reflexivity.
  - unfold afterGravity, burns. simpl. lra.
Qed.

(* ----------------------------------------------------------------- *)
(** ** The utilities of helpers.js *)

(** Splits the goal on every comparison of real numbers that occurs in
    it, the innermost ones first, and on the absolute values that occur in
    the hypotheses. *)
Ltac no_comparison t :=
  lazymatch t with
  | context [Rleb _ _] => fail
  | context [Rltb _ _] => fail
  | _ => idtac
  end.

Ltac cases_R :=
  repeat (match goal with
          | |- context [Rleb ?a ?b] =>
              no_comparison a; no_comparison b;
              let E := fresh "E" in
              destruct (Rleb a b) eqn:E;
              [apply Rleb_true in E | apply Rleb_false in E]
          | |- context [Rltb ?a ?b] =>
              no_comparison a; no_comparison b;
              let E := fresh "E" in
              destruct (Rltb a b) eqn:E;
              [apply Rltb_true in E | apply Rltb_false in E]
          end; cbv iota).

Ltac split_Rabs_hyps :=
  repeat match goal with
         | H : context [Rabs ?a] |- _ =>
             unfold Rabs in H; destruct (Rcase_abs a)
         end.

(** The same for [Rmin], [Rmax] and [Rabs]. *)
Ltac no_decision t :=
  lazymatch t with
  | context [Rle_dec _ _] => fail
  | context [Rcase_abs _] => fail
  | _ => idtac
  end.

Ltac cases_minmax :=
  unfold Rmax, Rmin, Rabs;
  repeat match goal with
         | |- context [Rle_dec ?a ?b] =>
             no_decision a; no_decision b; destruct (Rle_dec a b)
         | |- context [Rcase_abs ?a] =>
             no_decision a; destruct (Rcase_abs a)
         end.

Ltac intros_split :=
  repeat match goal with
         | |- _ /\ _ => split
         | |- _ -> _ => intro
         | |- forall _, _ => intro
         end.

Lemma isBetween_iff_clamp_fixes (value lo hi : R) :
  lo <= hi ->
  (isBetween value lo hi = true <-> clamp value lo hi = value).
Proof.
  intros Hle. unfold isBetween, clamp.
  rewrite andb_true_iff, !Rleb_true.
  split.
  - intros [H1 H2]. solve_R.
  - revert Hle. unfold Rmax, Rmin.
    destruct (Rle_dec hi value); destruct (Rle_dec lo hi);
      try destruct (Rle_dec lo value); intros; lra.
Qed.

(** X1.  [clamp] returns a value between the bounds when they are in order:
    the value itself when it lies between them, and the nearer bound
    otherwise.  When the bounds are out of order ([max < min]) it returns
    the lower bound [min], whatever the value.  With the bounds in order,
    [isBetween] holds exactly for the values that [clamp] leaves
    unchanged. *)
Theorem clamp_spec (value lo hi : R) :
  (lo <= hi -> lo <= clamp value lo hi <= hi) /\
  (lo <= value <= hi -> clamp value lo hi = value) /\
  (value <= lo -> clamp value lo hi = lo) /\
  (lo <= hi -> hi <= value -> clamp value lo hi = hi) /\
  (hi < lo -> clamp value lo hi = lo) /\
  (lo <= hi ->
   (isBetween value lo hi = true <-> clamp value lo hi = value)).
Proof.
  split; [|split; [|split; [|split; [|split]]]];
    try apply isBetween_iff_clamp_fixes;
    unfold clamp; intros; solve_R.
Qed.

Lemma clamp_spec_witness :
  0 <= clamp 5 0 1 <= 1 /\ clamp (1 / 2) 0 1 = 1 / 2 /\ clamp 7 3 2 = 3 /\
  (isBetween (1 / 2) 0 1 = true <-> clamp (1 / 2) 0 1 = 1 / 2).
Proof.
  destruct (clamp_spec 5 0 1) as [Hrange _].
  destruct (clamp_spec (1 / 2) 0 1) as (_ & Hid & _ & _ & _ & Hbetween).
  destruct (clamp_spec 7 3 2) as (_ & _ & _ & _ & Hswapped & _).
  split; [apply Hrange; lra|].
  split; [apply Hid; lra|].
  split; [apply Hswapped; lra|].
  apply Hbetween; lra.
Defined.

Lemma Int_part_bounds (r : R) (lo hi : Z) :
  IZR lo <= r -> r < IZR hi + 1 -> (lo <= Int_part r <= hi)%Z.
Proof.
  intros Hlo Hhi.
  destruct (base_Int_part r) as [Hle Hgt].
  split.
  - assert (H : (lo - 1 < Int_part r)%Z).
    { apply lt_IZR. rewrite minus_IZR. lra. }
    lia.
  - assert (H : (Int_part r < hi + 1)%Z).
    { apply lt_IZR. rewrite plus_IZR. lra. }
    lia.
Qed.

(* ----------------------------------------------------------------- *)
(** ** The spaceship *)

Lemma updateClaw_ship keys ballReleased isGrabbing st ship :
  Claw.spaceship st = Some ship ->
  exists h,
    Claw.updateClaw keys ballReleased isGrabbing st
    = {| Claw.spaceship := Some (mkVec3 (x ship) h (z ship));
         Claw.ballHeld := Claw.ballHeld st;
         Claw.originalGrabHeight := Claw.originalGrabHeight st |} /\
    Rabs (h - y ship) <= 1 /\
    (ballReleased = true -> isGrabbing = false -> h = y ship) /\
    (isGrabbing = false -> 6 <= y ship <= 20 ->
     6 <= h <= 20 /\ Rabs (h - y ship) <= 0.15) /\
    (isGrabbing = true ->
     Claw.originalGrabHeight st <= y ship
     <= Claw.originalGrabHeight st + 20 ->
     Claw.originalGrabHeight st <= h
     <= Claw.originalGrabHeight st + 20).
Proof.
  intros Hship. unfold Claw.updateClaw. rewrite Hship.
  destruct st as [s held o]; simpl in *; subst s.
  destruct ship as [sx sy sz]; simpl.
  destruct ballReleased, isGrabbing; simpl;
    destruct (Keys.up keys), (Keys.down keys);
    cases_R;
    (eexists; split; [reflexivity|]);
    intros_split; try discriminate; split_Rabs_hyps; solve_R.
Qed.

(** X4.  Before the ball is released (no grab), [updateClaw] keeps a ship
    whose height is between 6 and 20 between 6 and 20, whatever keys are
    held; it moves the ship by at most 0.15 and only vertically. *)
Theorem updateClaw_keeps_start_height keys st ship :
  Claw.spaceship st = Some ship ->
  6 <= y ship <= 20 ->
  exists ship',
    Claw.spaceship (Claw.updateClaw keys false false st) = Some ship' /\
    6 <= y ship' <= 20 /\
    Rabs (y ship' - y ship) <= 0.15 /\
    x ship' = x ship /\ z ship' = z ship.
Proof.
  intros Hship Hrange.
  destruct (updateClaw_ship keys false false st ship Hship)
    as (h & -> & _ & _ & Hnormal & _).
  destruct (Hnormal eq_refl Hrange) as [Hh Hstep].
  eexists; split; [reflexivity|]. simpl. repeat split; lra.
Qed.

Lemma updateClaw_keeps_start_height_witness :
  exists ship',
    Claw.spaceship
      (Claw.updateClaw
         {| Keys.left := false; Keys.right := false; Keys.up := true;
            Keys.down := false; Keys.space := false |}
         false false (Claw.createClaw Claw.initialState))
    = Some ship' /\
    6 <= y ship' <= 20 /\
    Rabs (y ship' - y (mkVec3 0 15 0)) <= 0.15 /\
    x ship' = x (mkVec3 0 15 0) /\ z ship' = z (mkVec3 0 15 0).
Proof.
  apply (updateClaw_keeps_start_height _
           (Claw.createClaw Claw.initialState) (mkVec3 0 15 0)).
  - reflexivity.
  - simpl; lra.
Defined.

Lemma updates_grab inputs ballReleased : forall st ship,
  Claw.spaceship st = Some ship ->
  Claw.originalGrabHeight st <= y ship <= Claw.originalGrabHeight st + 20 ->
  exists h,
    Claw.updates inputs ballReleased true st
    = {| Claw.spaceship := Some (mkVec3 (x ship) h (z ship));
         Claw.ballHeld := Claw.ballHeld st;
         Claw.originalGrabHeight := Claw.originalGrabHeight st |} /\
    Claw.originalGrabHeight st <= h <= Claw.originalGrabHeight st + 20.
Proof.
  induction inputs as [|keys inputs IH]; intros st ship Hship Hrange.
  - exists (y ship). split; [|exact Hrange].
    destruct st as [s held o]; simpl in *; subst s.
    destruct ship; reflexivity.
  - unfold Claw.updates in *. simpl.
    destruct (updateClaw_ship keys ballReleased true st ship Hship)
      as (h & Heq & _ & _ & _ & Hgrab).
    specialize (Hgrab eq_refl Hrange).
    rewrite Heq.
    destruct (IH {| Claw.spaceship := Some (mkVec3 (x ship) h (z ship));
                    Claw.ballHeld := Claw.ballHeld st;
                    Claw.originalGrabHeight := Claw.originalGrabHeight st |}
                 (mkVec3 (x ship) h (z ship)) eq_refl Hgrab)
      as (h' & Heq' & Hrange').
    exists h'. split; [exact Heq' | exact Hrange'].
Qed.

(** X5.  After [setClawPosition(x, y, z)] has put the ship over the ball,
    any number of [updateClaw] calls in grab mode, with any keys, leave the
    ship above the point [(x, z)] at a height between [y + 1] and
    [y + 21]: the grab can only lift the ball, by at most 20. *)
Theorem grab_height_limits inputs ballReleased px py pz st :
  Claw.spaceship st <> None ->
  exists h,
    Claw.spaceship
      (Claw.updates inputs ballReleased true
         (Claw.setClawPosition px py pz st))
    = Some (mkVec3 px h pz) /\
    py + 1 <= h <= py + 21.
Proof.
  intros Hship.
  destruct (Claw.spaceship st) as [ship|] eqn:E; [|congruence].
  destruct (updates_grab inputs ballReleased
              (Claw.setClawPosition px py pz st)
              (mkVec3 px (py + 1.0) pz)) as (h & Heq & Hrange).
  - unfold Claw.setClawPosition. rewrite E. reflexivity.
  - unfold Claw.setClawPosition. rewrite E. simpl. lra.
  - exists h. rewrite Heq. split; [reflexivity|].
    revert Hrange. unfold Claw.setClawPosition. rewrite E. simpl. lra.
Qed.

Lemma grab_height_limits_witness :
  exists h,
    Claw.spaceship
      (Claw.updates
         [{| Keys.left := false; Keys.right := false; Keys.up := true;
             Keys.down := true; Keys.space := false |}]
         true true
         (Claw.setClawPosition 3 2 (-40)
            (Claw.createClaw Claw.initialState)))
    = Some (mkVec3 3 h (-40)) /\
    2 + 1 <= h <= 2 + 21.
Proof.
  apply (grab_height_limits _ true 3 2 (-40)
           (Claw.createClaw Claw.initialState)).
  discriminate.
Defined.

(** X6.  [updateClaw] never moves the ship sideways and never by more than
    1 vertically in one call, whatever its height and limits were; it
    leaves [ballHeld] and the grab height alone; and it does nothing at all
    once the ball is released, unless a grab is under way, or while there
    is no ship. *)
Theorem updateClaw_step keys ballReleased isGrabbing st :
  Claw.ballHeld (Claw.updateClaw keys ballReleased isGrabbing st)
  = Claw.ballHeld st /\
  Claw.originalGrabHeight (Claw.updateClaw keys ballReleased isGrabbing st)
  = Claw.originalGrabHeight st /\
  (Claw.spaceship st = None ->
   Claw.updateClaw keys ballReleased isGrabbing st = st) /\
  (ballReleased = true -> isGrabbing = false ->
   Claw.updateClaw keys ballReleased isGrabbing st = st) /\
  (forall ship,
     Claw.spaceship st = Some ship ->
     exists ship',
       Claw.spaceship (Claw.updateClaw keys ballReleased isGrabbing st)
       = Some ship' /\
       x ship' = x ship /\ z ship' = z ship /\
       Rabs (y ship' - y ship) <= 1).
Proof.
  destruct (Claw.spaceship st) as [ship|] eqn:E.
  - destruct (updateClaw_ship keys ballReleased isGrabbing st ship E)
      as (h & Heq & Hstep & Hidle & _).
    rewrite Heq. simpl.
    split; [reflexivity|]. split; [reflexivity|].
    split; [discriminate|].
    split.
    + intros Hr Hg. rewrite (Hidle Hr Hg).
      destruct st as [s held o]; simpl in *; subst s.
      destruct ship; reflexivity.
    + intros ship0 Hs. injection Hs as <-.
      eexists; split; [reflexivity|]. simpl. repeat split; exact Hstep.
  - unfold Claw.updateClaw. rewrite E.
    repeat split; try reflexivity. intros ship Hs; discriminate.
Qed.

(* ----------------------------------------------------------------- *)
(** ** The grab ability *)

Lemma run_grabCount op st :
  (0 <= Abilities.grabCount st)%Z ->
  (0 <= Abilities.grabCount (Abilities.run op st))%Z.
Proof.
  intros H. destruct op as [|ball pauseGame setClaw| |]; simpl; try lia.
  unfold Abilities.executeGrab, Abilities.canUseGrab.
  destruct (0 <? Abilities.grabCount st)%Z eqn:E; simpl; [|exact H].
  apply Z.ltb_lt in E.
  destruct (Abilities.isGrabbing st); simpl; [exact H|].
  destruct ball; simpl; lia.
Qed.

(** X7.  Whatever sequence of [addGrab], [executeGrab], [endGrab] and
    [resetAbilities] calls follows [initAbilities], with whatever
    arguments, the grab counter is never negative. *)
Theorem grabCount_never_negative (ops : list Abilities.Op) :
  (0 <= Abilities.grabCount (Abilities.runs ops Abilities.initAbilities))%Z.
Proof.
  unfold Abilities.runs.
  assert (H : forall st, (0 <= Abilities.grabCount st)%Z ->
                (0 <= Abilities.grabCount
                        (fold_left (fun s op => Abilities.run op s) ops st))%Z).
  { induction ops as [|op ops IH]; intros st Hst; simpl; [exact Hst|].
    apply IH, run_grabCount, Hst. }
  apply H. simpl. lia.
Qed.

(** X8.  [endGrab] ends the grab, stops the ball, and keeps its X and Z.
    It never lowers the ball by more than 5: the ball gets the height of
    the ship when that is within 5 of its own, and otherwise the larger of
    its own height and 7.  Without a ship the ball stays where it is. *)
Theorem endGrab_safe (g : Game.t) :
  let b := Game.ball g in
  let b' := Game.ball (Game.endGrab g) in
  Game.isGrabbing (Game.endGrab g) = false /\
  Ball.ballVelocity b' = mkVec3 0 0 0 /\
  x (Ball.position b') = x (Ball.position b) /\
  z (Ball.position b') = z (Ball.position b) /\
  y (Ball.position b) - 5 <= y (Ball.position b') /\
  (forall ship,
     Game.spaceship g = Some ship ->
     (Rabs (y ship - y (Ball.position b)) <= 5 ->
      y (Ball.position b') = y ship) /\
     (5 < Rabs (y ship - y (Ball.position b)) ->
      y (Ball.position b') = Rmax (y (Ball.position b)) 7)) /\
  (Game.spaceship g = None -> Ball.position b' = Ball.position b).
Proof.
  cbv zeta. unfold Game.endGrab.
  destruct (Game.spaceship g) as [ship|]; simpl.
  - split; [reflexivity|]. split; [reflexivity|].
    split; [reflexivity|]. split; [reflexivity|].
    split.
    + cases_R; split_Rabs_hyps; solve_R.
    + split; [|discriminate].
      intros ship0 Hs. injection Hs as <-.
      split; intros H.
      * rewrite (proj2 (Rltb_false _ _)) by lra. reflexivity.
      * rewrite (proj2 (Rltb_true _ _)) by lra. reflexivity.
  - repeat split; try reflexivity; try lra; discriminate.
Qed.

Lemma executeGrab_grabbing s ship :
  Game.gameOver (Session.game s) = false ->
  Abilities.canUseGrab (Session.abilities s) = true ->
  Game.spaceship (Session.game s) = Some ship ->
  let p := Ball.position (Game.ball (Session.game s)) in
  grabbing (x p) (y p) (z p) (Session.grabCount s - 1)
    (Session.executeGrab s).
Proof.
  intros Hover Hcan Hship. cbv zeta.
  unfold Session.executeGrab, Abilities.executeGrab.
  rewrite Hcan. simpl.
  unfold Claw.setClawPosition. simpl. rewrite Hship.
  unfold grabbing. simpl.
  split; [exact Hover|]. split; [reflexivity|]. split; [reflexivity|].
  split; [reflexivity|]. split; [lra|]. split; [reflexivity|].
  split; [reflexivity|].
  eexists. split; [reflexivity|]. split; [lra|].
  right. split; [reflexivity|lra].
Qed.

Lemma updateHalted_grabbing x0 y0 z0 count keys s :
  grabbing x0 y0 z0 count s ->
  grabbing x0 y0 z0 count (Session.updateHalted keys s).
Proof.
  intros (Hover & Hpaused & Hgrab & Hcount & Horig & Hx & Hz
          & h & Hship & Hh & Hball).
  unfold Session.updateHalted. rewrite Hpaused, Hgrab.
  rewrite orb_true_r. simpl.
  destruct (updateClaw_ship keys (Game.ballReleased (Session.game s)) true
              (Session.claw s) (mkVec3 x0 h z0) Hship)
    as (h' & Heq & _ & _ & _ & Hrange).
  rewrite Heq. simpl.
  assert (Hh' : y0 + 1 <= h' <= y0 + 21).
  { simpl in Hrange. rewrite Horig in Hrange.
    specialize (Hrange eq_refl). lra. }
  unfold grabbing. simpl.
  split; [exact Hover|]. split; [exact Hpaused|]. split; [exact Hgrab|].
  split; [exact Hcount|]. split; [exact Horig|]. split; [exact Hx|].
  split; [exact Hz|].
  exists h'. split; [reflexivity|]. split; [lra|]. left; reflexivity.
Qed.

Lemma aim_grabbing x0 y0 z0 count inputs : forall s,
  grabbing x0 y0 z0 count s ->
  grabbing x0 y0 z0 count (Session.aim inputs s).
Proof.
  unfold Session.aim.
  induction inputs as [|keys inputs IH]; intros s H; simpl; [exact H|].
  apply IH, updateHalted_grabbing, H.
Qed.

Lemma release_grabbing x0 y0 z0 count s :
  grabbing x0 y0 z0 count s ->
  let s' := Session.onKeyDownSpace s in
  exists h,
    Ball.position (Game.ball (Session.game s')) = mkVec3 x0 h z0 /\
    y0 + 1 <= h <= y0 + 21 /\
    Ball.ballVelocity (Game.ball (Session.game s')) = mkVec3 0 0 0 /\
    Game.isGrabbing (Session.game s') = false /\
    Game.isPaused (Session.game s') = false /\
    Session.grabCount s' = count.
Proof.
  intros (Hover & Hpaused & Hgrab & Hcount & Horig & Hx & Hz
          & h & Hship & Hh & Hball).
  cbv zeta. unfold Session.onKeyDownSpace, Controls.onKeyDownSpace.
  rewrite Hover. simpl. rewrite Hgrab.
  unfold Game.endGrab. simpl. rewrite Hship. simpl.
  exists h.
  assert (Hnear : (5.0 <? Rabs (h - y (Ball.position
                                        (Game.ball (Session.game s)))))
                  = false).
  { apply Rltb_false. destruct Hball as [-> | [-> ->]]; solve_R. }
  rewrite Hnear, Hx, Hz.
  repeat split; try reflexivity; try lra. exact Hcount.
Qed.

(** X9.  A grab from start to end: [executeGrab] when a grab is available,
    any number of halted frames with any keys held, and the press of the
    space key that releases the ball.  The ball ends at rest above the
    place where it was grabbed, between 1 and 21 higher, the game runs
    again, and one grab is spent. *)
Theorem grab_aim_release (inputs : list Keys.t) (s : Session.t) (ship : Vec3) :
  Game.gameOver (Session.game s) = false ->
  Abilities.canUseGrab (Session.abilities s) = true ->
  Game.spaceship (Session.game s) = Some ship ->
  let p := Ball.position (Game.ball (Session.game s)) in
  let s' :=
    Session.onKeyDownSpace (Session.aim inputs (Session.executeGrab s)) in
  exists h,
    Ball.position (Game.ball (Session.game s')) = mkVec3 (x p) h (z p) /\
    y p + 1 <= h <= y p + 21 /\
    Ball.ballVelocity (Game.ball (Session.game s')) = mkVec3 0 0 0 /\
    Game.isGrabbing (Session.game s') = false /\
    Game.isPaused (Session.game s') = false /\
    Session.grabCount s' = (Session.grabCount s - 1)%Z.
Proof.
  intros Hover Hcan Hship. cbv zeta.
  apply release_grabbing, aim_grabbing.
  exact (executeGrab_grabbing s ship Hover Hcan Hship).
Qed.

(* ----------------------------------------------------------------- *)
(** ** Power-ups *)

(** [Math.floor(draw * n)] is an index into an array of [n] elements. *)
Lemma floor_index (d : R) (n : nat) :
  0 <= d < 1 -> (0 < n)%nat ->
  (Z.to_nat (Int_part (d * INR n)) < n)%nat.
Proof.
  intros Hd Hn.
  assert (HnR : 0 < INR n) by (apply lt_0_INR; exact Hn).
  destruct (Int_part_bounds (d * INR n) 0 (Z.of_nat n - 1)) as [H0 H1].
  - simpl. nra.
  - rewrite minus_IZR, <- INR_IZR_INZ. nra.
  - lia.
Qed.

Lemma maxPowerUps_le level : (PowerUp.maxPowerUps level <= 15)%Z.
Proof. unfold PowerUp.maxPowerUps. lia. Qed.

(** X10.  [spawnPowerUps] creates nothing once the number of power-ups has
    reached [min(15, 8 + floor(level / 2))], or while there is no platform.
    Otherwise it appends exactly one power-up, placed over one of the
    platforms: at its Z, within 2 of its X, and between 1.5 and 3 above it;
    the type is the forced one, or the drawn one.  So a list of at most 15
    power-ups never grows beyond 15. *)
Theorem spawnPowerUps_spec platforms level forcedType d powerUps :
  PowerUp.valid_draws d ->
  let cap := PowerUp.maxPowerUps level in
  let powerUps' :=
    PowerUp.spawnPowerUps platforms level forcedType d powerUps in
  ((cap <= Z.of_nat (length powerUps))%Z \/ platforms = [] ->
   powerUps' = powerUps) /\
  ((Z.of_nat (length powerUps) < cap)%Z -> platforms <> [] ->
   exists p platform,
     powerUps' = powerUps ++ [p] /\
     In platform platforms /\
     PowerUp.type (PowerUp.userData p) = spawnedType forcedType d /\
     z (PowerUp.position p) = z (Platform.position platform) /\
     x (Platform.position platform) - 2 <= x (PowerUp.position p)
       < x (Platform.position platform) + 2 /\
     y (Platform.position platform) + 1.5 <= y (PowerUp.position p)
       < y (Platform.position platform) + 3 /\
     PowerUp.originalY (PowerUp.userData p) = y (PowerUp.position p)) /\
  ((Z.of_nat (length powerUps) <= 15)%Z ->
   (Z.of_nat (length powerUps') <= 15)%Z).
Proof.
  intros (Hplat & Hx & Hy & _ & _). cbv zeta.
  unfold PowerUp.spawnPowerUps.
  destruct (Z.of_nat (length powerUps) <? PowerUp.maxPowerUps level)%Z
    eqn:Hcap.
  - apply Z.ltb_lt in Hcap.
    destruct platforms as [|p0 ps] eqn:Hps.
    + simpl. split; [reflexivity|]. split; [congruence|]. intros H; exact H.
    + rewrite <- Hps.
      assert (Hlen : (0 < length platforms)%nat) by (subst; simpl; lia).
      assert (Hnat : (0 <? length platforms)%nat = true)
        by (apply Nat.ltb_lt; exact Hlen).
      rewrite Hnat. simpl.
      pose proof (floor_index _ _ Hplat Hlen) as Hidx.
      destruct (nth_error platforms _) as [platform|] eqn:Hnth.
      2:{ apply nth_error_None in Hnth. lia. }
      split.
      { intros [H|H]; [lia | subst; discriminate]. }
      split.
      { intros _ _. eexists; exists platform.
        split; [reflexivity|].
        split; [eapply nth_error_In; exact Hnth|].
        split; [reflexivity|]. simpl.
        split; [reflexivity|].
        split; [lra|]. split; [lra | reflexivity]. }
      intros _. simpl. rewrite length_app. simpl.
      pose proof (maxPowerUps_le level). lia.
  - apply Z.ltb_ge in Hcap. simpl.
    split; [reflexivity|]. split; [lia|]. intros H; exact H.
Qed.

Lemma spawnPowerUps_spec_witness :
  let d := constantPowerUpDraws (1 / 2) in
  let powerUps' :=
    PowerUp.spawnPowerUps [Platform.startPlatform] 1 None d [] in
  PowerUp.valid_draws d /\
  exists p platform,
    powerUps' = [] ++ [p] /\
    In platform [Platform.startPlatform] /\
    PowerUp.type (PowerUp.userData p) = spawnedType None d /\
    z (PowerUp.position p) = z (Platform.position platform) /\
    x (Platform.position platform) - 2 <= x (PowerUp.position p)
      < x (Platform.position platform) + 2 /\
    y (Platform.position platform) + 1.5 <= y (PowerUp.position p)
      < y (Platform.position platform) + 3 /\
    PowerUp.originalY (PowerUp.userData p) = y (PowerUp.position p).
Proof.
  intros d powerUps'.
  assert (Hd : PowerUp.valid_draws d).
  { unfold PowerUp.valid_draws, d, constantPowerUpDraws; simpl.
    split; [lra|]. split; [lra|]. split; [lra|]. split; lra. }
  split; [exact Hd|].
  destruct (spawnPowerUps_spec [Platform.startPlatform] 1 None d [] Hd)
    as (_ & Hspawn & _).
  apply Hspawn.
  - unfold PowerUp.maxPowerUps. simpl. lia.
  - discriminate.
Defined.

Lemma splice1_middle (pre post : list PowerUp.t) p :
  PowerUp.splice1 (length pre) (pre ++ p :: post) = pre ++ post.
Proof.
  unfold PowerUp.splice1.
  induction pre as [|a pre IH]; simpl; [reflexivity|].
  f_equal. exact IH.
Qed.

Lemma checkFrom_collected ballPosition pre : forall post s,
  PowerUp.powerUps s = pre ++ post ->
  PowerUp.checkFrom ballPosition (length pre) s
  = collected ballPosition pre post s.
Proof.
  induction pre as [|p pre IH] using rev_ind; intros post s Hs.
  - simpl. unfold collected. simpl. rewrite Z.add_0_r, Z.add_0_r.
    destruct s; simpl in *; subst; reflexivity.
  - rewrite length_app. simpl. rewrite Nat.add_comm. simpl.
    rewrite <- app_assoc in Hs. simpl in Hs.
    assert (Hnth : nth_error (PowerUp.powerUps s) (length pre) = Some p).
    { rewrite Hs, nth_error_app2 by lia. rewrite Nat.sub_diag. reflexivity. }
    rewrite Hnth.
    unfold collected.
    rewrite filter_app, existsb_app, !filter_app, !length_app. simpl.
    unfold touchedOfKind at 2 4 6.
    destruct (PowerUp.touches ballPosition p) eqn:Ht; simpl.
    + rewrite (IH post).
      2:{ unfold PowerUp.collect.
          destruct (PowerUp.type (PowerUp.userData p)); simpl;
            rewrite Hs; apply splice1_middle. }
      unfold collected, PowerUp.collect.
      rewrite app_nil_r.
      destruct (PowerUp.type (PowerUp.userData p)); simpl;
        rewrite ?orb_true_r, ?orb_false_r, ?Nat.add_0_r;
        f_equal; try lia;
        destruct (existsb _ pre); reflexivity.
    + rewrite (IH (p :: post) s Hs).
      unfold collected. rewrite <- app_assoc. simpl.
      rewrite ?orb_false_r, ?Nat.add_0_r. reflexivity.
Qed.

(** X11.  [checkPowerUpCollisions] removes exactly the power-ups that the
    ball touches and keeps the others in their order.  The fuel becomes 100
    when a jetpack power-up is among those touched and is unchanged
    otherwise (fuel is set, not added); every extra-jump power-up touched
    adds one extra jump and every SOS power-up touched adds one grab. *)
Theorem checkPowerUpCollisions_spec ballPosition (s : PowerUp.Pickup) :
  let s' := PowerUp.checkPowerUpCollisions ballPosition s in
  let l := PowerUp.powerUps s in
  PowerUp.powerUps s'
  = filter (fun p => negb (PowerUp.touches ballPosition p)) l /\
  PowerUp.jetpackFuel s'
  = (if existsb (touchedOfKind ballPosition PowerUp.Jetpack) l
     then 100%Z else PowerUp.jetpackFuel s) /\
  PowerUp.extraJumps s'
  = (PowerUp.extraJumps s
     + Z.of_nat
         (length (filter (touchedOfKind ballPosition PowerUp.ExtraJump) l)))%Z /\
  PowerUp.grabCount s'
  = (PowerUp.grabCount s
     + Z.of_nat
         (length (filter (touchedOfKind ballPosition PowerUp.SOS) l)))%Z.
Proof.
  cbv zeta. unfold PowerUp.checkPowerUpCollisions.
  rewrite (checkFrom_collected ballPosition (PowerUp.powerUps s) [] s)
    by (rewrite app_nil_r; reflexivity).
  unfold collected. simpl. rewrite app_nil_r.
  repeat split.
Qed.

(* ----------------------------------------------------------------- *)
(** ** The platform generators *)

Lemma createPlatform_first isRedFlag level d st :
  Platform.platforms st = [] ->
  Platform.createPlatform isRedFlag level d st
  = ({| Platform.platforms := [Platform.startPlatform];
        Platform.lastPlatformPosition := mkVec3 0 0 0;
        Platform.lastPlatformType := Config.Center;
        Platform.redFlagPlatform := Platform.redFlagPlatform st |},
     Platform.startPlatform).
Proof.
  intros H. unfold Platform.createPlatform. rewrite H. reflexivity.
Qed.

Lemma createPlatform_appends isRedFlag level d st :
  Platform.platforms (fst (Platform.createPlatform isRedFlag level d st))
  = Platform.platforms st
    ++ [snd (Platform.createPlatform isRedFlag level d st)].
Proof.
  unfold Platform.createPlatform.
  destruct (Platform.platforms st); reflexivity.
Qed.

Lemma createPlatform_regular level d st :
  Platform.redFlagPlatform (fst (Platform.createPlatform false level d st))
  = Platform.redFlagPlatform st /\
  Platform.isRedFlagPlatform
    (Platform.userData (snd (Platform.createPlatform false level d st)))
  = false.
Proof.
  unfold Platform.createPlatform.
  destruct (Platform.platforms st); split; reflexivity.
Qed.

Lemma createPlatform_advance isRedFlag level d st :
  Platform.platforms st <> [] ->
  z (Platform.lastPlatformPosition
       (fst (Platform.createPlatform isRedFlag level d st)))
  = z (Platform.lastPlatformPosition st) - (6 + Platform.gap d * 5.25) /\
  Platform.platforms (fst (Platform.createPlatform isRedFlag level d st))
  <> [].
Proof.
  intros H. unfold Platform.createPlatform.
  destruct (Platform.platforms st) as [|p ps]; [congruence|].
  simpl. split; [reflexivity | discriminate].
Qed.

Lemma createPlatforms_platforms calls : forall st,
  Platform.platforms (fst (Platform.createPlatforms calls st))
  = Platform.platforms st ++ snd (Platform.createPlatforms calls st).
Proof.
  induction calls as [|c calls IH]; intros st.
  - simpl. now rewrite app_nil_r.
  - rewrite createPlatforms_cons. simpl. rewrite IH.
    unfold createCall. rewrite createPlatform_appends.
    now rewrite <- app_assoc.
Qed.

Lemma createPlatforms_regular calls : forall st,
  regularCalls calls ->
  Platform.redFlagPlatform (fst (Platform.createPlatforms calls st))
  = Platform.redFlagPlatform st /\
  noGoalPlatform (snd (Platform.createPlatforms calls st)).
Proof.
  unfold regularCalls, noGoalPlatform.
  induction calls as [|c calls IH]; intros st H.
  - simpl. split; [reflexivity | constructor].
  - inversion H as [|c' calls' Hc Hcalls]; subst.
    rewrite createPlatforms_cons. simpl.
    destruct (IH (fst (createCall c st)) Hcalls) as [IH1 IH2].
    unfold createCall in *. rewrite Hc in *.
    destruct (createPlatform_regular (Platform.callLevel c)
                (Platform.callDraws c) st) as [H1 H2].
    split; [congruence|]. constructor; assumption.
Qed.

Lemma createPlatforms_frontier calls : forall st,
  Forall validCall calls ->
  Platform.platforms st <> [] ->
  let z0 := z (Platform.lastPlatformPosition st) in
  let z' :=
    z (Platform.lastPlatformPosition
         (fst (Platform.createPlatforms calls st))) in
  z0 - 11.25 * INR (length calls) <= z' <= z0 - 6 * INR (length calls) /\
  (calls <> [] -> z0 - 11.25 * INR (length calls) < z').
Proof.
  induction calls as [|c calls IH]; intros st Hvalid Hne; cbv zeta.
  - simpl. split; [lra | congruence].
  - inversion Hvalid as [|c' calls' Hc Hcalls]; subst.
    rewrite createPlatforms_cons.
    cbn [fst snd]. unfold createCall.
    destruct (createPlatform_advance (Platform.callIsRedFlag c)
                (Platform.callLevel c) (Platform.callDraws c) st Hne)
      as [Hz Hne'].
    specialize (IH _ Hcalls Hne'). cbv zeta in IH.
    rewrite Hz in IH. destruct IH as [IH _].
    change (length (c :: calls)) with (S (length calls)).
    rewrite S_INR.
    unfold validCall, Platform.valid_draws, Platform.unit_draw in Hc.
    destruct Hc as (_ & _ & _ & _ & _ & Hgap & _).
    split; [|intros _]; lra.
Qed.

(** The calls of a loop [for (i = 0; i < n; i++)
    createPlatform(false, scene, level)], the draws of the iteration [i]
    being [draws (first + i)]. *)
Lemma loop_calls_regular level (draws : nat -> Platform.Draws) first n :
  regularCalls
    (map (fun i =>
            {| Platform.callIsRedFlag := false;
               Platform.callLevel := level;
               Platform.callDraws := draws i |})
         (seq first n)).
Proof.
  unfold regularCalls. apply Forall_forall. intros c Hc.
  apply in_map_iff in Hc. destruct Hc as (i & <- & _). reflexivity.
Qed.

Lemma loop_calls_valid level (draws : nat -> Platform.Draws) first n :
  (forall i, Platform.valid_draws (draws i)) ->
  Forall validCall
    (map (fun i =>
            {| Platform.callIsRedFlag := false;
               Platform.callLevel := level;
               Platform.callDraws := draws i |})
         (seq first n)).
Proof.
  intros H. apply Forall_forall. intros c Hc.
  apply in_map_iff in Hc. destruct Hc as (i & <- & _). apply H.
Qed.

Lemma platformCount_bounds level :
  (10 <= Platform.platformCount level)%Z /\
  ((0 <= level)%Z -> (Platform.platformCount level <= 20)%Z).
Proof.
  unfold Platform.platformCount, Platform.floor. split; [lia|].
  intros Hlevel. apply Z.max_lub; [lia|].
  apply IZR_le in Hlevel.
  destruct (Int_part_bounds
              (IZR (Config.platformsPerLevel Config.GAME_SETTINGS)
               * (1 - IZR level * 0.02))
              (Int_part
                 (IZR (Config.platformsPerLevel Config.GAME_SETTINGS)
                  * (1 - IZR level * 0.02)))
              20) as [_ H].
  - destruct (base_Int_part
                (IZR (Config.platformsPerLevel Config.GAME_SETTINGS)
                 * (1 - IZR level * 0.02))) as [H _]. exact H.
  - simpl. lra.
  - exact H.
Qed.

Lemma generateNewLevel_level level speed draws st :
  let r := Platform.generateNewLevel level speed draws st in
  snd r = {| Platform.levelSpeed := speed;
             Platform.levelRedFlagPlatformReached := false |} /\
  Platform.redFlagPlatform (fst r) = None /\
  noGoalPlatform (Platform.platforms (fst r)) /\
  (exists rest,
     Platform.platforms (fst r) = Platform.startPlatform :: rest /\
     length rest = Z.to_nat (Platform.platformCount level)) /\
  (10 <= Platform.platformCount level)%Z /\
  ((0 <= level)%Z -> (Platform.platformCount level <= 20)%Z).
Proof.
  cbv zeta. unfold Platform.generateNewLevel. cbv zeta. cbn [fst snd].
  rewrite createPlatform_first by reflexivity. cbn [fst snd].
  set (calls := map _ (seq 0 (Z.to_nat (Platform.platformCount level)))).
  set (st1 := {| Platform.platforms := [Platform.startPlatform];
                 Platform.lastPlatformPosition := mkVec3 0 0 0;
                 Platform.lastPlatformType := Config.Center;
                 Platform.redFlagPlatform := None |}).
  assert (Hlen : length calls = Z.to_nat (Platform.platformCount level)).
  { unfold calls. now rewrite length_map, length_seq. }
  destruct (createPlatforms_regular calls st1) as [Hflag Hnone].
  { apply loop_calls_regular. }
  clearbody calls.
  split; [reflexivity|].
  split; [exact Hflag|].
  rewrite createPlatforms_platforms.
  split.
  { unfold noGoalPlatform. cbn [Platform.platforms st1 app].
    constructor; [reflexivity | exact Hnone]. }
  split.
  { eexists. split; [reflexivity|].
    rewrite createPlatforms_length. exact Hlen. }
  apply platformCount_bounds.
Qed.

(** X12.  [generateNewLevel] never builds a goal platform.  Its call
    [createPlatform(true, scene, level)] is made on the list it has just
    emptied, so it takes the branch of the first platform and builds the
    plain 30 x 50 starting platform at the origin.  The level it leaves has
    that platform first, followed by [platformCount] platforms (at least 10,
    and at most 20 from level 0 on), none of them marked as the goal, and
    [redFlagPlatform] stays unset; the speed is returned as given, with the
    flag down. *)
Theorem generateNewLevel_spec level speed draws st :
  let r := Platform.generateNewLevel level speed draws st in
  snd r = {| Platform.levelSpeed := speed;
             Platform.levelRedFlagPlatformReached := false |} /\
  Platform.redFlagPlatform (fst r) = None /\
  noGoalPlatform (Platform.platforms (fst r)) /\
  (exists rest,
     Platform.platforms (fst r) = Platform.startPlatform :: rest /\
     length rest = Z.to_nat (Platform.platformCount level)) /\
  (10 <= Platform.platformCount level)%Z /\
  ((0 <= level)%Z -> (Platform.platformCount level <= 20)%Z).
Proof.
  apply generateNewLevel_level.
Qed.

(** X13.  [createStartingPlatforms] always leaves 21 platforms, whatever
    was there before: the green speed-boost trampoline at the origin, then
    20 platforms, none of them a goal platform.  The last one lies between
    120 and 225 ahead of the origin. *)
Theorem createStartingPlatforms_spec (draws : nat -> Platform.Draws) st :
  (forall i, Platform.valid_draws (draws i)) ->
  let st' := Platform.createStartingPlatforms draws st in
  (exists rest,
     Platform.platforms st' = Platform.startingTrampoline :: rest /\
     length rest = 20%nat) /\
  noGoalPlatform (Platform.platforms st') /\
  Platform.redFlagPlatform st' = None /\
  -225 < z (Platform.lastPlatformPosition st') <= -120.
Proof.
  intros Hvalid. cbv zeta. unfold Platform.createStartingPlatforms.
  set (calls := map _ (seq 0 _)).
  set (st1 := {| Platform.platforms := [Platform.startingTrampoline];
                 Platform.lastPlatformPosition := mkVec3 0 0 0;
                 Platform.lastPlatformType := Config.Center;
                 Platform.redFlagPlatform := None |}).
  assert (Hlen : length calls = 20%nat).
  { unfold calls. rewrite length_map, length_seq. reflexivity. }
  destruct (createPlatforms_regular calls st1) as [Hflag Hnone].
  { apply loop_calls_regular. }
  destruct (createPlatforms_frontier calls st1) as [Hz Hstrict].
  { apply loop_calls_valid, Hvalid. }
  { discriminate. }
  clearbody calls.
  rewrite createPlatforms_platforms.
  split.
  { eexists. split; [reflexivity|].
    now rewrite createPlatforms_length. }
  split.
  { unfold noGoalPlatform. cbn [Platform.platforms st1 app].
    constructor; [reflexivity | exact Hnone]. }
  split; [exact Hflag|].
  assert (Hne : calls <> []).
  { intros E. rewrite E in Hlen. discriminate. }
  specialize (Hstrict Hne).
  rewrite Hlen in Hz, Hstrict.
  replace (INR 20) with 20 in Hz, Hstrict by (simpl; lra).
  change (z (Platform.lastPlatformPosition st1)) with 0 in Hz, Hstrict.
  lra.
Qed.

Lemma createStartingPlatforms_spec_witness :
  let st' :=
    Platform.createStartingPlatforms (fun _ => constantDraws (1 / 2))
      Platform.initialState in
  (exists rest,
     Platform.platforms st' = Platform.startingTrampoline :: rest /\
     length rest = 20%nat) /\
  noGoalPlatform (Platform.platforms st') /\
  Platform.redFlagPlatform st' = None /\
  -225 < z (Platform.lastPlatformPosition st') <= -120.
Proof.
  apply (createStartingPlatforms_spec (fun _ => constantDraws (1 / 2))
           Platform.initialState).
  intros i. apply constantDraws_valid. lra.
Defined.




(* ----------------------------------------------------------------- *)
(** ** Collisions and the clean-up of platforms *)

Lemma removed_not_touched removeDistance p ballPosition ballVelocity :
  withinReach removeDistance p ->
  z ballPosition + removeDistance < z (Platform.position p) ->
  Platform.collisionDetected p ballPosition ballVelocity = false.
Proof.
  unfold withinReach, Platform.collisionDetected, Platform.ballRadius.
  intros Hreach Hfar.
  destruct (Platform.isRoundPlatform (Platform.userData p)).
  - cbv zeta.
    set (dx := x ballPosition - x (Platform.position p)).
    set (dz := z ballPosition - z (Platform.position p)).
    set (reach := Platform.radius (Platform.userData p) * 0.9).
    assert (Hout : (dx * dx + dz * dz <=? reach * reach) = false).
    { apply Rleb_false.
      assert (Hrd : Rabs reach <= removeDistance).
      { unfold reach. rewrite Rabs_mult, (Rabs_pos_eq 0.9) by lra.
        exact Hreach. }
      assert (Hdz : removeDistance < - dz) by (unfold dz; lra).
      assert (H0 : 0 <= Rabs reach) by apply Rabs_pos.
      assert (Hsq : reach * reach = Rabs reach * Rabs reach).
      { unfold Rabs. destruct (Rcase_abs reach); ring. }
      rewrite Hsq. nra. }
    rewrite Hout. reflexivity.
  - cbv zeta.
    assert (Hout : ((z (Platform.position p)
                     - Platform.depth (Platform.userData p) / 2
                     <=? z ballPosition + 1.0 * 0.8)) = false).
    { apply Rleb_false. lra. }
    rewrite Hout.
    rewrite !andb_false_r. reflexivity.
Qed.

(** X15.  [cleanupPlatforms] never removes a platform from under the ball:
    when no platform reaches farther than [removeDistance] behind its
    centre, the collision test gives the same answer, for the same
    platform, before and after the clean-up. *)
Theorem cleanupPlatforms_keeps_collisions ballPosition ballVelocity
    removeDistance st :
  Forall (withinReach removeDistance) (Platform.platforms st) ->
  let st' := Platform.cleanupPlatforms ballPosition removeDistance st in
  Platform.checkPlatformCollision (Platform.platforms st') ballPosition
    ballVelocity
  = Platform.checkPlatformCollision (Platform.platforms st) ballPosition
      ballVelocity /\
  Platform.getCurrentPlatform (Platform.platforms st') ballPosition
    ballVelocity
  = Platform.getCurrentPlatform (Platform.platforms st) ballPosition
      ballVelocity.
Proof.
  cbv zeta. unfold Platform.cleanupPlatforms. cbn [Platform.platforms].
  induction (Platform.platforms st) as [|p ps IH]; intros Hreach.
  - split; reflexivity.
  - inversion Hreach as [|p' ps' Hp Hps]; subst.
    destruct (IH Hps) as [IH1 IH2].
    cbn [filter].
    destruct (z ballPosition + removeDistance <? z (Platform.position p))
      eqn:Hfar; cbn [negb].
    + apply Rltb_true in Hfar.
      cbn [Platform.checkPlatformCollision Platform.getCurrentPlatform].
      rewrite (removed_not_touched _ _ _ ballVelocity Hp Hfar).
      split; assumption.
    + cbn [Platform.checkPlatformCollision Platform.getCurrentPlatform].
      destruct (Platform.collisionDetected p ballPosition ballVelocity);
        [split; reflexivity | split; assumption].
Qed.

Lemma cleanupPlatforms_keeps_collisions_witness :
  let st := {| Platform.platforms :=
                 [Platform.startPlatform; Platform.startingTrampoline];
               Platform.lastPlatformPosition := mkVec3 0 0 0;
               Platform.lastPlatformType := Config.Center;
               Platform.redFlagPlatform := None |} in
  let ballPosition := mkVec3 0 1.5 (-60) in
  let ballVelocity := mkVec3 0 0 0 in
  let st' := Platform.cleanupPlatforms ballPosition 30 st in
  Platform.checkPlatformCollision (Platform.platforms st') ballPosition
    ballVelocity
  = Platform.checkPlatformCollision (Platform.platforms st) ballPosition
      ballVelocity /\
  Platform.getCurrentPlatform (Platform.platforms st') ballPosition
    ballVelocity
  = Platform.getCurrentPlatform (Platform.platforms st) ballPosition
      ballVelocity.
Proof.
  intros st ballPosition ballVelocity.
  apply (cleanupPlatforms_keeps_collisions ballPosition ballVelocity 30 st).
  apply Forall_cons; [unfold withinReach; simpl; lra|].
  apply Forall_cons; [unfold withinReach; simpl; lra|].
  apply Forall_nil.
Defined.

(** X16.  [checkPlatformCollision] and [getCurrentPlatform] always agree:
    the first reports a collision exactly when the second finds a platform,
    and then it reports that platform's effect, goal mark and top, the
    platform is one of the list and passes the collision test; when there
    is no collision no platform of the list passes the test. *)
Theorem checkPlatformCollision_getCurrentPlatform platforms ballPosition
    ballVelocity :
  match Platform.getCurrentPlatform platforms ballPosition ballVelocity with
  | Some p =>
      Platform.checkPlatformCollision platforms ballPosition ballVelocity
      = infoOf p /\
      In p platforms /\
      Platform.collisionDetected p ballPosition ballVelocity = true
  | None =>
      Platform.Info.onPlatform
        (Platform.checkPlatformCollision platforms ballPosition ballVelocity)
      = false /\
      forall p, In p platforms ->
                Platform.collisionDetected p ballPosition ballVelocity = false
  end.
Proof.
  induction platforms as [|p0 ps IH]; simpl.
  - split; [reflexivity | intros p []].
  - destruct (Platform.collisionDetected p0 ballPosition ballVelocity) eqn:E.
    + split; [reflexivity|]. split; [now left | exact E].
    + destruct (Platform.getCurrentPlatform ps ballPosition ballVelocity)
        as [p|].
      * destruct IH as (H1 & H2 & H3).
        split; [exact H1|]. split; [now right | exact H3].
      * destruct IH as [H1 H2]. split; [exact H1|].
        intros p [<- | Hin]; [exact E | exact (H2 p Hin)].
Qed.

Lemma collisionDetected_rising p ballPosition ballVelocity :
  0 < y ballVelocity ->
  Platform.collisionDetected p ballPosition ballVelocity = false.
Proof.
  intros Hup. unfold Platform.collisionDetected.
  rewrite (proj2 (Rleb_false (y ballVelocity) 0) Hup).
  destruct (Platform.isRoundPlatform (Platform.userData p)); cbv zeta;
    apply andb_false_r.
Qed.

Lemma checkPlatformCollision_rising platforms ballPosition ballVelocity :
  0 < y ballVelocity ->
  Platform.checkPlatformCollision platforms ballPosition ballVelocity
  = Platform.checkPlatformCollision [] ballPosition ballVelocity.
Proof.
  intros Hup. induction platforms as [|p ps IH]; [reflexivity|].
  cbn [Platform.checkPlatformCollision].
  rewrite (collisionDetected_rising p _ _ Hup). exact IH.
Qed.

(** X17.  A ball that moves upward passes through every platform:
    [handlePlatformCollisions] reports no platform under it and changes
    neither the ball nor the speed, whatever platforms there are. *)
Theorem handlePlatformCollisions_rising settings platforms speed b :
  0 < y (Ball.ballVelocity b) ->
  Collision.handlePlatformCollisions settings platforms speed b
  = {| Collision.ball := b;
       Collision.onPlatform := false;
       Collision.speed := speed;
       Collision.redFlagPlatformReachedCalled := false |}.
Proof.
  intros Hup. unfold Collision.handlePlatformCollisions.
  rewrite (checkPlatformCollision_rising platforms _ _ Hup).
  reflexivity.
Qed.

Lemma handlePlatformCollisions_rising_witness :
  Collision.handlePlatformCollisions Config.GAME_SETTINGS
    [Platform.startPlatform] 0.15 (Game.ball inFlight)
  = {| Collision.ball := Game.ball inFlight;
       Collision.onPlatform := false;
       Collision.speed := 0.15;
       Collision.redFlagPlatformReachedCalled := false |}.
Proof.
  apply (handlePlatformCollisions_rising Config.GAME_SETTINGS
           [Platform.startPlatform] 0.15 (Game.ball inFlight)).
  simpl. lra.
Defined.

Lemma applyPlatformEffects_at_rest settings info speed b :
  0 <= y (Ball.ballVelocity b) ->
  Ball.applyPlatformEffects settings info speed b = (b, speed).
Proof.
  intros H. unfold Ball.applyPlatformEffects.
  rewrite (proj2 (Rltb_false _ _) H), andb_false_r. reflexivity.
Qed.

Lemma handlePlatformCollisions_at_rest settings platforms speed b :
  0 <= y (Ball.ballVelocity b) ->
  let r := Collision.handlePlatformCollisions settings platforms speed b in
  Collision.speed r = speed /\ samePhysics b (Collision.ball r).
Proof.
  intros H. cbv zeta. unfold Collision.handlePlatformCollisions.
  rewrite applyPlatformEffects_at_rest by exact H.
  destruct (Platform.Info.onPlatform _); cbn [Collision.speed Collision.ball].
  - split; [reflexivity|].
    repeat match goal with
           | |- context [match ?o with Some _ => _ | None => _ end] =>
               destruct o
           end;
      unfold samePhysics; simpl; repeat split.
  - split; [reflexivity|]. unfold samePhysics. repeat split.
Qed.

Lemma handlePlatformCollisions_velocity platforms speed b :
  let r :=
    Collision.handlePlatformCollisions Config.GAME_SETTINGS platforms speed b
  in
  0 <= y (Ball.ballVelocity (Collision.ball r)) \/
  r = {| Collision.ball := b;
         Collision.onPlatform := false;
         Collision.speed := speed;
         Collision.redFlagPlatformReachedCalled := false |} /\
  Collision.isOnPlatform platforms b = false.
Proof.
  cbv zeta.
  destruct (Rlt_dec (y (Ball.ballVelocity b)) 0) as [Hdown|Hrest].
  - unfold Collision.handlePlatformCollisions, Collision.isOnPlatform.
    unfold Ball.applyPlatformEffects.
    rewrite (proj2 (Rltb_true _ _) Hdown), andb_true_r.
    destruct (Platform.Info.onPlatform _) eqn:Hon.
    + left.
      destruct (Platform.Info.bounceEffect _) as [[|]|];
        repeat match goal with
               | |- context [match ?o with Some _ => _ | None => _ end] =>
                   destruct o
               end;
        simpl; lra.
    + right. split; reflexivity.
  - left.
    destruct (handlePlatformCollisions_at_rest Config.GAME_SETTINGS platforms
                speed b) as [_ (Hv & _)]; [lra|].
    rewrite Hv. lra.
Qed.

(** X18.  The effects of a landing are applied once: a second call of
    [handlePlatformCollisions], right after the first, changes neither the
    speed nor the velocity, the jump flags, the air-entry method or the
    counters of the ball. *)
Theorem handlePlatformCollisions_twice platforms speed b :
  let r1 :=
    Collision.handlePlatformCollisions Config.GAME_SETTINGS platforms speed b
  in
  let r2 :=
    Collision.handlePlatformCollisions Config.GAME_SETTINGS platforms
      (Collision.speed r1) (Collision.ball r1) in
  Collision.speed r2 = Collision.speed r1 /\
  samePhysics (Collision.ball r1) (Collision.ball r2).
Proof.
  cbv zeta.
  destruct (handlePlatformCollisions_velocity platforms speed b)
    as [Hrest | [Hsame Hoff]].
  - exact (handlePlatformCollisions_at_rest Config.GAME_SETTINGS platforms _ _
             Hrest).
  - rewrite Hsame. cbn [Collision.speed Collision.ball].
    rewrite Hsame. cbn [Collision.speed Collision.ball].
    split; [reflexivity|]. unfold samePhysics. repeat split.
Qed.

(* ----------------------------------------------------------------- *)
(** ** The ball step and the jetpack *)

(** X19.  Whatever the inputs, [updateBallPosition] leaves a lateral
    velocity between -0.3 and 0.3 and a vertical velocity of at least -0.5
    (the terminal velocity), and it does not touch the jumping flag or the
    extra jumps.  With no arrow key held the lateral speed shrinks to at
    most 0.98 of what it was.  With a time step that is not negative a
    jump charge of at most 0.5 does not decrease and stays at most 0.5. *)
Theorem updateBallPosition_bounds platforms keys deltaTime speed
    isJetpackActive jetpackFuel isOnPlatform b :
  let b' := Ball.updateBallPosition platforms keys deltaTime speed
              isJetpackActive jetpackFuel isOnPlatform b in
  -0.3 <= x (Ball.ballVelocity b') <= 0.3 /\
  -0.5 <= y (Ball.ballVelocity b') /\
  z (Ball.ballVelocity b') = z (Ball.ballVelocity b) /\
  Ball.isJumping b' = Ball.isJumping b /\
  Ball.extraJumps b' = Ball.extraJumps b /\
  (Keys.left keys = false -> Keys.right keys = false ->
   Rabs (x (Ball.ballVelocity b'))
   <= 0.98 * Rabs (x (Ball.ballVelocity b))) /\
  (0 <= deltaTime -> Ball.jumpChargeTime b <= 0.5 ->
   Ball.jumpChargeTime b <= Ball.jumpChargeTime b' <= 0.5).
Proof.
  cbv zeta. unfold Ball.updateBallPosition. cbv zeta.
  cbn [Ball.ballVelocity Ball.isJumping Ball.extraJumps Ball.jumpChargeTime
       x y z].
  split; [unfold clamp; solve_R|].
  split; [cases_R; lra|].
  split; [reflexivity|]. split; [reflexivity|]. split; [reflexivity|].
  split.
  - intros -> ->. unfold clamp. cases_minmax; lra.
  - intros Hdt Hcharge.
    destruct (Keys.space keys && negb (Ball.isJumping b) && isOnPlatform b);
      cases_R; lra.
Qed.

Lemma updateJetpack_burning fuel b :
  (0 < fuel)%Z ->
  exists b1,
    Jetpack.updateJetpack true true fuel b = (b1, (fuel - 1)%Z) /\
    Ball.ballVelocity b1
    = mkVec3 (x (Ball.ballVelocity b))
             (y (Ball.ballVelocity b) + 0.015)
             (z (Ball.ballVelocity b)).
Proof.
  intros Hfuel. unfold Jetpack.updateJetpack.
  rewrite (proj2 (Z.ltb_lt 0 fuel) Hfuel). cbn [negb andb].
  eexists. split; [reflexivity|].
  destruct (fuel =? 1)%Z; reflexivity.
Qed.

Lemma updateJetpack_fuel jetpack isJetpackActive fuel b :
  (0 <= fuel)%Z ->
  (0 <= snd (Jetpack.updateJetpack jetpack isJetpackActive fuel b) <= fuel)%Z.
Proof.
  intros Hfuel. unfold Jetpack.updateJetpack.
  destruct jetpack, isJetpackActive; cbn [negb andb snd]; try lia.
  destruct (0 <? fuel)%Z eqn:E; cbn [snd]; lia.
Qed.

(** X20.  The fuel of the jetpack never goes below zero and
    [updateJetpack] never adds fuel.  With the jetpack active, [n] calls in
    a row burn one unit each until the fuel is gone: they leave
    [max(0, fuel - n)] units and raise the vertical velocity by 0.015 for
    every unit burnt, leaving the other two components alone. *)
Theorem updateJetpack_burns n : forall fuel b,
  (0 <= fuel)%Z ->
  (forall jetpack isJetpackActive,
     (0 <= snd (Jetpack.updateJetpackTimes n jetpack isJetpackActive fuel b)
      <= fuel)%Z) /\
  snd (Jetpack.updateJetpackTimes n true true fuel b)
  = Z.max 0 (fuel - Z.of_nat n) /\
  Ball.ballVelocity (fst (Jetpack.updateJetpackTimes n true true fuel b))
  = mkVec3 (x (Ball.ballVelocity b))
           (y (Ball.ballVelocity b)
            + 0.015 * IZR (Z.min (Z.of_nat n) fuel))
           (z (Ball.ballVelocity b)).
Proof.
  induction n as [|n IH]; intros fuel b Hfuel.
  - cbn [Jetpack.updateJetpackTimes fst snd].
    split; [intros; lia|]. split; [lia|].
    replace (Z.min (Z.of_nat 0) fuel) with 0%Z by lia.
    destruct (Ball.ballVelocity b) as [vx vy vz]. simpl. f_equal. lra.
  - cbn [Jetpack.updateJetpackTimes].
    split.
    { intros jetpack isJetpackActive.
      pose proof (updateJetpack_fuel jetpack isJetpackActive fuel b Hfuel)
        as Hstep.
      destruct (Jetpack.updateJetpack jetpack isJetpackActive fuel b)
        as [b1 fuel1]. cbn [snd] in Hstep.
      destruct (IH fuel1 b1) as [Hall _]; [lia|].
      specialize (Hall jetpack isJetpackActive). lia. }
    destruct (Z.eq_dec fuel 0) as [-> | Hpos].
    + change (Jetpack.updateJetpack true true 0 b) with (b, 0%Z).
      destruct (IH 0%Z b) as (_ & Hf & Hv); [lia|].
      rewrite Hf, Hv.
      split; [lia|].
      replace (Z.min (Z.of_nat n) 0) with 0%Z by lia.
      replace (Z.min (Z.of_nat (S n)) 0) with 0%Z by lia.
      reflexivity.
    + destruct (updateJetpack_burning fuel b) as (b1 & Hstep & Hv1); [lia|].
      rewrite Hstep.
      destruct (IH (fuel - 1)%Z b1) as (_ & Hf & Hv); [lia|].
      rewrite Hf, Hv, Hv1. cbn [x y z].
      split; [lia|].
      replace (Z.min (Z.of_nat (S n)) fuel)
        with (1 + Z.min (Z.of_nat n) (fuel - 1))%Z by lia.
      rewrite plus_IZR. f_equal. lra.
Qed.

Lemma updateJetpack_burns_witness :
  (forall jetpack isJetpackActive,
     (0 <= snd (Jetpack.updateJetpackTimes 3 jetpack isJetpackActive 2
                  Ball.initialState)
      <= 2)%Z) /\
  snd (Jetpack.updateJetpackTimes 3 true true 2 Ball.initialState)
  = Z.max 0 (2 - Z.of_nat 3) /\
  Ball.ballVelocity
    (fst (Jetpack.updateJetpackTimes 3 true true 2 Ball.initialState))
  = mkVec3 (x (Ball.ballVelocity Ball.initialState))
           (y (Ball.ballVelocity Ball.initialState)
            + 0.015 * IZR (Z.min (Z.of_nat 3) 2))
           (z (Ball.ballVelocity Ball.initialState)).
Proof.
  apply (updateJetpack_burns 3 2%Z Ball.initialState). lia.
Defined.

(* ----------------------------------------------------------------- *)
(** ** Levels *)

(** X21.  [updateDifficulty] ignores the speed it is given.  The speed it
    returns grows with the score, is never above 0.7, is at least 0.2 for a
    score that is not negative, and is 0.7 from a score of 1000 on. *)
Theorem updateDifficulty_spec (score score' speed speed' : R) :
  Levels.updateDifficulty score speed = Levels.updateDifficulty score speed' /\
  Levels.updateDifficulty score speed <= 0.7 /\
  (0 <= score -> 0.2 <= Levels.updateDifficulty score speed) /\
  (1000 <= score -> Levels.updateDifficulty score speed = 0.7) /\
  (score <= score' ->
   Levels.updateDifficulty score speed
   <= Levels.updateDifficulty score' speed).
Proof.
  unfold Levels.updateDifficulty.
  intros_split; try reflexivity; cases_minmax; lra.
Qed.

Lemma startPlatform_under_new_level h v :
  1 <= h <= 2 -> y v <= 0 ->
  Platform.collisionDetected Platform.startPlatform (mkVec3 0 h (-15)) v
  = true.
Proof.
  intros Hh Hv. unfold Platform.collisionDetected, Platform.ballRadius.
  cbn [Platform.startPlatform Platform.userData Platform.isRoundPlatform
       Platform.position Platform.width Platform.depth x y z].
  cbv zeta. decide_R. reflexivity.
Qed.

(** X22.  [checkLevelCompletion] always returns the flag down and the speed
    it was given.  While the flag it is given is down it changes nothing.
    When the flag is up the level number grows by exactly one, the ball is
    put at [(0, 5, -15)] with its velocity and jump state untouched, and
    the platforms are replaced by a new level that begins with the plain
    starting platform, which lies under the ball, and holds no goal
    platform; from level 1 on the background colour index is a valid index
    into the eight colours. *)
Theorem checkLevelCompletion_spec reached level speed draws w b :
  let o := Levels.checkLevelCompletion reached level speed draws w b in
  Levels.redFlagPlatformReached (Levels.returned o) = false /\
  Levels.speed (Levels.returned o) = speed /\
  Levels.level (Levels.returned o)
  = (if reached then level + 1 else level)%Z /\
  (reached = false ->
   Levels.world o = w /\ Levels.ball o = b /\
   Levels.backgroundColorIndex o = None) /\
  (reached = true ->
   Ball.position (Levels.ball o) = mkVec3 0 5 (-15) /\
   samePhysics b (Levels.ball o) /\
   noGoalPlatform (Platform.platforms (Levels.world o)) /\
   Platform.redFlagPlatform (Levels.world o) = None /\
   (exists rest,
      Platform.platforms (Levels.world o) = Platform.startPlatform :: rest) /\
   (forall h v, 1 <= h <= 2 -> y v <= 0 ->
      Platform.collisionDetected Platform.startPlatform (mkVec3 0 h (-15)) v
      = true) /\
   ((1 <= level)%Z ->
    exists i, Levels.backgroundColorIndex o = Some i /\ (0 <= i < 8)%Z)).
Proof.
  cbv zeta. unfold Levels.checkLevelCompletion.
  destruct reached.
  - unfold Levels.progressToNextLevel.
    destruct (generateNewLevel_level (level + 1) speed draws w)
      as (Hret & Hflag & Hnone & (rest & Hrest & _) & _).
    destruct (Platform.generateNewLevel (level + 1) speed draws w)
      as [w1 levelState].
    cbn [fst snd] in *. subst levelState.
    cbn [Levels.returned Levels.redFlagPlatformReached Levels.speed
         Levels.level Levels.world Levels.ball Levels.backgroundColorIndex
         Platform.levelSpeed].
    split; [reflexivity|]. split; [reflexivity|]. split; [reflexivity|].
    split; [discriminate|]. intros _.
    split; [reflexivity|].
    split; [unfold samePhysics; repeat split|].
    split; [exact Hnone|]. split; [exact Hflag|].
    split; [exists rest; exact Hrest|].
    split; [exact startPlatform_under_new_level|].
    intros Hlevel. eexists. split; [reflexivity|].
    unfold Levels.colorIndex, Levels.backgroundColors.
    replace (level + 1 - 1)%Z with level by lia.
    apply Z.rem_bound_pos; lia.
  - cbn [Levels.returned Levels.redFlagPlatformReached Levels.speed
         Levels.level Levels.world Levels.ball Levels.backgroundColorIndex].
    repeat split; discriminate.
Qed.

(* ----------------------------------------------------------------- *)
(** ** The platform factory: lanes, kinds and sizes *)

Lemma laneX_ordered a b ja va jb vb :
  0 <= ja < 1 -> 0 <= va < 1 -> 0 <= jb < 1 -> 0 <= vb < 1 ->
  (Config.laneIndex a < Config.laneIndex b)%Z ->
  Platform.laneX a ja + (va * 2 - 1) < Platform.laneX b jb + (vb * 2 - 1).
Proof.
  intros Hja Hva Hjb Hvb.
  destruct a, b; simpl; intros H; try lia; lra.
Qed.

Lemma laneX_bounds a ja va :
  0 <= ja < 1 -> 0 <= va < 1 ->
  -41 < Platform.laneX a ja + (va * 2 - 1) < 41.
Proof.
  intros Hja Hva. destruct a; simpl; lra.
Qed.

(** The X of a platform that [createPlatform] builds comes from the band of
    its lane. *)
Lemma createPlatform_x isRedFlag level d st :
  Platform.valid_draws d ->
  let p := snd (Platform.createPlatform isRedFlag level d st) in
  exists j v,
    0 <= j < 1 /\ 0 <= v < 1 /\
    x (Platform.position p)
    = Platform.laneX (Platform.type (Platform.userData p)) j + (v * 2 - 1).
Proof.
  intros (_ & Hj & Hv & _). cbv zeta. unfold Platform.createPlatform.
  destruct (Platform.platforms st).
  - exists (1 / 2), (1 / 2). simpl. repeat split; lra.
  - exists (Platform.laneJitter d), (Platform.xVariation d).
    split; [exact Hj|]. split; [exact Hv|]. reflexivity.
Qed.

(** X23.  The lanes do not overlap: of two platforms that [createPlatform]
    builds, in whatever states and with whatever draws, the one whose lane
    comes earlier in [PLATFORM_TYPES] lies strictly to the left of the
    other.  Every platform is built with an X between -41 and 41. *)
Theorem createPlatform_lanes_ordered isRedFlag level d st
    isRedFlag' level' d' st' :
  Platform.valid_draws d -> Platform.valid_draws d' ->
  let p := snd (Platform.createPlatform isRedFlag level d st) in
  let q := snd (Platform.createPlatform isRedFlag' level' d' st') in
  -41 < x (Platform.position p) < 41 /\
  ((Config.laneIndex (Platform.type (Platform.userData p))
    < Config.laneIndex (Platform.type (Platform.userData q)))%Z ->
   x (Platform.position p) < x (Platform.position q)).
Proof.
  intros Hd Hd'. cbv zeta.
  destruct (createPlatform_x isRedFlag level d st Hd)
    as (j & v & Hj & Hv & ->).
  destruct (createPlatform_x isRedFlag' level' d' st' Hd')
    as (j' & v' & Hj' & Hv' & ->).
  split; [apply laneX_bounds; assumption|].
  apply laneX_ordered; assumption.
Qed.

Lemma createPlatform_lanes_ordered_witness :
  let st := fst (Platform.createPlatform false 1 (constantDraws (1 / 2))
                   Platform.initialState) in
  let p := snd (Platform.createPlatform false 1 (constantDraws (1 / 10)) st) in
  let q := snd (Platform.createPlatform false 1 (constantDraws (8 / 10)) st) in
  -41 < x (Platform.position p) < 41 /\
  ((Config.laneIndex (Platform.type (Platform.userData p))
    < Config.laneIndex (Platform.type (Platform.userData q)))%Z ->
   x (Platform.position p) < x (Platform.position q)).
Proof.
  intros st.
  apply (createPlatform_lanes_ordered false 1 (constantDraws (1 / 10)) st
           false 1 (constantDraws (8 / 10)) st);
    apply constantDraws_valid; lra.
Defined.

Lemma movementType_drawn (draw : R) :
  0 <= draw < 1 ->
  exists t,
    nth_error (Config.types Config.PLATFORM_MOVEMENT)
      (Z.to_nat
         (Platform.floor
            (draw * INR (length (Config.types Config.PLATFORM_MOVEMENT)))))
    = Some t.
Proof.
  intros Hd.
  pose proof (floor_index draw
                (length (Config.types Config.PLATFORM_MOVEMENT)) Hd) as Hidx.
  destruct (nth_error _ _) as [t|] eqn:E; [exists t; reflexivity|].
  apply nth_error_None in E. unfold Platform.floor in E.
  simpl length in *. lia.
Qed.

(** X24.  Only regular platforms move: a platform that [createPlatform]
    builds as a moving one is neither a goal platform nor a trampoline of
    either kind.  It is anchored where it is built, starts at a phase in
    [[0, 2 pi)] with the base speed, and always carries one of the six
    movement types, so that the update of its position knows its
    trajectory; at a level that ends in 4 the type is horizontal or
    vertical. *)
Theorem createPlatform_moving isRedFlag level d st m :
  Platform.valid_draws d ->
  let p := snd (Platform.createPlatform isRedFlag level d st) in
  Platform.movement (Platform.userData p) = Some m ->
  Platform.isRedFlagPlatform (Platform.userData p) = false /\
  Platform.bounceEffect (Platform.userData p) = None /\
  Platform.isTrampoline (Platform.userData p) = false /\
  Platform.isSlowDownTrampoline (Platform.userData p) = false /\
  Platform.originalPosition m = Platform.position p /\
  Platform.lastPosition m = Platform.position p /\
  0 <= Platform.movementProgress m < 2 * PI /\
  Platform.movementSpeed m = 0.02 /\
  exists k,
    Platform.params m = Some k /\
    (Platform.levelEndsIn level 4 = true ->
     Platform.movementTypeOf k = Config.Horizontal \/
     Platform.movementTypeOf k = Config.Vertical).
Proof.
  intros Hd. cbv zeta. unfold Platform.createPlatform.
  destruct (Platform.platforms st) as [|p0 ps]; [discriminate|].
  cbn [snd Platform.userData Platform.movement Platform.position
       Platform.isRedFlagPlatform Platform.bounceEffect
       Platform.isTrampoline Platform.isSlowDownTrampoline].
  destruct isRedFlag; [discriminate|].
  unfold Platform.platformKind. cbn [negb andb].
  destruct (Platform.platformTypeRoll d <? 0.167); [discriminate|].
  destruct (Platform.platformTypeRoll d <? 0.208); [discriminate|].
  cbn [Platform.kindBounceEffect Platform.kindIsTrampoline
       Platform.kindIsSlowDownTrampoline Platform.kindIsRoundPlatform andb].
  destruct (_ || _ || _ || _) eqn:Hmoving; [|discriminate].
  intros [= <-].
  cbn [Platform.originalPosition Platform.lastPosition
       Platform.movementProgress Platform.movementSpeed Platform.params].
  destruct Hd as (_ & _ & _ & _ & _ & _ & _ & _ & _ & _ & _ & _
                  & Htype & Hprogress & _).
  unfold Platform.unit_draw in *.
  split; [reflexivity|]. split; [reflexivity|]. split; [reflexivity|].
  split; [reflexivity|]. split; [reflexivity|]. split; [reflexivity|].
  split; [pose proof PI_RGT_0; nra|].
  split; [reflexivity|].
  destruct (Platform.levelEndsIn level 4).
  - cbn [option_map]. eexists. split; [reflexivity|]. intros _.
    destruct (Platform.movementTypeDraw d <? 0.5); [left | right];
      reflexivity.
  - destruct (movementType_drawn _ Htype) as (t & Ht).
    match goal with
    | |- context [nth_error ?l ?i] =>
        change (nth_error l i) with
          (nth_error (Config.types Config.PLATFORM_MOVEMENT)
             (Z.to_nat
                (Platform.floor
                   (Platform.movementTypeDraw d
                    * INR (length (Config.types Config.PLATFORM_MOVEMENT))))))
    end.
    rewrite Ht.
    cbn [option_map]. eexists. split; [reflexivity | discriminate].
Qed.

Lemma createPlatform_moving_witness :
  let st := fst (Platform.createPlatform false 4 (constantDraws (1 / 2))
                   Platform.initialState) in
  let p := snd (Platform.createPlatform false 4 (constantDraws (1 / 2)) st) in
  exists m,
    Platform.movement (Platform.userData p) = Some m /\
    Platform.isRedFlagPlatform (Platform.userData p) = false /\
    Platform.bounceEffect (Platform.userData p) = None /\
    Platform.isTrampoline (Platform.userData p) = false /\
    Platform.isSlowDownTrampoline (Platform.userData p) = false /\
    Platform.originalPosition m = Platform.position p /\
    Platform.lastPosition m = Platform.position p /\
    0 <= Platform.movementProgress m < 2 * PI /\
    Platform.movementSpeed m = 0.02 /\
    exists k,
      Platform.params m = Some k /\
      (Platform.levelEndsIn 4 4 = true ->
       Platform.movementTypeOf k = Config.Horizontal \/
       Platform.movementTypeOf k = Config.Vertical).
Proof.
  intros st p.
  assert (Hroll1 : (1 / 2 <? 0.167) = false) by (apply Rltb_false; lra).
  assert (Hroll2 : (1 / 2 <? 0.208) = false) by (apply Rltb_false; lra).
  assert (Hm : exists m, Platform.movement (Platform.userData p) = Some m).
  { unfold p, st, Platform.createPlatform, Platform.platformKind.
    cbn [Platform.initialState Platform.platforms fst snd app
         Platform.userData Platform.movement constantDraws
         Platform.platformTypeRoll negb andb].
    rewrite Hroll1, Hroll2.
    cbn [Platform.kindBounceEffect andb Platform.levelEndsIn].
    change (Platform.levelEndsIn 4 5) with false.
    change (Platform.levelEndsIn 4 4) with true.
    cbn [orb]. eexists. reflexivity. }
  destruct Hm as [m Hm]. exists m. split; [exact Hm|].
  apply (createPlatform_moving false 4 (constantDraws (1 / 2)) st m).
  - apply constantDraws_valid. lra.
  - exact Hm.
Defined.

(** X25.  Every platform that [createPlatform] builds is at most 30 wide
    and 50 deep (the goal disc is 24 across), so that none reaches farther
    than 30 behind its centre: the clean-up of the game loop, with its
    distance of 30, cannot take a platform from under the ball. *)
Theorem createPlatform_sizes isRedFlag level d st :
  Platform.valid_draws d ->
  let p := snd (Platform.createPlatform isRedFlag level d st) in
  4 <= Platform.width (Platform.userData p) <= 30 /\
  4 <= Platform.depth (Platform.userData p) <= 50 /\
  (Platform.isRoundPlatform (Platform.userData p) = true ->
   Platform.radius (Platform.userData p) = 12 /\
   Platform.width (Platform.userData p) = 24 /\
   Platform.depth (Platform.userData p) = 24) /\
  withinReach 30 p.
Proof.
  intros (_ & _ & _ & _ & _ & _ & _ & Hw & Hdp & _). cbv zeta.
  unfold Platform.unit_draw in *.
  unfold Platform.createPlatform, withinReach.
  destruct (Platform.platforms st) as [|p0 ps].
  - simpl. repeat split; try lra; discriminate.
  - cbn [snd Platform.userData Platform.width Platform.depth Platform.radius
         Platform.isRoundPlatform].
    unfold Platform.platformKind.
    destruct isRedFlag.
    + cbn [Platform.kindIsRoundPlatform Platform.kindPlatformRadius].
      split; [lra|]. split; [lra|].
      split; [intros _; repeat split; lra|].
      rewrite Rabs_pos_eq; lra.
    + destruct (Platform.platformTypeRoll d <? 0.167);
        [|destruct (Platform.platformTypeRoll d <? 0.208)];
        cbn [Platform.kindIsRoundPlatform Platform.kindPlatformRadius];
        destruct (Platform.longRoll d <? 0.2);
        (split; [lra|]); (split; [lra|]); (split; [discriminate|]); lra.
Qed.

Lemma createPlatform_sizes_witness :
  let p := snd (Platform.createPlatform true 1 (constantDraws (1 / 2))
                  (fst (Platform.createPlatform false 1
                          (constantDraws (1 / 2)) Platform.initialState))) in
  4 <= Platform.width (Platform.userData p) <= 30 /\
  4 <= Platform.depth (Platform.userData p) <= 50 /\
  (Platform.isRoundPlatform (Platform.userData p) = true ->
   Platform.radius (Platform.userData p) = 12 /\
   Platform.width (Platform.userData p) = 24 /\
   Platform.depth (Platform.userData p) = 24) /\
  withinReach 30 p.
Proof.
  apply (createPlatform_sizes true 1 (constantDraws (1 / 2))).
  apply constantDraws_valid. lra.
Defined.

(* ----------------------------------------------------------------- *)
(** ** The range of a moving platform *)

Lemma abs_sin_scaled a r : Rabs (sin a * r) <= Rabs r.
Proof.
  rewrite Rabs_mult.
  assert (H : Rabs (sin a) <= 1).
  { apply Rabs_le. pose proof (SIN_bound a). lra. }
  pose proof (Rabs_pos r). nra.
Qed.

Lemma abs_cos_scaled a r : Rabs (cos a * r) <= Rabs r.
Proof.
  rewrite Rabs_mult.
  assert (H : Rabs (cos a) <= 1).
  { apply Rabs_le. pose proof (COS_bound a). lra. }
  pose proof (Rabs_pos r). nra.
Qed.

Lemma abs_zero_iff a : Rabs a <= 0 -> a = 0.
Proof.
  unfold Rabs. destruct (Rcase_abs a); lra.
Qed.

Lemma trajectory_within k o pos progress :
  within o (reach k) pos ->
  within o (reach k) (Platform.trajectory (Some k) o pos progress).
Proof.
  unfold within. intros (Hx & Hy & Hz).
  destruct k as [r | r | rx ry dir | r | sx sy | l [|]];
    cbn [Platform.trajectory reach x y z] in *;
    repeat split; try assumption;
    match goal with
    | |- Rabs (?o + ?s - ?o) <= _ =>
        replace (o + s - o) with s by ring
    end.
  - apply abs_sin_scaled.
  - apply abs_sin_scaled.
  - rewrite Rmult_assoc. apply abs_sin_scaled.
  - apply abs_sin_scaled.
  - apply abs_cos_scaled.
  - apply abs_sin_scaled.
  - apply abs_sin_scaled.
  - unfold Rdiv. rewrite Rabs_mult, (Rabs_pos_eq (/ 2)) by lra.
    pose proof (abs_sin_scaled (progress * 2) sy). lra.
  - apply abs_sin_scaled.
  - apply abs_sin_scaled.
Qed.

Lemma updatesOf_moving deltas : forall p m k,
  Platform.movement (Platform.userData p) = Some m ->
  Platform.params m = Some k ->
  within (Platform.originalPosition m) (reach k) (Platform.position p) ->
  within (Platform.originalPosition m) (reach k)
         (Platform.position (updatesOf deltas p)) /\
  exists m',
    Platform.movement (Platform.userData (updatesOf deltas p)) = Some m' /\
    Platform.originalPosition m' = Platform.originalPosition m /\
    Platform.params m' = Some k /\
    Platform.movementSpeed m' = Platform.movementSpeed m /\
    Platform.movementProgress m'
    = Platform.movementProgress m
      + Platform.movementSpeed m * elapsed deltas * 60.
Proof.
  unfold updatesOf.
  induction deltas as [|deltaTime deltas IH]; intros p m k Hm Hk Hin.
  - simpl. split; [exact Hin|]. exists m.
    repeat split; try assumption. unfold elapsed. simpl. lra.
  - cbn [fold_left].
    rewrite (updateMovingPlatform_moving deltaTime p m Hm).
    match goal with
    | |- context [Platform.setMovement p ?pos ?m1] =>
        destruct (IH (Platform.setMovement p pos m1) m1 k)
          as [Hin' (m' & H1 & H2 & H3 & H4 & H5)]
    end.
    + reflexivity.
    + cbn [Platform.params]. exact Hk.
    + cbn [Platform.originalPosition Platform.setMovement Platform.position].
      rewrite Hk. apply trajectory_within, Hin.
    + cbn [Platform.originalPosition Platform.movementSpeed
           Platform.movementProgress] in *.
      split; [exact Hin'|]. exists m'.
      split; [exact H1|]. split; [exact H2|]. split; [exact H3|].
      split; [exact H4|]. rewrite H5. unfold elapsed. simpl. lra.
Qed.

(** X26.  A moving platform never strays from its anchor by more than its
    range: after any number of [updateMovingPlatforms] calls, with any time
    steps, it is within its reach of the position it was anchored at, along
    each axis (a horizontal platform keeps its height and depth, an orbital
    one its height, and so on).  The anchor, the kind and the speed of the
    movement do not change, and the phase has advanced by
    [speed * 60] times the time elapsed. *)
Theorem moving_platform_stays_in_range deltas p m k :
  Platform.movement (Platform.userData p) = Some m ->
  Platform.params m = Some k ->
  within (Platform.originalPosition m) (reach k) (Platform.position p) ->
  within (Platform.originalPosition m) (reach k)
         (Platform.position (updatesOf deltas p)) /\
  exists m',
    Platform.movement (Platform.userData (updatesOf deltas p)) = Some m' /\
    Platform.originalPosition m' = Platform.originalPosition m /\
    Platform.params m' = Some k /\
    Platform.movementSpeed m' = Platform.movementSpeed m /\
    Platform.movementProgress m'
    = Platform.movementProgress m
      + Platform.movementSpeed m * elapsed deltas * 60.
Proof.
  apply updatesOf_moving.
Qed.

(* ----------------------------------------------------------------- *)
(** ** The triple tap and the touch buttons *)

Lemma sameGrab_trans s s' s'' :
  sameGrab s s' -> sameGrab s' s'' -> sameGrab s s''.
Proof.
  unfold sameGrab. intuition congruence.
Qed.

Lemma onKeyDownArrowUp_over upNow s :
  Game.gameOver (Session.game s) = true ->
  Session.onKeyDownArrowUp upNow s = s.
Proof.
  intros H. unfold Session.onKeyDownArrowUp. rewrite H. reflexivity.
Qed.

Lemma onKeyDownArrowUp_no_tap upNow s t0 t1 t2 :
  Session.upPressTimes s = (t0, t1, t2) ->
  Game.gameOver (Session.game s) = false ->
  t1 <= 0 \/ 300 <= t2 - t1 \/ 300 <= upNow - t2 ->
  sameGrab s (Session.onKeyDownArrowUp upNow s) /\
  Session.upPressTimes (Session.onKeyDownArrowUp upNow s) = (t1, t2, upNow).
Proof.
  intros Htimes Hover Hslow. unfold Session.onKeyDownArrowUp.
  rewrite Hover.
  cbn [Session.withGame Session.upPressTimes]. rewrite Htimes.
  assert (Hno : (0 <? t1) && (t2 - t1 <? Config.grabDoubleTapWindow)
                && (upNow - t2 <? Config.grabDoubleTapWindow) = false).
  { unfold Config.grabDoubleTapWindow.
    destruct Hslow as [H | [H | H]].
    - rewrite (proj2 (Rltb_false 0 t1)) by lra. reflexivity.
    - rewrite (proj2 (Rltb_false (t2 - t1) 300)) by lra.
      apply andb_false_intro1, andb_false_r.
    - rewrite (proj2 (Rltb_false (upNow - t2) 300)) by lra.
      apply andb_false_r. }
  rewrite Hno.
  split; [unfold sameGrab; repeat split | reflexivity].
Qed.

Lemma onKeyDownArrowUp_tap upNow s t0 t1 t2 :
  Session.upPressTimes s = (t0, t1, t2) ->
  Game.gameOver (Session.game s) = false ->
  Abilities.canUseGrab (Session.abilities s) = true ->
  Game.ballReleased (Session.game s) = true ->
  0 < t1 -> t2 - t1 < 300 -> upNow - t2 < 300 ->
  let s' := Session.onKeyDownArrowUp upNow s in
  Session.grabCount s' = (Session.grabCount s - 1)%Z /\
  Game.isGrabbing (Session.game s') = true /\
  Game.isPaused (Session.game s') = true /\
  Game.ball (Session.game s') = Game.ball (Session.game s) /\
  forall ship,
    Game.spaceship (Session.game s) = Some ship ->
    let p := Ball.position (Game.ball (Session.game s)) in
    Game.spaceship (Session.game s') = Some (mkVec3 (x p) (y p + 1) (z p)).
Proof.
  intros Htimes Hover Hcan Hreleased Hfirst Hgap1 Hgap2.
  destruct s as [g count height times].
  destruct g as [b w keys grabbing ship held jet speed over started released
                 paused fuel active reached].
  unfold Abilities.canUseGrab, Session.abilities in Hcan.
  simpl in Htimes, Hover, Hcan, Hreleased. subst times over released.
  unfold Session.onKeyDownArrowUp. simpl.
  unfold Config.grabDoubleTapWindow.
  rewrite (proj2 (Rltb_true 0 t1)) by lra.
  rewrite (proj2 (Rltb_true (t2 - t1) 300)) by lra.
  rewrite (proj2 (Rltb_true (upNow - t2) 300)) by lra.
  unfold Abilities.canUseGrab, Session.abilities. simpl.
  rewrite Hcan. simpl.
  unfold Session.executeGrab, Abilities.executeGrab, Abilities.canUseGrab,
    Session.abilities. simpl.
  rewrite Hcan. simpl.
  unfold Claw.setClawPosition. simpl.
  destruct ship as [ship|]; simpl;
    (split; [reflexivity|]); (split; [reflexivity|]);
    (split; [reflexivity|]); (split; [reflexivity|]).
  - intros ship0 _. f_equal. f_equal. lra.
  - intros ship0 Hs. discriminate.
Qed.

(** X27.  The triple tap of the up arrow.  After [resetKeys()] neither the
    first nor the second press of the up arrow can start a grab, whenever
    they come.  A third press starts one when the first came after time 0,
    each press came less than 300 ms after the one before, a grab is
    available, the ball is released and the game is not over: it spends a
    grab, pauses the game and puts the ship just above the ball.  A third
    press that comes 300 ms or more after the second starts nothing. *)
Theorem triple_tap_grab (t1 t2 t3 : R) (s : Session.t) :
  let s0 := Session.resetKeys s in
  let s1 := Session.onKeyDownArrowUp t1 s0 in
  let s2 := Session.onKeyDownArrowUp t2 s1 in
  let s3 := Session.onKeyDownArrowUp t3 s2 in
  sameGrab s s1 /\ sameGrab s s2 /\
  (300 <= t3 - t2 -> sameGrab s s3) /\
  (Game.gameOver (Session.game s) = false ->
   Abilities.canUseGrab (Session.abilities s) = true ->
   Game.ballReleased (Session.game s) = true ->
   0 < t1 -> t2 - t1 < 300 -> t3 - t2 < 300 ->
   Session.grabCount s3 = (Session.grabCount s - 1)%Z /\
   Game.isGrabbing (Session.game s3) = true /\
   Game.isPaused (Session.game s3) = true /\
   Game.ball (Session.game s3) = Game.ball (Session.game s) /\
   forall ship,
     Game.spaceship (Session.game s) = Some ship ->
     let p := Ball.position (Game.ball (Session.game s)) in
     Game.spaceship (Session.game s3) = Some (mkVec3 (x p) (y p + 1) (z p))).
Proof.
  cbv zeta.
  assert (H0 : sameGrab s (Session.resetKeys s))
    by (unfold sameGrab; repeat split).
  destruct (Game.gameOver (Session.game s)) eqn:Hover.
  - (* the game is over: the presses do nothing *)
    assert (Hover0 : Game.gameOver (Session.game (Session.resetKeys s))
                     = true) by exact Hover.
    rewrite !(onKeyDownArrowUp_over _ _ Hover0).
    split; [exact H0|]. split; [exact H0|]. split; [intros _; exact H0|].
    discriminate.
  - assert (Hover0 : Game.gameOver (Session.game (Session.resetKeys s))
                     = false) by exact Hover.
    destruct (onKeyDownArrowUp_no_tap t1 (Session.resetKeys s) 0 0 0
                eq_refl Hover0) as (H1 & Ht1); [left; lra|].
    set (s1 := Session.onKeyDownArrowUp t1 (Session.resetKeys s)) in *.
    pose proof (sameGrab_trans _ _ _ H0 H1) as Hs1.
    assert (Hover1 : Game.gameOver (Session.game s1) = false).
    { destruct Hs1 as (_ & _ & _ & _ & -> & _). exact Hover. }
    destruct (onKeyDownArrowUp_no_tap t2 s1 0 0 t1 Ht1 Hover1)
      as (H2 & Ht2); [left; lra|].
    set (s2 := Session.onKeyDownArrowUp t2 s1) in *.
    pose proof (sameGrab_trans _ _ _ Hs1 H2) as Hs2.
    assert (Hover2 : Game.gameOver (Session.game s2) = false).
    { destruct Hs2 as (_ & _ & _ & _ & -> & _). exact Hover. }
    split; [exact Hs1|]. split; [exact Hs2|].
    split.
    + intros Hslow.
      destruct (onKeyDownArrowUp_no_tap t3 s2 0 t1 t2 Ht2 Hover2) as (H3 & _);
        [right; right; exact Hslow|].
      exact (sameGrab_trans _ _ _ Hs2 H3).
    + intros _ Hcan Hreleased Hfirst Hgap1 Hgap2.
      destruct Hs2 as (Hcount & Hgrab & Hpaused & Hrel & _ & Hball & Hship).
      destruct (onKeyDownArrowUp_tap t3 s2 0 t1 t2 Ht2 Hover2)
        as (G1 & G2 & G3 & G4 & G5); try assumption.
      * revert Hcan. unfold Abilities.canUseGrab, Session.abilities.
        cbn [Abilities.grabCount Abilities.isGrabbing].
        rewrite Hcount, Hgrab. exact (fun H => H).
      * rewrite Hrel. exact Hreleased.
      * rewrite G1, Hcount, G4, Hball.
        split; [reflexivity|]. split; [exact G2|]. split; [exact G3|].
        split; [reflexivity|].
        intros ship Hs. cbv zeta. rewrite <- Hball.
        apply (G5 ship). rewrite Hship. exact Hs.
Qed.

Ltac split_ifs :=
  repeat match goal with
         | |- context [if ?c then _ else _] =>
             let E := fresh "E" in destruct c eqn:E; simpl
         end.

(** X28.  The jump button of the touch screen does what the space key
    does.  When the copies in [window.gameState] are current and the button
    is held exactly when the space key counts as held, a touch of the
    button leaves the same game as a press of the space key, up to the
    keys themselves: the keyboard keys are untouched and the virtual space
    key is pressed exactly when the space key would be.  The end of the
    touch and the release of the space key agree in the same way, and
    both leave their key released. *)
Theorem touch_jump_as_space_key (s : Touch.t) :
  Touch.gameState s = Touch.snapshot (Touch.game s) ->
  Touch.jumpActive (Touch.touch s) = Keys.space (Game.keys (Touch.game s)) ->
  let g := Touch.game s in
  let viaKey := Controls.onKeyDownSpace g in
  let viaTouch := Touch.handleJumpTouchStart s in
  let upKey := Controls.onKeyUpSpace g in
  let upTouch := Touch.handleJumpTouchEnd s in
  (Game.setKeys (Game.keys viaKey) (Touch.game viaTouch) = viaKey /\
   Game.keys (Touch.game viaTouch) = Game.keys g /\
   exists pressed,
     Keys.space (Game.keys viaKey) = Keys.space (Game.keys g) || pressed /\
     Keys.space (Touch.virtualKeys (Touch.touch viaTouch))
     = Keys.space (Touch.virtualKeys (Touch.touch s)) || pressed) /\
  (Game.setKeys (Game.keys upKey) (Touch.game upTouch) = upKey /\
   Game.keys (Touch.game upTouch) = Game.keys g /\
   Keys.space (Game.keys upKey) = false /\
   Keys.space (Touch.virtualKeys (Touch.touch upTouch)) = false /\
   Touch.jumpActive (Touch.touch upTouch) = false).
Proof.
  destruct s as [g ts gs].
  destruct g as [b w keys grabbing ship held jet speed over started released
                 paused fuel active reached].
  destruct ts as [jumpActive leftActive rightActive vk].
  destruct keys as [kl kr ku kd ks]. destruct vk as [vl vr vu vd vs].
  unfold Touch.snapshot. simpl. intros -> ->. cbv zeta.
  split.
  - unfold Controls.onKeyDownSpace, Touch.handleJumpTouchStart,
      Controls.jumpInput, Touch.jumpInput, Controls.doJump, Touch.doJump,
      Game.isOnPlatform.
    simpl.
    destruct over; simpl.
    { split; [reflexivity|]. split; [reflexivity|].
      exists false. now rewrite !orb_false_r. }
    destruct started; simpl;
      (destruct grabbing; simpl;
       [ destruct ship; simpl;
         (split; [reflexivity|]); (split; [reflexivity|]);
         exists false; now rewrite !orb_false_r |]);
      (destruct released; simpl;
       [| (split; [reflexivity|]); (split; [reflexivity|]);
          exists true; now rewrite !orb_true_r ]);
      (destruct (0 <? fuel)%Z eqn:Efuel; simpl;
       [ rewrite ?Efuel; simpl;
         (split; [reflexivity|]); (split; [reflexivity|]);
         exists false; now rewrite !orb_false_r |]);
      split_ifs;
      (split; [reflexivity|]); (split; [reflexivity|]);
      first [ exists true; now rewrite !orb_true_r
            | exists false; now rewrite !orb_false_r ].
  - unfold Controls.onKeyUpSpace, Touch.handleJumpTouchEnd. simpl.
    split_ifs; repeat split; reflexivity.
Qed.

(* ----------------------------------------------------------------- *)
(** ** The platforms of the next level *)

Lemma insertByZ_In p l q :
  In q (Main.insertByZ p l) <-> q = p \/ In q l.
Proof.
  induction l as [|a l IH]; simpl.
  - intuition.
  - destruct (z (Platform.position p) <=? z (Platform.position a)); simpl.
    + intuition.
    + rewrite IH. intuition.
Qed.

Lemma insertByZ_ascending p l :
  ascendingZ l -> ascendingZ (Main.insertByZ p l).
Proof.
  induction l as [|a l IH]; simpl.
  - intros _. split; [constructor | exact I].
  - intros [Ha Hl].
    destruct (z (Platform.position p) <=? z (Platform.position a)) eqn:E.
    + apply Rleb_true in E. simpl. split; [|split; assumption].
      constructor; [exact E|].
      rewrite Forall_forall in *. intros q Hq. specialize (Ha q Hq). lra.
    + apply Rleb_false in E. simpl. split; [|exact (IH Hl)].
      rewrite Forall_forall in *. intros q Hq.
      apply insertByZ_In in Hq. destruct Hq as [-> | Hq]; [lra|].
      exact (Ha q Hq).
Qed.

Lemma insertByZ_length p l :
  length (Main.insertByZ p l) = S (length l).
Proof.
  induction l as [|a l IH]; simpl; [reflexivity|].
  destruct (z (Platform.position p) <=? z (Platform.position a)); simpl;
    [reflexivity | now rewrite IH].
Qed.

Lemma sortByZ_spec l :
  ascendingZ (Main.sortByZ l) /\
  (forall q, In q (Main.sortByZ l) <-> In q l) /\
  length (Main.sortByZ l) = length l.
Proof.
  induction l as [|p l (IH1 & IH2 & IH3)]; simpl.
  - split; [exact I|]. split; [intuition | reflexivity].
  - split; [apply insertByZ_ascending, IH1|].
    split.
    + intros q. rewrite insertByZ_In, IH2. intuition.
    + now rewrite insertByZ_length, IH3.
Qed.

(** Every platform that a run of calls creates lies at least 6 beyond the
    frontier the run started from, and the run does not move the frontier
    back. *)
Lemma createPlatforms_ahead calls : forall st,
  Forall validCall calls ->
  Platform.platforms st <> [] ->
  Forall (fun p => z (Platform.position p)
                   <= z (Platform.lastPlatformPosition st) - 6)
         (snd (Platform.createPlatforms calls st)) /\
  z (Platform.lastPlatformPosition (fst (Platform.createPlatforms calls st)))
  <= z (Platform.lastPlatformPosition st) /\
  Platform.platforms (fst (Platform.createPlatforms calls st)) <> [].
Proof.
  induction calls as [|c calls IH]; intros st Hvalid Hne.
  - simpl. split; [constructor|]. split; [lra | exact Hne].
  - inversion Hvalid as [|c' calls' Hc Hcalls]; subst.
    rewrite createPlatforms_cons. cbn [fst snd]. unfold createCall.
    destruct (createPlatform_advance (Platform.callIsRedFlag c)
                (Platform.callLevel c) (Platform.callDraws c) st Hne)
      as [Hz Hne'].
    destruct (createPlatform_tracks (Platform.callIsRedFlag c)
                (Platform.callLevel c) (Platform.callDraws c) st)
      as (_ & Hpos & _).
    destruct (IH _ Hcalls Hne') as (IH1 & IH2 & IH3).
    unfold validCall, Platform.valid_draws, Platform.unit_draw in Hc.
    destruct Hc as (_ & _ & _ & _ & _ & Hgap & _).
    split; [|split; [lra | exact IH3]].
    constructor.
    + rewrite <- Hpos, Hz. lra.
    + rewrite Forall_forall in *. intros q Hq. specialize (IH1 q Hq). lra.
Qed.

Lemma loopCalls_facts level draws first n :
  (forall i, Platform.valid_draws (draws i)) ->
  Forall validCall (Main.loopCalls level draws first n) /\
  regularCalls (Main.loopCalls level draws first n) /\
  length (Main.loopCalls level draws first n) = n.
Proof.
  intros Hvalid. unfold Main.loopCalls.
  split; [apply loop_calls_valid, Hvalid|].
  split; [apply loop_calls_regular|].
  now rewrite length_map, length_seq.
Qed.

(** X29.  [addPlatformsForNextLevel] sorts the platforms of the game by
    ascending Z, keeping every one of them, and appends
    [30 + 5 * floor(level / 2)] new platforms, none of them a goal platform.
    Every new platform lies at least 26 beyond every platform that was
    there before. *)
Theorem addPlatformsForNextLevel_spec level startDraws draws st :
  (forall i, Platform.valid_draws (draws i)) ->
  Platform.platforms st <> [] ->
  (0 <= level)%Z ->
  let st' := Main.addPlatformsForNextLevel level startDraws draws st in
  exists created,
    Platform.platforms st'
    = Main.sortByZ (Platform.platforms st) ++ created /\
    ascendingZ (Main.sortByZ (Platform.platforms st)) /\
    (forall p, In p (Main.sortByZ (Platform.platforms st))
               <-> In p (Platform.platforms st)) /\
    length created = Z.to_nat (30 + 5 * (level / 2)) /\
    noGoalPlatform created /\
    (forall old new,
       In old (Platform.platforms st) -> In new created ->
       z (Platform.position new) <= z (Platform.position old) - 26).
Proof.
  intros Hvalid Hne Hlevel. cbv zeta.
  destruct (sortByZ_spec (Platform.platforms st)) as (Hasc & Hin & Hlen).
  unfold Main.addPlatformsForNextLevel.
  destruct (Platform.platforms st) as [|p0 ps] eqn:Hps; [congruence|].
  cbv zeta.
  destruct (Main.sortByZ (p0 :: ps)) as [|f rest] eqn:Hsort;
    [discriminate|].
  set (n := Z.to_nat (Config.platformsPerLevel Config.GAME_SETTINGS
                      + level / 2 * 5)).
  set (st1 := Platform.setLastPlatformState _ _ _).
  destruct (loopCalls_facts level draws 0 n Hvalid) as (Hv1 & Hr1 & Hl1).
  destruct (loopCalls_facts level draws n 10 Hvalid) as (Hv2 & Hr2 & Hl2).
  set (calls1 := Main.loopCalls level draws 0 n) in *.
  set (calls2 := Main.loopCalls level draws n 10) in *.
  clearbody calls1 calls2.
  assert (Hne1 : Platform.platforms st1 <> []) by discriminate.
  assert (Hplat1 : Platform.platforms st1 = f :: rest) by reflexivity.
  destruct (createPlatforms_ahead calls1 st1 Hv1 Hne1) as (A1 & B1 & C1).
  destruct (createPlatforms_regular calls1 st1 Hr1) as [_ N1].
  set (st2 := fst (Platform.createPlatforms calls1 st1)) in *.
  destruct (createPlatforms_ahead calls2 st2 Hv2 C1) as (A2 & _ & _).
  destruct (createPlatforms_regular calls2 st2 Hr2) as [_ N2].
  exists (snd (Platform.createPlatforms calls1 st1)
          ++ snd (Platform.createPlatforms calls2 st2)).
  split.
  { rewrite createPlatforms_platforms. unfold st2.
    rewrite createPlatforms_platforms, Hplat1. now rewrite <- app_assoc. }
  split; [exact Hasc|]. split; [exact Hin|].
  split.
  { rewrite length_app, !createPlatforms_length, Hl1, Hl2. unfold n.
    change (Config.platformsPerLevel Config.GAME_SETTINGS) with 20%Z.
    assert (0 <= level / 2)%Z by (apply Z.div_pos; lia). lia. }
  split.
  { unfold noGoalPlatform in *. apply Forall_app. split; assumption. }
  intros old new Hold Hnew.
  assert (Hf : z (Platform.position f) <= z (Platform.position old)).
  { apply Hin in Hold. destruct Hold as [<- | Hold]; [lra|].
    destruct Hasc as [Hhead _]. rewrite Forall_forall in Hhead.
    exact (Hhead old Hold). }
  assert (Hz1 : z (Platform.lastPlatformPosition st1)
                = z (Platform.position f) - 20) by reflexivity.
  apply in_app_or in Hnew. destruct Hnew as [Hnew | Hnew].
  - rewrite Forall_forall in A1. specialize (A1 new Hnew). lra.
  - rewrite Forall_forall in A2. specialize (A2 new Hnew). lra.
Qed.

Lemma addPlatformsForNextLevel_spec_witness :
  let draws := fun _ : nat => constantDraws (1 / 2) in
  let st := {| Platform.platforms :=
                 [Platform.startingTrampoline; Platform.startPlatform];
               Platform.lastPlatformPosition := mkVec3 0 0 0;
               Platform.lastPlatformType := Config.Center;
               Platform.redFlagPlatform := None |} in
  let st' := Main.addPlatformsForNextLevel 2 draws draws st in
  exists created,
    Platform.platforms st'
    = Main.sortByZ (Platform.platforms st) ++ created /\
    ascendingZ (Main.sortByZ (Platform.platforms st)) /\
    (forall p, In p (Main.sortByZ (Platform.platforms st))
               <-> In p (Platform.platforms st)) /\
    length created = Z.to_nat (30 + 5 * (2 / 2)) /\
    noGoalPlatform created /\
    (forall old new,
       In old (Platform.platforms st) -> In new created ->
       z (Platform.position new) <= z (Platform.position old) - 26).
Proof.
  intros draws st.
  apply (addPlatformsForNextLevel_spec 2 draws draws st).
  - intros i. apply constantDraws_valid. lra.
  - discriminate.
  - lia.
Defined.

(* ----------------------------------------------------------------- *)
(** ** The jump charge *)

Lemma first_jump_uncharged g :
  Main.jumpMade g = Some Controls.FirstJump ->
  jumpingUncharged (Game.ball (Main.run Main.KeyDownSpace g)).
Proof.
  intros H. unfold Main.run. rewrite onKeyDownSpace_ball, H.
  split; reflexivity.
Qed.

Lemma run_jumpingUncharged op g :
  jumpingUncharged (Game.ball g) ->
  match op with
  | Main.HandlePlatformCollisions => Main.lands g = false
  | Main.Restart _ => False
  | _ => True
  end ->
  jumpingUncharged (Game.ball (Main.run op g)).
Proof.
  intros [Hj Hc] Hop. unfold jumpingUncharged.
  destruct op; try contradiction;
    try (split; [exact Hj | exact Hc]).
  - (* KeyDownSpace *)
    unfold Main.run. rewrite onKeyDownSpace_ball.
    destruct (Main.jumpMade g) as [[| |]|].
    + split; reflexivity.
    + split; [exact Hj | exact Hc].
    + split; [exact Hj | exact Hc].
    + destruct (negb (Game.gameOver g) && Game.isGrabbing g);
        [|split; [exact Hj | exact Hc]].
      unfold Game.endGrab. destruct (Game.spaceship g);
        split; [exact Hj | exact Hc | exact Hj | exact Hc].
  - (* KeyUpSpace *)
    unfold Main.run, Controls.onKeyUpSpace.
    cbn [Game.keys Game.ball Game.setJetpackActive].
    destruct (Keys.space (Game.keys g) && Ball.isJumping (Game.ball g));
      split; [exact Hj | exact Hc | exact Hj | exact Hc].
  - (* UpdateBallPosition *)
    unfold Main.run, Main.stepBall, Ball.updateBallPosition.
    cbn [Game.ball Game.setBall Ball.isJumping Ball.jumpChargeTime].
    rewrite Hj. cbn [negb]. rewrite andb_false_r. cbn [andb].
    split; [reflexivity | exact Hc].
  - (* UpdateJetpack *)
    unfold Main.run, Main.stepJetpack, Jetpack.updateJetpack.
    destruct (negb (Game.jetpack g)); [split; [exact Hj | exact Hc]|].
    destruct (Game.isJetpackActive g && (0 <? Game.jetpackFuel g)%Z);
      [|split; [exact Hj | exact Hc]].
    destruct (Game.jetpackFuel g =? 1)%Z;
      split; try reflexivity; try exact Hj; exact Hc.
  - (* HandlePlatformCollisions *)
    unfold Main.lands, Game.isOnPlatform, Collision.isOnPlatform in Hop.
    unfold Main.run. rewrite stepCollisions_ball.
    unfold Collision.handlePlatformCollisions, Ball.applyPlatformEffects.
    rewrite Hop.
    destruct (Platform.Info.onPlatform _); cbn [Collision.ball].
    + repeat match goal with
             | |- context [match ?o with Some _ => _ | None => _ end] =>
                 destruct o
             end; split; try exact Hj; exact Hc.
    + split; [exact Hj | exact Hc].
  - (* FallCheck *)
    unfold Main.run, Main.stepFallCheck.
    destruct (Collision.checkFallOutOfBounds _ _ _);
      split; [exact Hj | exact Hc | exact Hj | exact Hc].
Qed.

Lemma flightRun_jumpingUncharged ops : forall g,
  jumpingUncharged (Game.ball g) ->
  Main.flightRun ops g ->
  jumpingUncharged (Game.ball (Main.runs ops g)).
Proof.
  induction ops as [|op ops IH]; intros g Hg Hrun; [exact Hg|].
  destruct Hrun as [Hop Hrest]. cbn [Main.runs].
  apply IH; [|exact Hrest].
  apply run_jumpingUncharged; [exact Hg|].
  destruct op; try exact I; exact Hop.
Qed.

(** X30.  Holding the space key never makes a jump higher.  After a first
    jump, for as long as the ball neither lands nor the game is restarted,
    whatever else happens, the ball carries no jump charge, so that the
    release of the space key adds no force: it leaves the velocity of the
    ball as it is. *)
Theorem jump_charge_adds_nothing ops g :
  Main.jumpMade g = Some Controls.FirstJump ->
  Main.flightRun ops (Main.run Main.KeyDownSpace g) ->
  let g' := Main.runs ops (Main.run Main.KeyDownSpace g) in
  Ball.isJumping (Game.ball g') = true /\
  Ball.jumpChargeTime (Game.ball g') = 0 /\
  Ball.ballVelocity (Game.ball (Main.run Main.KeyUpSpace g'))
  = Ball.ballVelocity (Game.ball g').
Proof.
  intros Hjump Hflight. cbv zeta.
  destruct (flightRun_jumpingUncharged ops _
              (first_jump_uncharged g Hjump) Hflight) as [Hj Hc].
  split; [exact Hj|]. split; [exact Hc|].
  set (g' := Main.runs ops (Main.run Main.KeyDownSpace g)) in *.
  clearbody g'.
  unfold Main.run, Controls.onKeyUpSpace. simpl.
  destruct (Keys.space _ && Ball.isJumping _); simpl; [|reflexivity].
  rewrite Hc.
  destruct (Ball.ballVelocity (Game.ball g')) as [vx vy vz]. simpl.
  f_equal. cases_minmax; lra.
Qed.

Lemma jump_charge_adds_nothing_witness :
  let ops := [Main.UpdateBallPosition (1 / 60); Main.UpdateJetpack] in
  let g' := Main.runs ops (Main.run Main.KeyDownSpace fellOff) in
  Ball.isJumping (Game.ball g') = true /\
  Ball.jumpChargeTime (Game.ball g') = 0 /\
  Ball.ballVelocity (Game.ball (Main.run Main.KeyUpSpace g'))
  = Ball.ballVelocity (Game.ball g').
Proof.
  intros ops.
  apply (jump_charge_adds_nothing ops fellOff).
  - reflexivity.
  - split; [exact I|]. split; [exact I | exact I].
Defined.

(* ----------------------------------------------------------------- *)
(** ** Instances *)

Lemma grab_aim_release_witness :
  let inputs :=
    [{| Keys.left := false; Keys.right := false; Keys.up := true;
        Keys.down := false; Keys.space := false |}] in
  let p := Ball.position (Game.ball (Session.game grabReady)) in
  let s' :=
    Session.onKeyDownSpace
      (Session.aim inputs (Session.executeGrab grabReady)) in
  exists h,
    Ball.position (Game.ball (Session.game s')) = mkVec3 (x p) h (z p) /\
    y p + 1 <= h <= y p + 21 /\
    Ball.ballVelocity (Game.ball (Session.game s')) = mkVec3 0 0 0 /\
    Game.isGrabbing (Session.game s') = false /\
    Game.isPaused (Session.game s') = false /\
    Session.grabCount s' = (Session.grabCount grabReady - 1)%Z.
Proof.
  intros inputs.
  exact (grab_aim_release inputs grabReady (mkVec3 0 15 0)
           eq_refl eq_refl eq_refl).
Defined.

Lemma moving_platform_stays_in_range_witness :
  let p := horizontalPlatform 10 0.02 in
  let m := {| Platform.originalPosition := mkVec3 0 0 0;
              Platform.movementProgress := 0;
              Platform.movementSpeed := 0.02;
              Platform.lastPosition := mkVec3 0 0 0;
              Platform.params := Some (Platform.MHorizontal 10) |} in
  let k := Platform.MHorizontal 10 in
  let deltas := [1 / 60; 1 / 60] in
  within (Platform.originalPosition m) (reach k)
         (Platform.position (updatesOf deltas p)) /\
  exists m',
    Platform.movement (Platform.userData (updatesOf deltas p)) = Some m' /\
    Platform.originalPosition m' = Platform.originalPosition m /\
    Platform.params m' = Some k /\
    Platform.movementSpeed m' = Platform.movementSpeed m /\
    Platform.movementProgress m'
    = Platform.movementProgress m
      + Platform.movementSpeed m * elapsed deltas * 60.
Proof.
  intros p m k deltas.
  apply (moving_platform_stays_in_range deltas p m k).
  - reflexivity.
  - reflexivity.
  - unfold within, reach, k, p, m, horizontalPlatform, Platform.setMovement.
    cbn [Platform.position Platform.originalPosition x y z].
    replace (0 - 0) with 0 by lra. rewrite Rabs_R0.
    split; [apply Rabs_pos | split; lra].
Defined.

Lemma touch_jump_as_space_key_witness :
  let g := Touch.game touchInFlight in
  let viaKey := Controls.onKeyDownSpace g in
  let viaTouch := Touch.handleJumpTouchStart touchInFlight in
  let upKey := Controls.onKeyUpSpace g in
  let upTouch := Touch.handleJumpTouchEnd touchInFlight in
  (Game.setKeys (Game.keys viaKey) (Touch.game viaTouch) = viaKey /\
   Game.keys (Touch.game viaTouch) = Game.keys g /\
   exists pressed,
     Keys.space (Game.keys viaKey) = Keys.space (Game.keys g) || pressed /\
     Keys.space (Touch.virtualKeys (Touch.touch viaTouch))
     = Keys.space (Touch.virtualKeys (Touch.touch touchInFlight))
       || pressed) /\
  (Game.setKeys (Game.keys upKey) (Touch.game upTouch) = upKey /\
   Game.keys (Touch.game upTouch) = Game.keys g /\
   Keys.space (Game.keys upKey) = false /\
   Keys.space (Touch.virtualKeys (Touch.touch upTouch)) = false /\
   Touch.jumpActive (Touch.touch upTouch) = false).
Proof.
  exact (touch_jump_as_space_key touchInFlight eq_refl eq_refl).
Defined.

Lemma triple_tap_grab_witness :
  let s3 :=
    Session.onKeyDownArrowUp 300
      (Session.onKeyDownArrowUp 200
         (Session.onKeyDownArrowUp 100 (Session.resetKeys grabReady))) in
  Session.grabCount s3 = 0%Z /\
  Game.isGrabbing (Session.game s3) = true /\
  Game.isPaused (Session.game s3) = true.
Proof.
  destruct (triple_tap_grab 100 200 300 grabReady) as (_ & _ & _ & Htap).
  destruct Htap as (Hcount & Hgrab & Hpause & _);
    try reflexivity; try lra.
  split; [exact Hcount|]. split; [exact Hgrab | exact Hpause].
Defined.
